(** * Presentation agent: layout selection, targets, patching, manuscript
      review, slide extraction and image enrichment

    A shallow embedding of the deterministic core of the
    [presentation_agent] package and the properties its specification
    states about it.  Python [int] is [Z], [list] is [list],
    [Optional[T]] is [option T]; [str] is [string], a sequence of
    characters with code points below 256; Python [float] is the
    binary64 [float] of the kernel; a call that may raise is a [result],
    and code that calls the generation service logs its calls in the
    monad [Eff.M]. *)

From Stdlib Require Import ZArith QArith Ascii String DecimalString Bool Lia.
From Stdlib Require Floats.
From stdpp Require Import base option list pmap.

Local Open Scope string_scope.
Local Open Scope Z_scope.

(** ** Python string primitives *)

Module PyStr.

(** [bool(s)] of a [str]: the empty string is falsy. *)
Definition truthy (s : string) : bool :=
  match s with
  | EmptyString => false
  | String _ _ => true
  end.

(** [s[n:]] *)
Fixpoint drop (n : nat) (s : string) : string :=
  match n, s with
  | O, _ => s
  | S _, EmptyString => EmptyString
  | S n', String _ s' => drop n' s'
  end.

(** [sub in s] *)
Fixpoint contains (sub s : string) : bool :=
  String.prefix sub s
  || match s with
     | EmptyString => false
     | String _ s' => contains sub s'
     end.

(** [sep.join(parts)] *)
Fixpoint join (sep : string) (parts : list string) : string :=
  match parts with
  | [] => EmptyString
  | x :: rest =>
      match rest with
      | [] => x
      | _ :: _ => x ++ sep ++ join sep rest
      end
  end.

(** [s.replace(old, new, 1)]: the leftmost occurrence of [old] is
    replaced; with [old] empty the leftmost occurrence is the one at
    position 0, so [new] is put in front. *)
Fixpoint replace_first (old new s : string) : string :=
  if String.prefix old s then new ++ drop (String.length old) s
  else match s with
       | EmptyString => EmptyString
       | String c s' => String c (replace_first old new s')
       end.

(** Characters [str.strip()] removes, for code points below 256:
    TAB..CR, FS..US, SPACE, NEL (133) and NBSP (160). *)
Definition is_space (c : ascii) : bool :=
  let n := nat_of_ascii c in
  ((9 <=? n)%nat && (n <=? 13)%nat)
  || ((28 <=? n)%nat && (n <=? 32)%nat)
  || (n =? 133)%nat || (n =? 160)%nat.

Fixpoint lstrip (s : string) : string :=
  match s with
  | EmptyString => EmptyString
  | String c s' => if is_space c then lstrip s' else s
  end.

Fixpoint rev_append (s acc : string) : string :=
  match s with
  | EmptyString => acc
  | String c s' => rev_append s' (String c acc)
  end.

Definition rev (s : string) : string := rev_append s EmptyString.

Definition rstrip (s : string) : string := rev (lstrip (rev s)).

Definition strip (s : string) : string := lstrip (rstrip s).

(** [str.lower()] for code points below 256: A..Z and the Latin-1
    capitals (192..222 without the multiplication sign 215) move up by
    32; every other character is kept. *)
Definition lower_char (c : ascii) : ascii :=
  let n := nat_of_ascii c in
  if ((65 <=? n)%nat && (n <=? 90)%nat)
     || ((192 <=? n)%nat && (n <=? 222)%nat && negb (n =? 215)%nat)
  then ascii_of_nat (n + 32) else c.

Fixpoint lower (s : string) : string :=
  match s with
  | EmptyString => EmptyString
  | String c s' => String (lower_char c) (lower s')
  end.

End PyStr.

(** ** Calls that may raise *)

Module Eff.

(** The exceptions the modelled code raises or catches; all of them are
    instances of Python's [Exception]. *)
Inductive PyException :=
| ValueError (msg : string)
| ValidationError (msg : string)
| ImageServiceError (msg : string)
| IndexError
| TypeError (msg : string)
| AttributeError (msg : string)
| ServiceError (msg : string).

Inductive result (A : Type) :=
| Ok (a : A)
| Raised (e : PyException).
Arguments Ok {A} a.
Arguments Raised {A} e.

(** A computation that may raise and that appends the calls it makes to
    a log of events of type [E]. *)
Definition M (E A : Type) : Type := list E -> result A * list E.

Definition ret {E A} (a : A) : M E A := fun log => (Ok a, log).

Definition bind {E A B} (c : M E A) (k : A -> M E B) : M E B :=
  fun log =>
    match c log with
    | (Ok a, log') => k a log'
    | (Raised e, log') => (Raised e, log')
    end.

(** Record one event. *)
Definition emit {E} (ev : E) : M E unit := fun log => (Ok tt, (log ++ [ev])%list).

(** The outcome of an external call, raised again when it failed. *)
Definition lift {E A} (r : result A) : M E A := fun log => (r, log).

(** [try: body / except Exception: handler] *)
Definition try_except {E A} (body : M E A) (handler : PyException -> M E A)
    : M E A :=
  fun log =>
    match body log with
    | (Ok a, log') => (Ok a, log')
    | (Raised e, log') => handler e log'
    end.

Definition run {E A} (c : M E A) : result A * list E := c [].

End Eff.

Notation "'let!' x ':=' c 'in' k" := (Eff.bind c (fun x => k))
  (at level 10, x name, c at level 100, k at level 200).

(** ** models.py *)

Record ManuscriptSection := mkManuscriptSection {
  ms_name : string;
  ms_content : string
}.

Record PresentationManuscript := mkPresentationManuscript {
  pm_title : string;
  pm_sections : list ManuscriptSection
}.

(** [slide_number] is declared [Field(..., ge=1)]: a validated slide
    carries a positive number. *)
Record SlideContent := mkSlideContent {
  sc_slide_number : positive;
  sc_title : string;
  sc_bullet_points : list string;
  sc_speaker_notes : string;
  sc_image_query : option string
}.

Record SlideWithImage := mkSlideWithImage {
  slide_number : positive;
  title : string;
  bullet_points : list string;
  speaker_notes : string;
  image_url : option string;
  image_query : option string
}.

Record SlideListOutput := mkSlideListOutput {
  slo_slides : list SlideContent
}.

(** ** design_library.py *)

Module DesignLibrary.

Definition MAX_BULLETS_DISPLAY : nat := 6.
Definition BODY_MIN_FONT_SIZE : Z := 10.
Definition BODY_FONT_REDUCE_IF_BULLETS_ABOVE : Z := 4.

Inductive LayoutType :=
| TITLE_SLIDE
| BOLD_SECTION_DIVIDER
| TITLE_AND_BULLETS
| ACCENT_LEFT_LAYOUT
| CARD_LAYOUT
| HERO_RIGHT
| HERO_BACKGROUND
| IMAGE_FOCUS
| TWO_COLUMN
| MINIMAL_TEXT
| CONCLUSION.

(** [bool(slide.image_url)]: [None] and the empty string are falsy. *)
Definition has_image_of (slide : SlideWithImage) : bool :=
  match image_url slide with
  | None => false
  | Some u => PyStr.truthy u
  end.

(** [len(slide.bullet_points) if slide.bullet_points else 0] *)
Definition bullet_count_of (slide : SlideWithImage) : Z :=
  match bullet_points slide with
  | [] => 0
  | _ :: _ => Z.of_nat (length (bullet_points slide))
  end.

(** The body of the [try] block of [select_layout].  Every operation in
    it is defined on a [SlideWithImage] and two integers, so the
    [except] branch (TITLE_AND_BULLETS) is never entered. *)
Definition select_layout (slide : SlideWithImage)
    (slide_index total_slides : Z) : LayoutType :=
  let is_first := slide_index =? 0 in
  let is_last := slide_index =? total_slides - 1 in
  let has_image := has_image_of slide in
  let bullet_count := bullet_count_of slide in
  if is_first then
    if has_image then HERO_BACKGROUND else BOLD_SECTION_DIVIDER
  else if is_last then CONCLUSION
  else if has_image && (bullet_count <=? 2) then HERO_RIGHT
  else if has_image && (bullet_count <=? 1) then IMAGE_FOCUS
  else if has_image then TWO_COLUMN
  else if bullet_count >=? 4 then CARD_LAYOUT
  else if bullet_count <=? 2 then MINIMAL_TEXT
  else ACCENT_LEFT_LAYOUT.

(** *** The priority table of the specification *)

(** What a rule may look at. *)
Record Shape := mkShape {
  sh_index : Z;
  sh_total : Z;
  sh_has_image : bool;
  sh_bullets : Z
}.

Definition shape_of (slide : SlideWithImage) (slide_index total_slides : Z)
    : Shape :=
  mkShape slide_index total_slides (has_image_of slide) (bullet_count_of slide).

Definition rule : Type := (Shape -> bool) * LayoutType.

(** Rules 1 to 7 in priority order; rule 1 is split on the image. *)
Definition priority_table : list rule :=
  [ (fun s => (sh_index s =? 0) && sh_has_image s, HERO_BACKGROUND);
    (fun s => sh_index s =? 0, BOLD_SECTION_DIVIDER);
    (fun s => sh_index s =? sh_total s - 1, CONCLUSION);
    (fun s => sh_has_image s && (sh_bullets s <=? 2), HERO_RIGHT);
    (fun s => sh_has_image s && (sh_bullets s <=? 1), IMAGE_FOCUS);
    (fun s => sh_has_image s, TWO_COLUMN);
    (fun s => negb (sh_has_image s) && (sh_bullets s >=? 4), CARD_LAYOUT);
    (fun s => negb (sh_has_image s) && (sh_bullets s <=? 2), MINIMAL_TEXT) ].

(** First match wins; rule 8 is the default. *)
Fixpoint first_match (rules : list rule) (default : LayoutType) (s : Shape)
    : LayoutType :=
  match rules with
  | [] => default
  | (guard, layout) :: rest =>
      if guard s then layout else first_match rest default s
  end.

Definition table_layout : Shape -> LayoutType :=
  first_match priority_table ACCENT_LEFT_LAYOUT.

End DesignLibrary.

(** ** presentation_targets.py *)

Module PresentationTargets.

Definition DEFAULT_WPM : Z := 135.
Definition WPM_SLOW_MIN : Z := 120.
Definition WPM_SLOW_MAX : Z := 130.
Definition WPM_FAST_MIN : Z := 140.
Definition WPM_FAST_MAX : Z := 150.
Definition SLIDES_PER_MINUTE_MIN : Z := 1.
Definition SLIDES_PER_MINUTE_MAX : Z := 2.

Definition slow_terms : list string :=
  [ "student"; "general"; "public"; "beginner"; "overview";
    "introductory"; "everyone" ].

Definition fast_terms : list string :=
  [ "expert"; "technical"; "engineer"; "developer"; "specialist";
    "professional" ].

(** [any(term in lower for term in terms)] *)
Definition any_term_in (terms : list string) (lower : string) : bool :=
  existsb (fun term => PyStr.contains term lower) terms.

Definition get_wpm_for_audience (audience : string) : Z :=
  if negb (PyStr.truthy audience) || negb (PyStr.truthy (PyStr.strip audience))
  then DEFAULT_WPM
  else
    let lower := PyStr.strip (PyStr.lower audience) in
    if any_term_in slow_terms lower then (WPM_SLOW_MIN + WPM_SLOW_MAX) / 2
    else if any_term_in fast_terms lower then (WPM_FAST_MIN + WPM_FAST_MAX) / 2
    else DEFAULT_WPM.

(** models.py, [SpeakerProfile] *)
Record SpeakerProfile := mkSpeakerProfile {
  age : Z;
  role : option string;
  experience_level : option string
}.

(** The returned [dict], one field per key. *)
Record Targets := mkTargets {
  target_word_count : Z;
  min_slides : Z;
  max_slides : Z;
  wpm : Z
}.

(** The [experience_level] attribute is truthy and
    its lower-cased text is "expert". *)
Definition is_expert (p : SpeakerProfile) : bool :=
  match experience_level p with
  | None => false
  | Some e => PyStr.truthy e && String.eqb (PyStr.lower e) "expert"
  end.

Definition compute_presentation_targets (duration_minutes : Z)
    (audience : string) (speaker_profile : option SpeakerProfile) : Targets :=
  let wpm0 := get_wpm_for_audience audience in
  let wpm1 :=
    match speaker_profile with
    | None => wpm0
    | Some p =>
        if age p <? 18 then Z.min wpm0 WPM_SLOW_MAX
        else if (age p >=? 50) && is_expert p then Z.max wpm0 WPM_FAST_MIN
        else wpm0
    end in
  let target_word_count := duration_minutes * wpm1 in
  let min_slides := Z.max 3 (duration_minutes * SLIDES_PER_MINUTE_MIN) in
  let max_slides := Z.max min_slides (duration_minutes * SLIDES_PER_MINUTE_MAX) in
  mkTargets target_word_count min_slides max_slides wpm1.

End PresentationTargets.

(** ** fact_checker.py *)

Module FactChecker.

Inductive IssueType := incorrect | misleading | outdated | unverifiable.

Record FactCheckIssue := mkFactCheckIssue {
  original_text : string;
  issue_type : IssueType;
  explanation : string;
  corrected_text : string
}.

Record FactCheckReport := mkFactCheckReport {
  issues : list FactCheckIssue
}.

(** One turn of the inner loop of [apply_patches]: the [continue] guard,
    then [content.replace(original_text, corrected_text, 1)]. *)
Definition patch_issue (content : string) (issue : FactCheckIssue) : string :=
  if negb (PyStr.truthy (original_text issue))
     || negb (PyStr.contains (original_text issue) content)
  then content
  else PyStr.replace_first (original_text issue) (corrected_text issue) content.

(** The inner loop: the issues in report order, each on the content
    the previous ones left. *)
Definition patch_content (report_issues : list FactCheckIssue)
    (content : string) : string :=
  foldl patch_issue content report_issues.

Definition patch_section (report_issues : list FactCheckIssue)
    (section : ManuscriptSection) : ManuscriptSection :=
  mkManuscriptSection (ms_name section)
                      (patch_content report_issues (ms_content section)).

Definition apply_patches (manuscript : PresentationManuscript)
    (report : FactCheckReport) : PresentationManuscript :=
  match issues report with
  | [] => manuscript
  | _ :: _ =>
      mkPresentationManuscript
        (pm_title manuscript)
        (map (patch_section (issues report)) (pm_sections manuscript))
  end.

End FactChecker.

(** ** slide_generator.py *)

Module SlideGenerator.
Import Eff.

Section Generate.

(** [self._llm.generate_structured(prompt, SlideListOutput, ...)]: the
    prompt is built from the arguments of [generate], the answer is a
    validated [SlideListOutput] or an exception. *)
Variable generate_structured :
  PresentationManuscript -> option Z -> option string -> bool ->
  result SlideListOutput.

(** The list comprehension that resets [speaker_notes]. *)
Definition reset_notes (s : SlideContent) : SlideContent :=
  mkSlideContent (sc_slide_number s) (sc_title s) (sc_bullet_points s)
                 EmptyString (sc_image_query s).

Definition generate (manuscript : PresentationManuscript)
    (duration_minutes : option Z) (audience : option string)
    (strict_slide_count_retry : bool) : result (list SlideContent) :=
  match generate_structured manuscript duration_minutes audience
                            strict_slide_count_retry with
  | Raised e => Raised e
  | Ok result => Ok (map reset_notes (slo_slides result))
  end.

End Generate.

(** Slide [i] in emission order carries number [i + 1]. *)
Definition numbered_from_one (slides : list SlideContent) : Prop :=
  forall (i : nat) (s : SlideContent),
    slides !! i = Some s -> Z.pos (sc_slide_number s) = Z.of_nat i + 1.

End SlideGenerator.

(** ** script_reviewer.py *)

Module ScriptReviewer.
Import Eff.

Record ScriptReviewEvaluation := mkScriptReviewEvaluation {
  score : Z;
  strengths : list string;
  weaknesses : list string;
  missing_topics : list string;
  improvement_suggestions : list string
}.

(** What [review_and_improve] does to the outside world. *)
Inductive Event :=
| EvEvaluate (m : PresentationManuscript)
| EvPrint (line : string)
| EvRewrite (m : PresentationManuscript) (ev : ScriptReviewEvaluation).

Section Reviewer.

(** The two generation-service calls, as functions of the arguments
    their prompts are built from. *)
Variable evaluate_call :
  PresentationManuscript -> string -> string -> Z -> string ->
  result ScriptReviewEvaluation.
Variable rewrite_call :
  PresentationManuscript -> ScriptReviewEvaluation ->
  string -> string -> Z -> string -> result PresentationManuscript.

Definition _evaluate (manuscript : PresentationManuscript)
    (topic audience : string) (duration_minutes : Z) (language : string)
    : M Event ScriptReviewEvaluation :=
  let! _ := emit (EvEvaluate manuscript) in
  lift (evaluate_call manuscript topic audience duration_minutes language).

Definition _rewrite (manuscript : PresentationManuscript)
    (evaluation : ScriptReviewEvaluation)
    (topic audience : string) (duration_minutes : Z) (language : string)
    : M Event PresentationManuscript :=
  let! _ := emit (EvRewrite manuscript evaluation) in
  lift (rewrite_call manuscript evaluation topic audience
                     duration_minutes language).

Definition review_and_improve (manuscript : PresentationManuscript)
    (topic audience : string) (duration_minutes : Z) (language : string)
    : M Event (PresentationManuscript * Z) :=
  try_except
    (let! evaluation := _evaluate manuscript topic audience
                                  duration_minutes language in
     if score evaluation >=? 8
     then ret (manuscript, score evaluation)
     else
       let! _ := emit (EvPrint "Improving script...") in
       let! improved := _rewrite manuscript evaluation topic audience
                                 duration_minutes language in
       ret (improved, score evaluation))
    (fun _ => ret (manuscript, 0)).

End Reviewer.

Definition is_rewrite (ev : Event) : bool :=
  match ev with EvRewrite _ _ => true | _ => false end.

Definition is_evaluate (ev : Event) : bool :=
  match ev with EvEvaluate _ => true | _ => false end.

End ScriptReviewer.

(** ** image_service.py *)

Module ImageService.
Import Eff.

Section Enrich.

(** The outcome of [self.fetch_image_for_query(query, slide_topic,
    slide_context, prefer_background)] as awaited by the task of the
    slide at position [i]: a URL, [None], or an exception.  The
    request goes to the network, so two tasks asking the same
    question may get different answers; the position tells them
    apart. *)
Variable fetch_image_for_query :
  nat -> string -> string -> string -> bool -> result (option string).

(** The first three bullets joined with [" | "], or the empty string
    when there are no bullets. *)
Definition slide_context (slide : SlideContent) : string :=
  match sc_bullet_points slide with
  | [] => EmptyString
  | _ :: _ => PyStr.join " | " (take 3 (sc_bullet_points slide))
  end.

(** The [image_url] that [process_slide] computes: the guarded call
    inside [try], [None] from the [except] branch. *)
Definition resolve_image (i : nat) (slide : SlideContent) : option string :=
  match sc_image_query slide with
  | None => None
  | Some q =>
      if PyStr.truthy q && PyStr.truthy (PyStr.strip q) then
        match fetch_image_for_query i (PyStr.strip q) (sc_title slide)
                                    (slide_context slide) (Nat.eqb i 0) with
        | Ok url => url
        | Raised _ => None
        end
      else None
  end.

(** The slide that the task at position [i] returns. *)
Definition task_value (i : nat) (slide : SlideContent) : SlideWithImage :=
  mkSlideWithImage (sc_slide_number slide) (sc_title slide)
                   (sc_bullet_points slide) (sc_speaker_notes slide)
                   (resolve_image i slide) (sc_image_query slide).

Definition process_slide (i : nat) (slide : SlideContent)
    : result SlideWithImage :=
  Ok (task_value i slide).

(** [asyncio.gather] with [return_exceptions=True]: one outcome per
    task, in the order of the tasks. *)
Definition gather (slides : list SlideContent)
    : list (result SlideWithImage) :=
  imap process_slide slides.

(** The loop over [enumerate(results)], from position [i] on, with
    [enriched] built so far.  [slides[i]] raises IndexError out of
    range. *)
Fixpoint collect (slides : list SlideContent) (i : nat)
    (results : list (result SlideWithImage))
    (enriched : list SlideWithImage) : result (list SlideWithImage) :=
  match results with
  | [] => Ok enriched
  | Ok r :: rest => collect slides (S i) rest (enriched ++ [r])%list
  | Raised _ :: rest =>
      match slides !! i with
      | None => Raised IndexError
      | Some slide =>
          collect slides (S i) rest
            (enriched ++
             [mkSlideWithImage (sc_slide_number slide) (sc_title slide)
                (sc_bullet_points slide) (sc_speaker_notes slide)
                None (sc_image_query slide)])%list
      end
  end.

Definition enrich_slides_with_images (slides : list SlideContent)
    : result (list SlideWithImage) :=
  collect slides 0 (gather slides) [].

End Enrich.

End ImageService.

(** ** theme_library.py and ppt_exporter.py *)

Module PPTExporter.

Definition rgb : Type := Z * Z * Z.

Record ThemeStyle := mkThemeStyle {
  name : string;
  background : rgb;
  primary : rgb;
  secondary : rgb;
  accent : rgb;
  card_bg : rgb;
  overlay_dark : rgb;
  section_bg : rgb;
  section_text : rgb;
  use_gradient : bool;
  gradient_start : option rgb;
  gradient_end : option rgb;
  font_family : string;
  title_size : Z;
  body_size : Z;
  caption_size : Z
}.

(** [getattr(self._theme, 'body_size', 18)]; [self._theme] is [None]
    until [export] sets it. *)
Definition theme_body_size (theme : option ThemeStyle) : Z :=
  match theme with
  | Some t => body_size t
  | None => 18
  end.

Definition _prepare_bullets (theme : option ThemeStyle)
    (bullet_points : list string) : list string * option Z :=
  match bullet_points with
  | [] => ([], None)
  | _ :: _ =>
      let bullets := take DesignLibrary.MAX_BULLETS_DISPLAY bullet_points in
      let font_override :=
        if Z.of_nat (length bullet_points)
           >=? DesignLibrary.BODY_FONT_REDUCE_IF_BULLETS_ABOVE
        then Some (Z.max DesignLibrary.BODY_MIN_FONT_SIZE
                         (theme_body_size theme - 2))
        else None in
      (bullets, font_override)
  end.

End PPTExporter.

(** ** ppt_exporter.py: fitting a picture into a box *)

Module PictureFit.
Import PrimFloat FloatOps SpecFloat.

Local Open Scope float_scope.

(** The assumed resolution of an image, in pixels per inch. *)
Definition _IMG_DPI : float := 96.

(** [float(n)] of an [int]: the nearest binary64 number, ties to even;
    [None] stands for the OverflowError beyond the range. *)
Definition float_of_int (n : Z) : option float :=
  let x := SF2Prim (binary_normalize prec emax n 0 false) in
  if is_infinity x then None else Some x.

(** [int(x)] of a [float]: truncation towards zero; [None] stands for
    the ValueError of a nan and the OverflowError of an infinity. *)
Definition int_of_float (x : float) : option Z :=
  match Prim2SF x with
  | S754_zero _ => Some 0%Z
  | S754_finite negative m e =>
      let n := Z.shiftl (Zpos m) e in
      Some (if negative then Z.opp n else n)
  | S754_infinity _ | S754_nan => None
  end.

(** python-pptx, [Inches(x)]: a length in English Metric Units,
    [int(x * 914400)]. *)
Definition Inches (x : float) : option Z := int_of_float (x * 914400).

(** [min(a, b)]: the second argument only when it is less than the
    first. *)
Definition py_min (a b : float) : float := if b <? a then b else a.

(** [_get_image_size_inches], for what Pillow reports about the stream:
    the size in pixels, or nothing when the image cannot be read. *)
Definition _get_image_size_inches (img_size : option (Z * Z))
    : option (float * float) :=
  match img_size with
  | None => None
  | Some (w_px, h_px) =>
      if ((w_px <=? 0) || (h_px <=? 0))%Z then None
      else
        match float_of_int w_px, float_of_int h_px with
        | Some w, Some h => Some (w / _IMG_DPI, h / _IMG_DPI)
        | _, _ => None
        end
  end.

(** The geometry of a picture, in English Metric Units. *)
Record Picture := mkPicture {
  pic_left : Z;
  pic_top : Z;
  pic_width : Z;
  pic_height : Z
}.

(** [scale], and [(fit_w, fit_h)], in inches. *)
Definition scale_of (img_w img_h box_width_inch box_height_inch : float)
    : float :=
  py_min (box_width_inch / img_w) (box_height_inch / img_h).

Definition fitted (img_w img_h box_width_inch box_height_inch : float)
    : float * float :=
  let scale := scale_of img_w img_h box_width_inch box_height_inch in
  (img_w * scale, img_h * scale).

(** The four arguments of [add_picture]; [None] when a conversion to
    [Inches] raises. *)
Definition placement
    (img_w img_h left_inch top_inch box_width_inch box_height_inch : float)
    : option Picture :=
  let '(fit_w, fit_h) := fitted img_w img_h box_width_inch box_height_inch in
  let left_cen := left_inch + (box_width_inch - fit_w) / 2 in
  let top_cen := top_inch + (box_height_inch - fit_h) / 2 in
  match Inches left_cen, Inches top_cen, Inches fit_w, Inches fit_h with
  | Some l, Some t, Some w, Some h => Some (mkPicture l t w h)
  | _, _, _, _ => None
  end.

Section Slide.

(** [slide.shapes.add_picture(...)] with the requested geometry: whether
    it returns, rather than raises. *)
Variable add_picture : Picture -> bool.

(** The picture added to the slide; [None] is the return value False,
    with nothing added. *)
Definition _add_picture_fit_centered (img_size : option (Z * Z))
    (left_inch top_inch box_width_inch box_height_inch : float)
    : option Picture :=
  match _get_image_size_inches img_size with
  | None => None
  | Some (img_w, img_h) =>
      if (img_w <=? 0) || (img_h <=? 0) then None
      else
        match placement img_w img_h left_inch top_inch
                        box_width_inch box_height_inch with
        | Some picture => if add_picture picture then Some picture else None
        | None => None
        end
  end.

End Slide.

End PictureFit.

(** ** The patch of the specification *)

Module PatchSpec.
Import FactChecker.

Local Open Scope string_scope.

(** [o] occurs verbatim in [c]. *)
Definition occurs_in (o c : string) : Prop :=
  exists pre post, c = pre ++ o ++ post.

(** [c'] is [c] with the first occurrence of [o], and nothing else,
    replaced by [n]. *)
Definition first_occurrence_replaced (o n c c' : string) : Prop :=
  exists pre post,
    c = pre ++ o ++ post
    /\ c' = pre ++ n ++ post
    /\ forall pre' post',
         c = pre' ++ o ++ post' ->
         (String.length pre <= String.length pre')%nat.

(** When an issue counts as matched in a content: by the words of the
    specification, when its [original_text] occurs in it. *)
Definition matched_as_stated (i : FactCheckIssue) (c : string) : Prop :=
  occurs_in (original_text i) c.

(** The same, for issues that quote something: an empty [original_text]
    matches nothing. *)
Definition matched_nonempty (i : FactCheckIssue) (c : string) : Prop :=
  original_text i <> EmptyString /\ occurs_in (original_text i) c.

Section Patching.

Variable matched : FactCheckIssue -> string -> Prop.

(** One issue on one content: a matched issue has its first occurrence
    replaced, an unmatched one changes nothing. *)
Definition issue_applied (i : FactCheckIssue) (c c' : string) : Prop :=
  (matched i c ->
   first_occurrence_replaced (original_text i) (corrected_text i) c c')
  /\ (~ matched i c -> c' = c).

(** The issues in report order, each on the content the previous ones
    left. *)
Inductive issues_applied : list FactCheckIssue -> string -> string -> Prop :=
| issues_applied_nil (c : string) : issues_applied [] c c
| issues_applied_cons (i : FactCheckIssue) (rest : list FactCheckIssue)
    (c c1 c2 : string) :
    issue_applied i c c1 ->
    issues_applied rest c1 c2 ->
    issues_applied (i :: rest) c c2.

Definition section_patched (report_issues : list FactCheckIssue)
    (s s' : ManuscriptSection) : Prop :=
  ms_name s' = ms_name s
  /\ issues_applied report_issues (ms_content s) (ms_content s')
  /\ ((forall i, In i report_issues -> ~ matched i (ms_content s)) -> s' = s).

(** The patch of the specification, from [m] to [m'] under [report]. *)
Definition patched (m : PresentationManuscript) (report : FactCheckReport)
    (m' : PresentationManuscript) : Prop :=
  pm_title m' = pm_title m
  /\ Forall2 (section_patched (issues report)) (pm_sections m) (pm_sections m')
  /\ (issues report = [] -> m' = m).

End Patching.

End PatchSpec.

(** ** Sample data *)

Module Fixtures.
Import Eff FactChecker ScriptReviewer.

Local Open Scope string_scope.

Definition draft : PresentationManuscript :=
  mkPresentationManuscript "Tides"
    [mkManuscriptSection "Introduction" "Tides follow the moon."].

Definition polished : PresentationManuscript :=
  mkPresentationManuscript "Tides"
    [mkManuscriptSection "Introduction" "Twice a day the sea follows the moon."].

Definition scoring (s : Z) :
  PresentationManuscript -> string -> string -> Z -> string ->
  result ScriptReviewEvaluation :=
  fun _ _ _ _ _ => Ok (mkScriptReviewEvaluation s [] ["flat opening"] [] []).

Definition rewriting :
  PresentationManuscript -> ScriptReviewEvaluation ->
  string -> string -> Z -> string -> result PresentationManuscript :=
  fun _ _ _ _ _ _ => Ok polished.

Definition failing_rewrite :
  PresentationManuscript -> ScriptReviewEvaluation ->
  string -> string -> Z -> string -> result PresentationManuscript :=
  fun _ _ _ _ _ _ => Raised (ValueError "Invalid JSON from LLM").

Definition tides : PresentationManuscript :=
  mkPresentationManuscript "Tides"
    [mkManuscriptSection "Introduction" "Tides follow the moon.";
     mkManuscriptSection "Main Part" "Spring tides come with the full moon."].

(** A service that answers with a valid slide list numbered 1, 3. *)
Definition skipping_service :
  PresentationManuscript -> option Z -> option string -> bool ->
  result SlideListOutput :=
  fun _ _ _ _ =>
    Ok (mkSlideListOutput
          [mkSlideContent 1 "Tides" ["Moon"; "Sea"] EmptyString None;
           mkSlideContent 3 "Spring tides" ["Full moon"] "say it slowly"
                          (Some "full moon over sea")]).

Definition two_cats : PresentationManuscript :=
  mkPresentationManuscript "Pets"
    [mkManuscriptSection "Introduction" "The cat sat. The cat ran.";
     mkManuscriptSection "Conclusion" "Dogs bark."].

Definition cat_to_dog : FactCheckReport :=
  mkFactCheckReport [mkFactCheckIssue "cat" incorrect "it was a dog" "dog"].

Definition abc : PresentationManuscript :=
  mkPresentationManuscript "Letters" [mkManuscriptSection "Introduction" "abc"].

(** A report whose only issue quotes nothing. *)
Definition empty_quote : FactCheckReport :=
  mkFactCheckReport [mkFactCheckIssue EmptyString unverifiable "no quote" "X"].

Definition one_cat : PresentationManuscript :=
  mkPresentationManuscript "Pets"
    [mkManuscriptSection "Introduction" "The cat sat.";
     mkManuscriptSection "Conclusion" "Dogs bark."].

(** A search that finds a picture for every query. *)
Definition finds_all :
  nat -> string -> string -> string -> bool -> result (option string) :=
  fun _ query _ _ _ => Ok (Some ("https://images.example/" ++ query)).

(** The same search, except that the request of the slide at position 1
    fails. *)
Definition fails_at_one :
  nat -> string -> string -> string -> bool -> result (option string) :=
  fun i query topic context prefer_bg =>
    if Nat.eqb i 1 then Raised (ImageServiceError "Unsplash API error")
    else finds_all i query topic context prefer_bg.

Definition three_slides : list SlideContent :=
  [mkSlideContent 1 "Tides" ["Moon"; "Sea"] EmptyString (Some "sea shore");
   mkSlideContent 2 "Spring tides" ["Full moon"] EmptyString
                  (Some "full moon over sea");
   mkSlideContent 3 "Harbours" ["Locks"; "Quays"; "Pilots"] EmptyString
                  (Some " harbour lock ")].

End Fixtures.

(** ** More Python string primitives *)

Module PyText.
Import PyStr.

(** Every character of [s] is one that [strip] and [split] treat as
    whitespace. *)
Fixpoint all_space (s : string) : bool :=
  match s with
  | EmptyString => true
  | String c s' => is_space c && all_space s'
  end.

(** [s.split()] without separator, reading [s] with [word] the word
    collected so far: runs of whitespace separate the words and produce
    no empty word. *)
Fixpoint split_from (word s : string) : list string :=
  match s with
  | EmptyString => if truthy word then [word] else []
  | String c s' =>
      if is_space c
      then (if truthy word then word :: split_from EmptyString s'
            else split_from EmptyString s')
      else split_from (word ++ String c EmptyString) s'
  end.

Definition split (s : string) : list string := split_from EmptyString s.

(** [s[:n]] for [n >= 0] *)
Fixpoint take (n : nat) (s : string) : string :=
  match n, s with
  | O, _ => EmptyString
  | S _, EmptyString => EmptyString
  | S n', String c s' => String c (take n' s')
  end.

(** [s[:k]] for any integer [k]: a negative [k] counts from the end. *)
Definition slice_to (k : Z) (s : string) : string :=
  if 0 <=? k then take (Z.to_nat k) s
  else take (Z.to_nat (Z.of_nat (String.length s) + k)) s.

(** The two-character separator of [full_text]: two line feeds. *)
Definition blank_line : string :=
  String (ascii_of_nat 10) (String (ascii_of_nat 10) EmptyString).

End PyText.

(** ** presentation_targets.py and models.py: word counts *)

Module WordCount.

(** [PresentationManuscript.full_text] *)
Definition full_text (m : PresentationManuscript) : string :=
  PyStr.join PyText.blank_line (map ms_content (pm_sections m)).

Definition word_count (text : string) : Z :=
  if negb (PyStr.truthy text) || negb (PyStr.truthy (PyStr.strip text))
  then 0
  else Z.of_nat (length (PyText.split text)).

Definition manuscript_word_count (manuscript : PresentationManuscript) : Z :=
  word_count (full_text manuscript).

Definition is_slide_count_acceptable {A : Type} (slides : list A)
    (min_slides max_slides : Z) : bool :=
  let n := Z.of_nat (length slides) in
  (min_slides <=? n) && (n <=? max_slides).

End WordCount.

(** ** fact_checker.py: check and patch *)

Module FactCheckFlow.
Import Eff FactChecker.

Section Flow.

(** The outcome of [self.fact_check(manuscript, topic, audience)]: the
    report of the generation service, or the exception it raised. *)
Variable fact_check :
  PresentationManuscript -> string -> string -> result FactCheckReport.

(** The body of the [try] block. *)
Definition check_then_patch (manuscript : PresentationManuscript)
    (topic audience : string) : result PresentationManuscript :=
  match fact_check manuscript topic audience with
  | Raised e => Raised e
  | Ok report =>
      match issues report with
      | [] => Ok manuscript
      | _ :: _ => Ok (apply_patches manuscript report)
      end
  end.

Definition fact_check_and_patch (manuscript : PresentationManuscript)
    (topic audience : string) : result PresentationManuscript :=
  match check_then_patch manuscript topic audience with
  | Ok patched => Ok patched
  | Raised _ => Ok manuscript
  end.

End Flow.

End FactCheckFlow.

(** ** ppt_exporter.py: titles *)

Module TitlePrep.

Section Ellipsis.

(** The character of the one-character string appended to a shortened
    title, HORIZONTAL ELLIPSIS (U+2026).  It lies outside the range of
    [ascii]; any single character stands for it. *)
Variable ellipsis : ascii.

Definition _prepare_title (title : string) (max_chars : Z) : string :=
  if negb (PyStr.truthy title) then title
  else
    let title := PyStr.strip title in
    if Z.of_nat (String.length title) <=? max_chars then title
    else PyStr.rstrip (PyText.slice_to (max_chars - 1) title)
         ++ String ellipsis EmptyString.

End Ellipsis.

End TitlePrep.

(** ** notes_generator.py *)

Module NotesGenerator.
Import Eff.

Record SlideNotesOutput := mkSlideNotesOutput {
  sn_slide_number : positive;
  sn_speaker_notes : string
}.

Record NotesListOutput := mkNotesListOutput {
  notes : list SlideNotesOutput
}.

(** The dict comprehension [{n.slide_number: n.speaker_notes for n in
    result.notes}]: the notes are entered in list order, a later entry
    for a number replaces an earlier one. *)
Definition notes_by_slide (answer : list SlideNotesOutput) : Pmap string :=
  foldl (fun by_slide n => <[sn_slide_number n := sn_speaker_notes n]> by_slide)
        ∅ answer.

(** One turn of the merge loop; [notes_by_slide.get(s.slide_number, "")]
    is the empty string for a number without entry. *)
Definition merge_notes (by_slide : Pmap string) (s : SlideContent)
    : SlideContent :=
  mkSlideContent (sc_slide_number s) (sc_title s) (sc_bullet_points s)
                 (default EmptyString (by_slide !! sc_slide_number s))
                 (sc_image_query s).

Section Generate.

(** [self._llm.generate_structured(prompt, NotesListOutput, ...)]; the
    prompt is built from the manuscript and the slides. *)
Variable generate_structured :
  PresentationManuscript -> list SlideContent -> result NotesListOutput.

Definition generate (manuscript : PresentationManuscript)
    (slides : list SlideContent) : list SlideContent :=
  match generate_structured manuscript slides with
  | Raised _ => slides
  | Ok result => map (merge_notes (notes_by_slide (notes result))) slides
  end.

End Generate.

End NotesGenerator.

(** ** image_service.py: search, candidates and selection *)

Module ImageSearch.
Import Eff.

Definition _MIN_WIDTH : Z := 800.

(** What a JSON object holds under a key: nothing, [null], or a value. *)
Inductive Field (A : Type) :=
| Absent
| Null
| Value (a : A).
Arguments Absent {A}.
Arguments Null {A}.
Arguments Value {A} a.

(** The [urls] object of a search result, by what [urls.get("regular")]
    and [urls.get("small")] return: [None] for an absent key and for
    [null], else the string. *)
Record Urls := mkUrls {
  regular : option string;
  small : option string
}.

(** One entry of the "results" array of the search answer, a JSON
    object, as far as the code reads it: the object [urls] and the
    integers [width] and [height], each absent, [null] or set. *)
Record SearchResult := mkSearchResult {
  urls : Field Urls;
  width : Field Z;
  height : Field Z
}.

(** [r.get(key, 0)] for an integer field: the default for an absent key,
    [None] for [null]. *)
Definition get_int (field : Field Z) : option Z :=
  match field with
  | Absent => Some 0
  | Null => None
  | Value n => Some n
  end.

(** [r.get("urls", {})]: the empty object for an absent key, [None] for
    [null]. *)
Definition get_urls (r : SearchResult) : option Urls :=
  match urls r with
  | Absent => Some (mkUrls None None)
  | Null => None
  | Value u => Some u
  end.

(** What Python raises for [None.get(...)] and for [None < 800]. *)
Definition no_get : PyException :=
  AttributeError "'NoneType' object has no attribute 'get'".

Definition no_order : PyException :=
  TypeError "'<' not supported between instances of 'NoneType' and 'int'".

Record _Candidate := mk_Candidate {
  url : string;
  c_width : option Z;
  c_height : option Z;
  raw : SearchResult
}.

(** models.py, [ImageEvaluation] *)
Record ImageEvaluation := mkImageEvaluation {
  score : Z;
  reason : string;
  suitable_as_background : bool
}.

(** [a or b] on optional strings: [a] when it is truthy, else [b]. *)
Definition py_or (a b : option string) : option string :=
  match a with
  | Some u => if PyStr.truthy u then a else b
  | None => b
  end.

(** [urls.get("regular") or urls.get("small")], for [urls] as
    [r.get("urls", {})] returned it. *)
Definition url_of (urls : option Urls) : result (option string) :=
  match urls with
  | None => Raised no_get
  | Some u => Ok (py_or (regular u) (small u))
  end.

(** [width and height and width < height] *)
Definition portrait (width height : option Z) : bool :=
  match width, height with
  | Some w, Some h => negb (w =? 0) && negb (h =? 0) && (w <? h)
  | _, _ => false
  end.

(** The first loop of [_metadata_select_best]: the URL it returns, or
    [None] when it ends without returning. *)
Fixpoint first_wide_landscape (results : list SearchResult)
    : result (option string) :=
  match results with
  | [] => Ok None
  | r :: rest =>
      let urls := get_urls r in
      let width := get_int (width r) in
      let height := get_int (height r) in
      if portrait width height then first_wide_landscape rest
      else
        match width with
        | None => Raised no_order
        | Some w =>
            if w <? _MIN_WIDTH then first_wide_landscape rest
            else
              match url_of urls with
              | Raised e => Raised e
              | Ok (Some u) =>
                  if PyStr.truthy u then Ok (Some u)
                  else first_wide_landscape rest
              | Ok None => first_wide_landscape rest
              end
        end
  end.

(** The second loop of [_metadata_select_best]. *)
Fixpoint first_with_url (results : list SearchResult)
    : result (option string) :=
  match results with
  | [] => Ok None
  | r :: rest =>
      match url_of (get_urls r) with
      | Raised e => Raised e
      | Ok (Some u) =>
          if PyStr.truthy u then Ok (Some u) else first_with_url rest
      | Ok None => first_with_url rest
      end
  end.

Definition _metadata_select_best (results : list SearchResult)
    : result (option string) :=
  match first_wide_landscape results with
  | Raised e => Raised e
  | Ok (Some u) => Ok (Some u)
  | Ok None => first_with_url results
  end.

(** [candidates.append(c)] after the rest of the loop has been modelled. *)
Definition appended (c : _Candidate) (rest : result (list _Candidate))
    : result (list _Candidate) :=
  match rest with
  | Raised e => Raised e
  | Ok cs => Ok (c :: cs)
  end.

(** The first loop of [_parse_candidates]; [r.get("width", 0) or 0] is
    the width, 0 when absent or [null]. *)
Fixpoint landscape_candidates (results : list SearchResult)
    : result (list _Candidate) :=
  match results with
  | [] => Ok []
  | r :: rest =>
      match url_of (get_urls r) with
      | Raised e => Raised e
      | Ok (Some u) =>
          if PyStr.truthy u then
            let w := default 0 (get_int (width r)) in
            let h := default 0 (get_int (height r)) in
            if w <? h then landscape_candidates rest
            else appended (mk_Candidate u (Some w) (Some h) r)
                          (landscape_candidates rest)
          else landscape_candidates rest
      | Ok None => landscape_candidates rest
      end
  end.

(** The second loop of [_parse_candidates]: the sizes are stored as
    [r.get] returns them. *)
Fixpoint any_candidates (results : list SearchResult)
    : result (list _Candidate) :=
  match results with
  | [] => Ok []
  | r :: rest =>
      match url_of (get_urls r) with
      | Raised e => Raised e
      | Ok (Some u) =>
          if PyStr.truthy u
          then appended (mk_Candidate u (get_int (width r))
                                      (get_int (height r)) r)
                        (any_candidates rest)
          else any_candidates rest
      | Ok None => any_candidates rest
      end
  end.

Definition _parse_candidates (results : list SearchResult)
    : result (list _Candidate) :=
  match landscape_candidates results with
  | Raised e => Raised e
  | Ok [] => any_candidates results
  | Ok (c :: cs) => Ok (c :: cs)
  end.

(** The sort key of [_select_best_by_vision]. *)
Definition key (prefer_background : bool)
    (item : _Candidate * ImageEvaluation) : Z * Z :=
  let ev := item.2 in
  let bg_bonus :=
    if prefer_background && suitable_as_background ev then 1 else 0 in
  (score ev + bg_bonus * 2, score ev).

(** [a > b] on pairs of integers, as Python compares tuples. *)
Definition pair_gt (a b : Z * Z) : bool :=
  (b.1 <? a.1) || ((a.1 =? b.1) && (b.2 <? a.2)).

(** [max(items, key=k)] on a non-empty sequence, with [best] the maximum
    so far: an item replaces it only when its key is greater. *)
Fixpoint max_from {A : Type} (k : A -> Z * Z) (best : A) (items : list A) : A :=
  match items with
  | [] => best
  | x :: rest => max_from k (if pair_gt (k x) (k best) then x else best) rest
  end.

Definition _select_best_by_vision (candidates : list _Candidate)
    (evaluations : list (_Candidate * ImageEvaluation))
    (prefer_background : bool) : option string :=
  match evaluations with
  | [] => None
  | first :: rest =>
      Some (url (max_from (key prefer_background) first rest).1)
  end.

(** What the search request can end in: an [httpx.HTTPError] of the
    request, any other exception up to the slice of the results (a body
    that is no JSON, a "results" value that is no list), or the list of
    results. *)
Inductive SearchOutcome :=
| HTTPError (msg : string)
| OtherFailure (e : PyException)
| Answer (results : list SearchResult).

Section Fetch.

(** The GET request of [fetch_image_for_query] for a query, together
    with [response.json()] and [data.get("results", [])]; the slice
    [[:3]] is taken below. *)
Variable search : string -> SearchOutcome.

(** [self._llm]: absent, or the outcome of
    [evaluate_image_vision(image_url, slide_topic, slide_context)]. *)
Variable llm : option (string -> string -> string -> result ImageEvaluation).

Definition _evaluate_candidate (candidate : _Candidate)
    (slide_topic slide_context : string) : option ImageEvaluation :=
  match llm with
  | None => None
  | Some evaluate_image_vision =>
      match evaluate_image_vision (url candidate) slide_topic slide_context with
      | Ok ev => Some ev
      | Raised _ => None
      end
  end.

(** The candidates that got an evaluation, paired with it, in candidate
    order. *)
Definition evaluated (candidates : list _Candidate) (topic context : string)
    : list (_Candidate * ImageEvaluation) :=
  omap (fun c => match _evaluate_candidate c topic context with
                 | Some ev => Some (c, ev)
                 | None => None
                 end) candidates.

Definition fetch_image_for_query (query slide_topic slide_context : string)
    (prefer_background : bool) : result (option string) :=
  match search query with
  | HTTPError msg => Raised (ImageServiceError ("Unsplash API error: " ++ msg))
  | OtherFailure e => Raised e
  | Answer all_results =>
      let results := take 3 all_results in
      match results with
      | [] => Ok None
      | _ :: _ =>
          match _parse_candidates results with
          | Raised e => Raised e
          | Ok [] => Ok None
          | Ok (c :: cs) =>
              let candidates := c :: cs in
              let topic :=
                if PyStr.truthy slide_topic then slide_topic else query in
              let context :=
                if PyStr.truthy slide_context then slide_context
                else "Search: " ++ query in
              match llm with
              | Some _ =>
                  match evaluated candidates topic context with
                  | [] => _metadata_select_best results
                  | ev :: evs =>
                      Ok (_select_best_by_vision candidates (ev :: evs)
                                                 prefer_background)
                  end
              | None => _metadata_select_best results
              end
          end
      end
  end.

End Fetch.

End ImageSearch.

(** Words for the selection properties. *)
Module ImageSearchSpec.
Import Eff ImageSearch.

(** The URL the code reads from a result: [regular] when it is set and
    not empty, else [small]; nothing when [urls] is [null]. *)
Definition result_url (r : SearchResult) : option string :=
  match get_urls r with
  | Some u => py_or (regular u) (small u)
  | None => None
  end.

(** The result carries a URL that can be used: a non-empty one. *)
Definition usable (r : SearchResult) : bool :=
  match result_url r with
  | Some u => PyStr.truthy u
  | None => false
  end.

(** Neither [urls] nor [width] is [null]. *)
Definition well_formed (r : SearchResult) : Prop :=
  urls r <> Null /\ width r <> Null.

(** The result has an integer width of at least 800, is not known to be
    portrait, and carries a usable URL. *)
Definition wide_landscape (r : SearchResult) : bool :=
  match get_int (width r) with
  | Some w =>
      negb (portrait (Some w) (get_int (height r)))
      && (_MIN_WIDTH <=? w) && usable r
  | None => false
  end.

(** The sizes that the first loop of [_parse_candidates] compares. *)
Definition width_or_0 (r : SearchResult) : Z := default 0 (get_int (width r)).
Definition height_or_0 (r : SearchResult) : Z := default 0 (get_int (height r)).

(** [a <= b] on pairs, lexicographically. *)
Definition pair_le (a b : Z * Z) : Prop :=
  a.1 < b.1 \/ (a.1 = b.1 /\ a.2 <= b.2).

(** The first component of the sort key: the score, raised by 2 for an
    image that suits as background when a background is preferred. *)
Definition weight (prefer_background : bool)
    (item : _Candidate * ImageEvaluation) : Z :=
  score item.2
  + (if prefer_background && suitable_as_background item.2 then 2 else 0).

End ImageSearchSpec.

(** ** design_library.py: templates *)

Module Templates.
Import DesignLibrary.

#[global] Instance LayoutType_eq_dec : EqDecision LayoutType.
Proof. solve_decision. Defined.

(** [dict.get(key)] on a dict given by its items in insertion order. *)
Fixpoint dict_get {K V : Type} `{EqDecision K} (items : list (K * V)) (k : K)
    : option V :=
  match items with
  | [] => None
  | (k', v) :: rest => if decide (k' = k) then Some v else dict_get rest k
  end.

(** Position and size in inches; the numbers are the decimal literals of
    the source. *)
Record PlaceholderBox := mkPlaceholderBox {
  left : Q;
  top : Q;
  width : Q;
  height : Q
}.

Record LayoutTemplate := mkLayoutTemplate {
  name : LayoutType;
  title_area : option PlaceholderBox;
  body_area : option PlaceholderBox;
  image_area : option PlaceholderBox;
  subtitle_area : option PlaceholderBox;
  caption_area : option PlaceholderBox;
  accent_left : bool;
  accent_top : bool;
  card_style : bool;
  hero_full_image : bool
}.

Local Open Scope Q_scope.

Definition TEMPLATES : list (LayoutType * LayoutTemplate) :=
  [ (TITLE_SLIDE,
     mkLayoutTemplate TITLE_SLIDE
       (Some (mkPlaceholderBox 0.59 2.6 12.15 1.6)) None None
       (Some (mkPlaceholderBox 0.59 4.4 12.15 1.0)) None
       false true false false);
    (BOLD_SECTION_DIVIDER,
     mkLayoutTemplate BOLD_SECTION_DIVIDER
       (Some (mkPlaceholderBox 0.59 2.4 12.15 2.0))
       (Some (mkPlaceholderBox 0.59 4.6 12.15 1.2)) None None None
       false false false false);
    (TITLE_AND_BULLETS,
     mkLayoutTemplate TITLE_AND_BULLETS
       (Some (mkPlaceholderBox 0.59 0.47 12.15 0.95))
       (Some (mkPlaceholderBox 0.59 1.6 12.15 5.2)) None None None
       false false false false);
    (ACCENT_LEFT_LAYOUT,
     mkLayoutTemplate ACCENT_LEFT_LAYOUT
       (Some (mkPlaceholderBox 0.85 0.47 11.4 0.95))
       (Some (mkPlaceholderBox 0.85 1.6 11.4 5.2)) None None None
       true false false false);
    (CARD_LAYOUT,
     mkLayoutTemplate CARD_LAYOUT
       (Some (mkPlaceholderBox 0.59 0.47 12.15 0.95))
       (Some (mkPlaceholderBox 0.79 1.7 11.75 4.9)) None None None
       false false true false);
    (HERO_RIGHT,
     mkLayoutTemplate HERO_RIGHT
       (Some (mkPlaceholderBox 0.59 0.47 5.5 0.95))
       (Some (mkPlaceholderBox 0.59 1.6 5.5 5.0))
       (Some (mkPlaceholderBox 6.3 0 7.0 7.5)) None None
       false false false false);
    (HERO_BACKGROUND,
     mkLayoutTemplate HERO_BACKGROUND
       (Some (mkPlaceholderBox 0.59 2.2 12.15 1.4))
       (Some (mkPlaceholderBox 0.59 3.8 12.15 2.5)) None None None
       false false false true);
    (IMAGE_FOCUS,
     mkLayoutTemplate IMAGE_FOCUS
       None None
       (Some (mkPlaceholderBox 0.59 0.47 12.15 5.2)) None
       (Some (mkPlaceholderBox 0.59 5.9 12.15 0.9))
       false false false false);
    (TWO_COLUMN,
     mkLayoutTemplate TWO_COLUMN
       (Some (mkPlaceholderBox 0.59 0.47 12.15 0.95))
       (Some (mkPlaceholderBox 0.59 1.6 5.8 5.0))
       (Some (mkPlaceholderBox 6.6 1.6 5.9 4.0)) None None
       false false false false);
    (MINIMAL_TEXT,
     mkLayoutTemplate MINIMAL_TEXT
       (Some (mkPlaceholderBox 0.59 2.8 12.15 1.2))
       (Some (mkPlaceholderBox 0.59 4.2 12.15 1.5)) None None None
       false false false false);
    (CONCLUSION,
     mkLayoutTemplate CONCLUSION
       (Some (mkPlaceholderBox 0.59 0.47 12.15 0.95))
       (Some (mkPlaceholderBox 0.59 1.6 12.15 5.2)) None None None
       true false false false) ].

(** [TEMPLATES.get(layout, TEMPLATES[LayoutType.TITLE_AND_BULLETS])];
    [None] stands for the KeyError of a missing default entry. *)
Definition get_template (layout : LayoutType) : option LayoutTemplate :=
  match dict_get TEMPLATES TITLE_AND_BULLETS with
  | None => None
  | Some fallback => Some (default fallback (dict_get TEMPLATES layout))
  end.

(** How many of the four decoration flags a template sets. *)
Definition decorations (t : LayoutTemplate) : nat :=
  (if accent_left t then 1 else 0) + (if accent_top t then 1 else 0)
  + (if card_style t then 1 else 0) + (if hero_full_image t then 1 else 0).

End Templates.

(** ** theme_library.py *)

Module ThemeLibrary.
Import PPTExporter.

Definition THEMES : list (string * ThemeStyle) :=
  [ ("LIGHT_PROFESSIONAL",
     mkThemeStyle "Light Professional" (247, 249, 252) (15, 23, 42)
       (100, 116, 139) (37, 99, 235) (255, 255, 255) (15, 23, 42)
       (37, 99, 235) (255, 255, 255) false None None "Calibri" 48 22 18);
    ("DARK_TECH",
     mkThemeStyle "Dark Tech" (15, 23, 42) (248, 250, 252)
       (148, 163, 184) (56, 189, 248) (30, 41, 59) (15, 23, 42)
       (56, 189, 248) (15, 23, 42) false None None "Calibri" 48 22 18);
    ("CORPORATE_BLUE",
     mkThemeStyle "Corporate Blue" (255, 255, 255) (1, 47, 105)
       (70, 98, 132) (0, 84, 159) (245, 248, 252) (1, 47, 105)
       (0, 84, 159) (255, 255, 255) false None None "Calibri" 48 22 18);
    ("MINIMAL_CLEAN",
     mkThemeStyle "Minimal Clean" (255, 255, 255) (23, 23, 23)
       (115, 115, 115) (163, 163, 163) (250, 250, 250) (23, 23, 23)
       (245, 245, 245) (23, 23, 23) false None None "Calibri" 48 22 18);
    ("BOLD_GRADIENT",
     mkThemeStyle "Bold Gradient" (250, 250, 255) (15, 23, 42)
       (71, 85, 105) (99, 102, 241) (255, 255, 255) (30, 27, 75)
       (99, 102, 241) (255, 255, 255) true (Some (99, 102, 241))
       (Some (168, 85, 247)) "Calibri" 48 22 18) ].

Definition DEFAULT_THEME : string := "LIGHT_PROFESSIONAL".

(** [dict.get(key)] for string keys. *)
Fixpoint themes_get (items : list (string * ThemeStyle)) (k : string)
    : option ThemeStyle :=
  match items with
  | [] => None
  | (k', v) :: rest => if String.eqb k' k then Some v else themes_get rest k
  end.

Section Upper.

(** [str.upper()]; it can lengthen a string and leave the 8-bit range,
    and is taken as given. *)
Variable upper : string -> string.

(** [None] stands for the KeyError of a missing default theme. *)
Definition get_theme (theme_name : option string) : option ThemeStyle :=
  match themes_get THEMES DEFAULT_THEME with
  | None => None
  | Some fallback =>
      match theme_name with
      | None => Some fallback
      | Some n =>
          if PyStr.truthy n
          then Some (default fallback
                       (themes_get THEMES (PyStr.strip (upper n))))
          else Some fallback
      end
  end.

End Upper.

End ThemeLibrary.

(** ** models.py: user input, outline and export result *)

Module Models.

Record UserInput := mkUserInput {
  topic : string;
  duration_minutes : Z;
  audience : string;
  language : string;
  theme : string;
  speaker_profile : option PresentationTargets.SpeakerProfile
}.

Record OutlineSection := mkOutlineSection {
  os_type : string;
  os_title : string;
  os_points : list string
}.

Record PresentationOutline := mkPresentationOutline {
  po_title : string;
  po_sections : list OutlineSection
}.

Record ExportResult := mkExportResult {
  output_path : string;
  script_path : option string;
  slide_count : Z;
  images_included : Z
}.

End Models.

(** ** Exception classes *)

Module PyExc.
Import Eff.

(** [isinstance(e, ValueError)]: pydantic's ValidationError derives from
    ValueError; the other modelled exceptions do not. *)
Definition is_value_error (e : PyException) : bool :=
  match e with
  | ValueError _ | ValidationError _ => true
  | ImageServiceError _ | IndexError | TypeError _ | AttributeError _
  | ServiceError _ => false
  end.

(** [str(e)] *)
Definition text (e : PyException) : string :=
  match e with
  | ValueError msg | ValidationError msg | ImageServiceError msg
  | TypeError msg | AttributeError msg | ServiceError msg => msg
  | IndexError => "list index out of range"
  end.

(** [try: body / except ValueError: handler] *)
Definition try_except_value_error {E A : Type} (body handler : M E A)
    : M E A :=
  fun log =>
    match body log with
    | (Ok a, log') => (Ok a, log')
    | (Raised e, log') =>
        if is_value_error e then handler log' else (Raised e, log')
    end.

End PyExc.

(** ** outline_generator.py *)

Module OutlineGenerator.
Import Eff Models PyExc.

Inductive Event := EvGenerate (strict : bool).

Section Generate.

(** [self._llm.generate_structured(prompt, PresentationOutline, ...)];
    the prompts are built from the user input and [strict]. *)
Variable generate_structured : UserInput -> bool -> result PresentationOutline.

Definition _generate_with_retry (user_input : UserInput) (strict : bool)
    : M Event PresentationOutline :=
  let! _ := emit (EvGenerate strict) in
  lift (generate_structured user_input strict).

Definition generate (user_input : UserInput) : M Event PresentationOutline :=
  try_except_value_error (_generate_with_retry user_input false)
                         (_generate_with_retry user_input true).

End Generate.

End OutlineGenerator.

(** ** script_generator.py *)

Module ScriptGenerator.
Import Eff Models PyExc.

(** What [ScriptGenerator.generate] and the pipeline can raise: an
    exception of a stage, or one of the three error classes of the
    package. *)
Inductive Failure :=
| Py (e : PyException)
| ScriptGeneratorError (msg : string)
| PPTExporterError (msg : string)
| PresentationAgentError (msg : string).

Inductive Outcome (A : Type) :=
| Done (a : A)
| Failed (f : Failure).
Arguments Done {A} a.
Arguments Failed {A} f.

(** [str(e)] *)
Definition failure_text (f : Failure) : string :=
  match f with
  | Py e => text e
  | ScriptGeneratorError msg | PPTExporterError msg
  | PresentationAgentError msg => msg
  end.

Section Generate.

(** [self._llm.generate_structured(prompt, PresentationManuscript, ...)] *)
Variable generate_structured :
  PresentationOutline -> UserInput -> result PresentationManuscript.

Definition generate (outline : PresentationOutline) (user_input : UserInput)
    : Outcome PresentationManuscript :=
  match generate_structured outline user_input with
  | Ok manuscript => Done manuscript
  | Raised e =>
      if is_value_error e
      then Failed (ScriptGeneratorError
                     ("Script generation failed: " ++ text e))
      else Failed (Py e)
  end.

End Generate.

End ScriptGenerator.

(** ** ppt_exporter.py: what [export] reports *)

Module DeckExport.
Import Eff Models DesignLibrary Templates.

Section Deck.

(** Whether, for the slide at a position, fetching the image and adding
    the fitted picture both succeeded. *)
Variable picture_added : nat -> bool.

(** Everything in [export] that touches the presentation file: drawing
    the shapes and saving; it gives the resolved path of the file or the
    exception that ended the export. *)
Variable write_file : list SlideWithImage -> string -> option string ->
                      string -> result string.

(** The return value of the three renderers with an image area:
    [template.image_area and slide_data.image_url], then the picture. *)
Definition image_in_area (template : LayoutTemplate)
    (slide_data : SlideWithImage) (slide_index : nat) : Z :=
  match image_area template with
  | None => 0
  | Some _ =>
      if has_image_of slide_data
      then (if picture_added slide_index then 1 else 0)
      else 0
  end.

(** The number that [_add_content_slide] returns; a layout without
    template would raise. *)
Definition _add_content_slide (slide_data : SlideWithImage)
    (slide_index total_slides : nat) : result Z :=
  let layout := select_layout slide_data (Z.of_nat slide_index)
                              (Z.of_nat total_slides) in
  match get_template layout with
  | None => Raised (ServiceError "KeyError")
  | Some template =>
      Ok (match layout with
          | HERO_BACKGROUND =>
              if has_image_of slide_data
              then (if picture_added slide_index then 1 else 0)
              else 0
          | HERO_RIGHT | IMAGE_FOCUS | TWO_COLUMN =>
              image_in_area template slide_data slide_index
          | _ => 0
          end)
  end.

(** The loop of [export] over [enumerate(slides)], from position [i],
    with the count so far. *)
Fixpoint count_images (total : nat) (i : nat) (slides : list SlideWithImage)
    (images_included : Z) : result Z :=
  match slides with
  | [] => Ok images_included
  | s :: rest =>
      match _add_content_slide s i total with
      | Raised e => Raised e
      | Ok n => count_images total (S i) rest (images_included + n)
      end
  end.

Definition export (slides : list SlideWithImage) (title : string)
    (output_path : option string) (theme : string) : result ExportResult :=
  match count_images (length slides) 0 slides 0 with
  | Raised e => Raised e
  | Ok images_included =>
      match write_file slides title output_path theme with
      | Raised e => Raised e
      | Ok path =>
          Ok (mkExportResult path None (Z.of_nat (length slides) + 1)
                             images_included)
      end
  end.

End Deck.

End DeckExport.

(** Whether the picture of the slide at position [i] of [total] ends up
    in the deck. *)
Module DeckExportSpec.

Definition shown (picture_added : nat -> bool) (total i : nat)
    (s : SlideWithImage) : bool :=
  DesignLibrary.has_image_of s && picture_added i
  && (Nat.eqb i 0 || negb (Nat.eqb (S i) total)).

End DeckExportSpec.

(** ** agent.py: the pipeline *)

Module Agent.
Import Eff Models PyExc ScriptGenerator.

(** What a run shows to the outside: the calls of [_report], and the
    requests for slides it makes, each for a manuscript. *)
Inductive Event :=
| Report (step : string) (percent : Z)
| SlideRequest (manuscript : PresentationManuscript) (strict : bool).

(** A progress callback, by what a call with a step and a percentage
    ends in: [None] when it returns, else the exception it raises.  No
    two reports of a run have the same percentage, so a callback that
    keeps a state of its own is covered. *)
Definition Callback : Type := string -> Z -> option PyException.

(** A step of the pipeline: it may fail, and it appends to the events. *)
Definition P (A : Type) : Type := list Event -> Outcome A * list Event.

Definition ret {A} (a : A) : P A := fun log => (Done a, log).

Definition bind {A B} (c : P A) (k : A -> P B) : P B :=
  fun log =>
    match c log with
    | (Done a, log') => k a log'
    | (Failed f, log') => (Failed f, log')
    end.

Definition emit (ev : Event) : P unit :=
  fun log => (Done tt, (log ++ [ev])%list).

Definition raise {A} (f : Failure) : P A := fun log => (Failed f, log).

(** The outcome of a stage that raises Python exceptions only. *)
Definition of_result {A} (r : result A) : P A :=
  match r with
  | Ok a => ret a
  | Raised e => raise (Py e)
  end.

Definition of_outcome {A} (o : Outcome A) : P A := fun log => (o, log).

(** [try: body / except <class> as e: handler(e)]; [handler] answers
    [None] for a failure that is not of the class. *)
Definition try_except {A} (body : P A) (handler : Failure -> option (P A))
    : P A :=
  fun log =>
    match body log with
    | (Done a, log') => (Done a, log')
    | (Failed f, log') =>
        match handler f with
        | Some h => h log'
        | None => (Failed f, log')
        end
    end.

Definition run {A} (c : P A) : Outcome A * list Event := c [].

Notation "'do!' x ':=' c 'in' k" := (bind c (fun x => k))
  (at level 10, x name, c at level 100, k at level 200).

(** [str(score)] *)
Definition str_int (n : Z) : string := NilZero.string_of_int (Z.to_int n).

Section Pipeline.

Variable outline_service : UserInput -> bool -> result PresentationOutline.
Variable script_service :
  PresentationOutline -> UserInput -> result PresentationManuscript.
Variable evaluate_call :
  PresentationManuscript -> string -> string -> Z -> string ->
  result ScriptReviewer.ScriptReviewEvaluation.
Variable rewrite_call :
  PresentationManuscript -> ScriptReviewer.ScriptReviewEvaluation ->
  string -> string -> Z -> string -> result PresentationManuscript.
Variable fact_check_service :
  PresentationManuscript -> string -> string ->
  result FactChecker.FactCheckReport.
Variable slides_service :
  PresentationManuscript -> option Z -> option string -> bool ->
  result SlideListOutput.
Variable notes_service :
  PresentationManuscript -> list SlideContent ->
  result NotesGenerator.NotesListOutput.
Variable fetch_image_for_query :
  nat -> string -> string -> string -> bool -> result (option string).
Variable picture_added : nat -> bool.
Variable write_file : list SlideWithImage -> string -> option string ->
                      string -> result string.

(** [ppt_path.parent / f"{ppt_path.stem}_script.docx"] *)
Variable script_path_of : string -> string.

(** [ScriptExporter.export(manuscript, path, topic, duration_minutes,
    audience)]: the path of the document or an exception. *)
Variable export_script :
  PresentationManuscript -> string -> string -> Z -> string -> result string.

(** [_report]: the callback, if there is one, is called with the step
    and the percentage, outside any [try] of its own, and then the line
    is printed; printing is taken to return. *)
Definition _report (progress_callback : option Callback) (step : string)
    (percent : Z) : P unit :=
  do! _ := emit (Report step percent) in
  match progress_callback with
  | Some callback =>
      match callback step percent with
      | Some e => raise (Py e)
      | None => ret tt
      end
  | None => ret tt
  end.

(** The handlers of the pipeline. *)
Definition on_script_generator_error (f : Failure)
    : option (P PresentationManuscript) :=
  match f with
  | ScriptGeneratorError _ =>
      Some (raise (PresentationAgentError
                     ("Script generation failed: " ++ failure_text f)))
  | _ => None
  end.

Definition on_ppt_exporter_error (f : Failure) : option (P ExportResult) :=
  match f with
  | PPTExporterError _ =>
      Some (raise (PresentationAgentError
                     ("Export failed: " ++ failure_text f)))
  | _ => None
  end.

Definition on_value_error (f : Failure) : option (P ExportResult) :=
  match f with
  | Py e =>
      if is_value_error e
      then Some (raise (PresentationAgentError
                          ("LLM response error: " ++ text e)))
      else None
  | _ => None
  end.

(** The slides stage: one request, and a strict one when the count of
    the first answer is outside the range. *)
Definition create_slides (user_input : UserInput)
    (progress_callback : option Callback)
    (manuscript : PresentationManuscript) : P (list SlideContent) :=
  let targets :=
    PresentationTargets.compute_presentation_targets
      (duration_minutes user_input) (audience user_input) None in
  do! _ := emit (SlideRequest manuscript false) in
  do! slides := of_result
      (SlideGenerator.generate slides_service manuscript
         (Some (duration_minutes user_input)) (Some (audience user_input))
         false) in
  if WordCount.is_slide_count_acceptable slides
       (PresentationTargets.min_slides targets)
       (PresentationTargets.max_slides targets)
  then ret slides
  else
    do! _ := _report progress_callback "Adjusting slide count, retrying" 60 in
    do! _ := emit (SlideRequest manuscript true) in
    of_result
      (SlideGenerator.generate slides_service manuscript
         (Some (duration_minutes user_input)) (Some (audience user_input))
         true).

(** The export of the manuscript document: its failure is passed over. *)
Definition with_script (user_input : UserInput)
    (manuscript : PresentationManuscript) (result : ExportResult)
    : ExportResult :=
  match export_script manuscript (script_path_of (output_path result))
          (topic user_input) (duration_minutes user_input)
          (audience user_input) with
  | Ok script_file =>
      mkExportResult (output_path result) (Some script_file)
                     (slide_count result) (images_included result)
  | Raised _ => result
  end.

Definition _run_async (user_input : UserInput) (output_path : option string)
    (progress_callback : option Callback) : P ExportResult :=
  try_except
    (do! _ := _report progress_callback "Planning structure" 5 in
     do! outline :=
       of_result (Eff.run (OutlineGenerator.generate outline_service
                                                     user_input)).1 in
     do! _ := _report progress_callback "Writing manuscript" 15 in
     do! manuscript :=
       try_except
         (of_outcome (ScriptGenerator.generate script_service outline
                                               user_input))
         on_script_generator_error in
     do! _ := _report progress_callback "Reviewing manuscript" 25 in
     do! reviewed :=
       of_result (Eff.run (ScriptReviewer.review_and_improve
                             evaluate_call rewrite_call manuscript
                             (topic user_input) (audience user_input)
                             (duration_minutes user_input)
                             (language user_input))).1 in
     let manuscript := reviewed.1 in
     let score := reviewed.2 in
     do! _ := _report progress_callback
                      ("Manuscript approved (" ++ str_int score ++ "/10)")
                      35 in
     do! _ := _report progress_callback "Fact-checking" 40 in
     do! manuscript :=
       of_result (FactCheckFlow.fact_check_and_patch fact_check_service
                    manuscript (topic user_input) (audience user_input)) in
     do! _ := _report progress_callback "Creating slides" 55 in
     do! slides := create_slides user_input progress_callback manuscript in
     do! _ := _report progress_callback "Adding speaker notes" 70 in
     let slides := NotesGenerator.generate notes_service manuscript slides in
     do! _ := _report progress_callback "Selecting images" 80 in
     do! slides_with_images :=
       of_result (ImageService.enrich_slides_with_images
                    fetch_image_for_query slides) in
     do! _ := _report progress_callback "Exporting files" 92 in
     do! result :=
       try_except
         (of_result (DeckExport.export picture_added write_file
                       slides_with_images (pm_title manuscript) output_path
                       (theme user_input)))
         on_ppt_exporter_error in
     let result := with_script user_input manuscript result in
     do! _ := _report progress_callback "Done" 100 in
     ret result)
    on_value_error.

End Pipeline.

(** The percentages of the progress reports, in order. *)
Definition percents (log : list Event) : list Z :=
  omap (fun ev => match ev with
                  | Report _ p => Some p
                  | SlideRequest _ _ => None
                  end) log.

(** The slide requests, in order. *)
Definition slide_requests (log : list Event)
    : list (PresentationManuscript * bool) :=
  omap (fun ev => match ev with
                  | SlideRequest manuscript strict => Some (manuscript, strict)
                  | Report _ _ => None
                  end) log.

Definition is_done {A} (o : Outcome A) : bool :=
  match o with Done _ => true | Failed _ => false end.

End Agent.

(** Words for the properties of a run. *)
Module AgentSpec.

(** Each number is greater than the one before. *)
Fixpoint increasing (l : list Z) : bool :=
  match l with
  | [] => true
  | x :: rest =>
      match rest with
      | [] => true
      | y :: _ => (x <? y) && increasing rest
      end
  end.

End AgentSpec.

(** ** script_exporter.py *)

Module ScriptExporter.
Import Eff.

(** What [export] adds to the document, in order. *)
Inductive Block :=
| Heading (level : nat) (text : string)
| Paragraph (text : string).

Definition is_line_feed (c : ascii) : bool := Ascii.eqb c (ascii_of_nat 10).

(** [content.split("\n\n")], reading [s] with [cur] the piece collected so
    far: the pieces between the occurrences of two line feeds, found from
    left to right; a piece may be empty. *)
Fixpoint split_blank_lines (cur s : string) : list string :=
  match s with
  | EmptyString => [cur]
  | String c1 s' =>
      match s' with
      | EmptyString => [cur ++ String c1 EmptyString]
      | String c2 s'' =>
          if is_line_feed c1 && is_line_feed c2
          then cur :: split_blank_lines EmptyString s''
          else split_blank_lines (cur ++ String c1 EmptyString) s'
      end
  end.

(** [[p.strip() for p in content.split("\n\n") if p.strip()]] *)
Definition paragraphs (content : string) : list string :=
  omap (fun p => if PyStr.truthy (PyStr.strip p)
                 then Some (PyStr.strip p) else None)
       (split_blank_lines EmptyString content).

(** The blocks of one section: the heading when the section has a name,
    its paragraphs, and an empty paragraph. *)
Definition section_blocks (section : ManuscriptSection) : list Block :=
  ((if PyStr.truthy (ms_name section) then [Heading 1 (ms_name section)]
    else [])
   ++ map Paragraph (paragraphs (ms_content section))
   ++ [Paragraph EmptyString])%list.

Definition topic_part (topic : option string) : list string :=
  match topic with
  | Some t => if PyStr.truthy t then ["Topic: " ++ t] else []
  | None => []
  end.

Definition duration_part (duration_minutes : option Z) : list string :=
  match duration_minutes with
  | Some d => ["Duration: " ++ Agent.str_int d ++ " min"]
  | None => []
  end.

Definition audience_part (audience : option string) : list string :=
  match audience with
  | Some a => if PyStr.truthy a then ["Audience: " ++ a] else []
  | None => []
  end.

Definition meta_parts (topic : option string) (duration_minutes : option Z)
    (audience : option string) : list string :=
  app (topic_part topic)
      (app (duration_part duration_minutes) (audience_part audience)).

(** The document that [export] builds before saving it. *)
Definition document (manuscript : PresentationManuscript)
    (topic : option string) (duration_minutes : option Z)
    (audience : option string) : list Block :=
  ([Heading 0 (pm_title manuscript); Paragraph EmptyString]
   ++ (match meta_parts topic duration_minutes audience with
       | [] => []
       | part :: parts => [Paragraph (PyStr.join " | " (part :: parts))]
       end)
   ++ [Paragraph EmptyString]
   ++ concat (map section_blocks (pm_sections manuscript)))%list.

Section Document.

(** Creating the directory and saving the document: the resolved path or
    an exception. *)
Variable save : list Block -> string -> result string.

Definition export (manuscript : PresentationManuscript) (output_path : string)
    (topic : option string) (duration_minutes : option Z)
    (audience : option string) : result string :=
  save (document manuscript topic duration_minutes audience) output_path.

End Document.

(** The words in the paragraphs of some blocks. *)
Definition paragraph_words (blocks : list Block) : Z :=
  foldr Z.add 0
    (map (fun b => match b with
                   | Paragraph text => WordCount.word_count text
                   | Heading _ _ => 0
                   end) blocks).

End ScriptExporter.

(** ** More sample data *)

Module FixturesMore.
Import Eff NotesGenerator.

Local Open Scope string_scope.

(** A notes service that answers twice for slide 1 and not at all for
    slide 3. *)
Definition notes_twice_for_one :
  PresentationManuscript -> list SlideContent -> result NotesListOutput :=
  fun _ _ =>
    Ok (mkNotesListOutput
          [mkSlideNotesOutput 1 "Open with the harbour story";
           mkSlideNotesOutput 2 "Full moon, highest tides";
           mkSlideNotesOutput 1 "Open with the question"]).

End FixturesMore.

(** * Properties *)

(** ** Layout selection *)

Module LayoutProps.
Import DesignLibrary.

Example scenario_first_without_image :
  select_layout (mkSlideWithImage 1 "Welcome" ["Agenda"] EmptyString None None)
                0 5 = BOLD_SECTION_DIVIDER.
Proof. reflexivity. Qed.

Example scenario_image_two_bullets :
  select_layout
    (mkSlideWithImage 3 "Robots" ["Fast"; "Precise"] EmptyString
                      (Some "https://images.example/robot.jpg") (Some "robot"))
    2 5 = HERO_RIGHT.
Proof. reflexivity. Qed.

Lemma bullet_count_of_length (slide : SlideWithImage) :
  bullet_count_of slide = Z.of_nat (length (bullet_points slide)).
Proof.
  unfold bullet_count_of. destruct (bullet_points slide); reflexivity.
Qed.

Lemma select_layout_table (slide : SlideWithImage) (i total : Z) :
  select_layout slide i total = table_layout (shape_of slide i total).
Proof.
  unfold select_layout, table_layout, shape_of, priority_table; cbn.
  destruct (i =? 0); cbn.
  - destruct (has_image_of slide); reflexivity.
  - destruct (i =? total - 1); cbn; [reflexivity|].
    destruct (has_image_of slide); cbn.
    + destruct (bullet_count_of slide <=? 2); [reflexivity|].
      destruct (bullet_count_of slide <=? 1); reflexivity.
    + destruct (bullet_count_of slide >=? 4); [reflexivity|].
      destruct (bullet_count_of slide <=? 2); reflexivity.
Qed.

(** [has_image] read off the slide. *)
Lemma has_image_of_url (slide : SlideWithImage) :
  has_image_of slide
  = match image_url slide with
    | Some u => negb (String.eqb u EmptyString)
    | None => false
    end.
Proof.
  unfold has_image_of. destruct (image_url slide) as [[|c u]|]; reflexivity.
Qed.

(** C3: [select_layout] is the priority table of the specification read
    with first match winning, at the slide index, the slide count,
    whether [image_url] is set and not empty, and the number of
    [bullet_points]; so it is a total function of these four alone; it
    never yields IMAGE_FOCUS (rule 4 is shadowed by rule 3); a middle
    slide with an image and two bullets gets HERO_RIGHT, a first slide
    without image BOLD_SECTION_DIVIDER, a first slide with an image
    HERO_BACKGROUND, a last slide that is not the first CONCLUSION. *)
Theorem select_layout_priority_table (slide : SlideWithImage) (i total : Z) :
  let has_image (s : SlideWithImage) :=
    match image_url s with
    | Some u => negb (String.eqb u EmptyString)
    | None => false
    end in
  let bullet_count (s : SlideWithImage) :=
    Z.of_nat (length (bullet_points s)) in
  select_layout slide i total
  = table_layout (mkShape i total (has_image slide) (bullet_count slide))
  /\ (forall slide' : SlideWithImage,
        has_image slide' = has_image slide ->
        bullet_count slide' = bullet_count slide ->
        select_layout slide' i total = select_layout slide i total)
  /\ select_layout slide i total <> IMAGE_FOCUS
  /\ (forall u, image_url slide = Some u -> u <> EmptyString ->
      i <> 0 -> i <> total - 1 ->
      length (bullet_points slide) = 2%nat ->
      select_layout slide i total = HERO_RIGHT)
  /\ (image_url slide = None \/ image_url slide = Some EmptyString ->
      select_layout slide 0 total = BOLD_SECTION_DIVIDER)
  /\ (forall u, image_url slide = Some u -> u <> EmptyString ->
      select_layout slide 0 total = HERO_BACKGROUND)
  /\ (i <> 0 -> i = total - 1 -> select_layout slide i total = CONCLUSION).
Proof.
  intros has_image bullet_count.
  assert (Hshape : forall s,
    shape_of s i total = mkShape i total (has_image s) (bullet_count s)).
  { intros s. unfold shape_of, has_image, bullet_count.
    now rewrite has_image_of_url, bullet_count_of_length. }
  assert (Hset : forall u, image_url slide = Some u -> u <> EmptyString ->
    has_image_of slide = true).
  { intros u Hu Hne. rewrite has_image_of_url, Hu.
    destruct u; [contradiction|reflexivity]. }
  split; [rewrite select_layout_table; now rewrite Hshape|].
  split.
  { intros slide' Himg Hcnt. rewrite !select_layout_table, !Hshape.
    now rewrite Himg, Hcnt. }
  split.
  { unfold select_layout.
    destruct (i =? 0); [destruct (has_image_of slide); discriminate|].
    destruct (i =? total - 1); [discriminate|].
    destruct (has_image_of slide); cbn.
    - destruct (Z.leb_spec (bullet_count_of slide) 2); [discriminate|].
      destruct (Z.leb_spec (bullet_count_of slide) 1); [lia|discriminate].
    - destruct (bullet_count_of slide >=? 4); [discriminate|].
      destruct (bullet_count_of slide <=? 2); discriminate. }
  split.
  { intros u Hu Hne Hfirst Hlast Hlen. unfold select_layout.
    rewrite (proj2 (Z.eqb_neq _ _) Hfirst), (proj2 (Z.eqb_neq _ _) Hlast).
    rewrite (Hset u Hu Hne), bullet_count_of_length, Hlen. reflexivity. }
  split.
  { intros Himg. unfold select_layout. cbn. rewrite has_image_of_url.
    destruct Himg as [-> | ->]; reflexivity. }
  split.
  { intros u Hu Hne. unfold select_layout. cbn.
    now rewrite (Hset u Hu Hne). }
  intros Hfirst Hlast. unfold select_layout.
  rewrite (proj2 (Z.eqb_neq _ _) Hfirst), (proj2 (Z.eqb_eq _ _) Hlast).
  reflexivity.
Qed.

End LayoutProps.

(** ** Presentation targets *)

Module TargetProps.
Import PresentationTargets.

Example wpm_general_public : get_wpm_for_audience "general public" = 125.
Proof. reflexivity. Qed.

Example wpm_engineers : get_wpm_for_audience "  Senior ENGINEERS " = 145.
Proof. reflexivity. Qed.

Example wpm_blank : get_wpm_for_audience "   " = 135.
Proof. reflexivity. Qed.

Example wpm_managers : get_wpm_for_audience "managers" = 135.
Proof. reflexivity. Qed.

(** The audience decides between three rates. *)
Lemma get_wpm_for_audience_cases (audience : string) :
  get_wpm_for_audience audience = 125
  \/ get_wpm_for_audience audience = 135
  \/ get_wpm_for_audience audience = 145.
Proof.
  unfold get_wpm_for_audience.
  destruct (_ || _); [now (right; left)|].
  destruct (any_term_in slow_terms _); [now left|].
  destruct (any_term_in fast_terms _); [now (right; right)|now (right; left)].
Qed.

(** C4: without a speaker profile and for a duration between 1 and 120
    minutes, the word target is the duration times the audience's rate,
    [min_slides] is [max(3, duration * 1)], [max_slides] is
    [max(min_slides, duration * 2)], hence [3 <= min_slides <=
    max_slides]; five minutes for the general public give 125 wpm, 625
    words and 5 to 10 slides. *)
Theorem compute_presentation_targets_no_profile
    (duration_minutes : Z) (audience : string) :
  1 <= duration_minutes <= 120 ->
  let t := compute_presentation_targets duration_minutes audience None in
  wpm t = get_wpm_for_audience audience
  /\ (wpm t = 125 \/ wpm t = 135 \/ wpm t = 145)
  /\ target_word_count t = duration_minutes * wpm t
  /\ min_slides t = Z.max 3 (duration_minutes * 1)
  /\ max_slides t = Z.max (min_slides t) (duration_minutes * 2)
  /\ 3 <= min_slides t
  /\ min_slides t <= max_slides t
  /\ compute_presentation_targets 5 "general public" None
     = mkTargets 625 5 10 125.
Proof.
  intros Hd t. subst t. cbn [compute_presentation_targets wpm
    target_word_count min_slides max_slides].
  unfold SLIDES_PER_MINUTE_MIN, SLIDES_PER_MINUTE_MAX.
  repeat split; try lia; try reflexivity.
  apply get_wpm_for_audience_cases.
Qed.

Lemma compute_presentation_targets_no_profile_witness :
  1 <= 45 <= 120
  /\ target_word_count (compute_presentation_targets 45 "developers" None)
     = 45 * 145
  /\ min_slides (compute_presentation_targets 45 "developers" None) = 45
  /\ max_slides (compute_presentation_targets 45 "developers" None) = 90.
Proof.
  assert (H : 1 <= 45 <= 120) by lia.
  pose proof (compute_presentation_targets_no_profile 45 "developers" H)
    as (_ & _ & Hw & Hmin & Hmax & _).
  split; [exact H|].
  split; [exact Hw|].
  split; [exact Hmin|].
  rewrite Hmax, Hmin. reflexivity.
Defined.

End TargetProps.

(** ** Bullet preparation *)

Module BulletProps.
Import DesignLibrary PPTExporter.

Example seven_bullets_default_theme :
  _prepare_bullets None ["a"; "b"; "c"; "d"; "e"; "f"; "g"]
  = (["a"; "b"; "c"; "d"; "e"; "f"], Some 16).
Proof. reflexivity. Qed.

Example three_bullets_default_theme :
  _prepare_bullets None ["a"; "b"; "c"] = (["a"; "b"; "c"], None).
Proof. reflexivity. Qed.

(** C9: [_prepare_bullets] shows the first six bullets at most, and
    overrides the body font exactly when the list it was given has four
    bullets or more, whatever the number left after the cap: with
    [max(10, body_size - 2)] for the [body_size] of the theme, and with
    16, from the default size 18, when no theme is set; otherwise there
    is no override. *)
Theorem prepare_bullets_cap_and_font
    (theme : option ThemeStyle) (bullet_points : list string) :
  let '(bullets, font_override) := _prepare_bullets theme bullet_points in
  bullets = take 6 bullet_points
  /\ (length bullets <= 6)%nat
  /\ length bullets = Nat.min 6 (length bullet_points)
  /\ ((4 <= length bullet_points)%nat ->
      match theme with
      | Some t => font_override = Some (Z.max 10 (body_size t - 2))
      | None => font_override = Some 16
      end)
  /\ ((length bullet_points < 4)%nat -> font_override = None).
Proof.
  unfold _prepare_bullets, MAX_BULLETS_DISPLAY,
    BODY_FONT_REDUCE_IF_BULLETS_ABOVE, BODY_MIN_FONT_SIZE.
  destruct bullet_points as [|b rest].
  - cbn. repeat split; lia.
  - set (l := b :: rest).
    split; [reflexivity|].
    split; [rewrite length_take; lia|].
    split; [rewrite length_take; lia|].
    destruct (Z.geb_spec (Z.of_nat (length l)) 4) as [Hge|Hlt].
    + split; [|lia]. intros _. destruct theme; reflexivity.
    + split; [lia|reflexivity].
Qed.

End BulletProps.

(** ** Fitting a picture into a box *)

Module FitProps.
Import PrimFloat FloatOps SpecFloat FloatAxioms PictureFit.

Local Open Scope float_scope.

(** *** Order of binary64 numbers *)





(** *** What is rendered *)



(** An image of 1080 by 1159 pixels in the picture area of the
    HERO_RIGHT template, 7.0 by 7.5 inches at (6.3, 0); 6.3 is the
    binary64 number that Python reads for that literal. *)
Example hero_right_picture :
  _add_picture_fit_centered (fun _ => true) (Some (1080, 1159)%Z)
                            0x1.9333333333333p+2 0 7 7.5
  = Some (mkPicture 5765848 0 6390543 6858000).
Proof. reflexivity. Qed.

(** Cut to whole units, that picture lies inside the area. *)
Example hero_right_picture_inside :
  Inches 0x1.9333333333333p+2 = Some 5760720%Z
  /\ Inches 7 = Some 6400800%Z
  /\ Inches 7.5 = Some 6858000%Z
  /\ (5760720 <= 5765848 /\ 5765848 + 6390543 <= 5760720 + 6400800)%Z
  /\ (0 + 6858000 <= 0 + 6858000)%Z.
Proof. repeat split; (reflexivity || lia). Qed.



End FitProps.

(** ** Manuscript review *)

Module ReviewProps.
Import Eff ScriptReviewer.

Section Review.

Variable evaluate_call :
  PresentationManuscript -> string -> string -> Z -> string ->
  result ScriptReviewEvaluation.
Variable rewrite_call :
  PresentationManuscript -> ScriptReviewEvaluation ->
  string -> string -> Z -> string -> result PresentationManuscript.
Variable manuscript : PresentationManuscript.
Variables topic audience : string.
Variable duration_minutes : Z.
Variable language : string.

Local Abbreviation evaluated :=
  (evaluate_call manuscript topic audience duration_minutes language).

Local Abbreviation rewritten ev :=
  (rewrite_call manuscript ev topic audience duration_minutes language).

Local Abbreviation outcome :=
  (run (review_and_improve evaluate_call rewrite_call manuscript topic
                           audience duration_minutes language)).

Lemma outcome_evaluation_raises (e : PyException) :
  evaluated = Raised e ->
  outcome = (Ok (manuscript, 0), [EvEvaluate manuscript]).
Proof.
  unfold run, review_and_improve, try_except, bind,
    _evaluate, emit, lift, ret; cbn.
  now intros ->.
Qed.

Lemma outcome_accepted (ev : ScriptReviewEvaluation) :
  evaluated = Ok ev -> 8 <= score ev ->
  outcome = (Ok (manuscript, score ev), [EvEvaluate manuscript]).
Proof.
  unfold run, review_and_improve, try_except, bind,
    _evaluate, emit, lift, ret; cbn.
  intros -> Hs. destruct (Z.geb_spec (score ev) 8); [reflexivity|lia].
Qed.

Lemma outcome_rewritten (ev : ScriptReviewEvaluation)
    (improved : PresentationManuscript) :
  evaluated = Ok ev -> score ev < 8 -> rewritten ev = Ok improved ->
  outcome = (Ok (improved, score ev),
             [EvEvaluate manuscript; EvPrint "Improving script...";
              EvRewrite manuscript ev]).
Proof.
  unfold run, review_and_improve, try_except,
    bind, _evaluate, _rewrite, emit, lift, ret; cbn.
  intros -> Hs. destruct (Z.geb_spec (score ev) 8); [lia|].
  cbn. now intros ->.
Qed.

Lemma outcome_rewrite_raises (ev : ScriptReviewEvaluation) (e : PyException) :
  evaluated = Ok ev -> score ev < 8 -> rewritten ev = Raised e ->
  outcome = (Ok (manuscript, 0),
             [EvEvaluate manuscript; EvPrint "Improving script...";
              EvRewrite manuscript ev]).
Proof.
  unfold run, review_and_improve, try_except,
    bind, _evaluate, _rewrite, emit, lift, ret; cbn.
  intros -> Hs. destruct (Z.geb_spec (score ev) 8); [lia|].
  cbn. now intros ->.
Qed.

Lemma outcome_cases :
  (exists e, evaluated = Raised e)
  \/ (exists ev, evaluated = Ok ev /\ 8 <= score ev)
  \/ (exists ev, evaluated = Ok ev /\ score ev < 8 /\
        ((exists improved, rewritten ev = Ok improved)
         \/ exists e, rewritten ev = Raised e)).
Proof.
  destruct evaluated as [ev|e] eqn:Hev; [|left; eauto].
  right. destruct (Z.le_gt_cases 8 (score ev)); [left; eauto|].
  right. exists ev. repeat split; [lia|].
  destruct (rewritten ev); eauto.
Qed.

(** The four ways a review can go. *)
Ltac review_cases :=
  destruct outcome_cases
    as [[e He]|[(ev' & He & Hs)|(ev' & He & Hs & [[i Hr]|[e Hr]])]];
  [ rewrite (outcome_evaluation_raises e He)
  | rewrite (outcome_accepted ev' He Hs)
  | rewrite (outcome_rewritten ev' i He Hs Hr)
  | rewrite (outcome_rewrite_raises ev' e He Hs Hr) ].

Lemma outcome_rewrite_logged (m' : PresentationManuscript)
    (ev : ScriptReviewEvaluation) :
  In (EvRewrite m' ev) outcome.2 ->
  m' = manuscript /\ evaluated = Ok ev /\ score ev < 8.
Proof.
  review_cases; cbn; intros Hin.
  - destruct Hin as [H|[]]; discriminate.
  - destruct Hin as [H|[]]; discriminate.
  - destruct Hin as [H|[H|[H|[]]]]; try discriminate.
    injection H as <- <-. auto.
  - destruct Hin as [H|[H|[H|[]]]]; try discriminate.
    injection H as <- <-. auto.
Qed.

(** C7: [review_and_improve] never raises and evaluates exactly once.  A
    score of 8 or more returns the input manuscript with that score and
    issues no rewrite; an exception from the evaluation or from the
    rewrite returns the input manuscript with score 0; a rewrite is
    issued only after an evaluation that scored below 8, and what it
    returns is the result, with the evaluation's score and no second
    evaluation. *)
Theorem review_and_improve_outcomes :
  (exists final s, outcome.1 = Ok (final, s))
  /\ length (filter (fun ev => is_evaluate ev = true) outcome.2) = 1%nat
  /\ (forall ev, evaluated = Ok ev -> 8 <= score ev ->
        outcome = (Ok (manuscript, score ev), [EvEvaluate manuscript]))
  /\ (forall e, evaluated = Raised e -> outcome.1 = Ok (manuscript, 0))
  /\ (forall ev e, evaluated = Ok ev -> score ev < 8 ->
        rewritten ev = Raised e -> outcome.1 = Ok (manuscript, 0))
  /\ (forall ev improved, evaluated = Ok ev -> score ev < 8 ->
        rewritten ev = Ok improved ->
        outcome = (Ok (improved, score ev),
                   [EvEvaluate manuscript; EvPrint "Improving script...";
                    EvRewrite manuscript ev]))
  /\ (forall m' ev, In (EvRewrite m' ev) outcome.2 ->
        m' = manuscript /\ evaluated = Ok ev /\ score ev < 8).
Proof.
  split; [review_cases; cbn; eauto|].
  split; [review_cases; reflexivity|].
  split; [exact outcome_accepted|].
  split.
  { intros e He. now rewrite (outcome_evaluation_raises e He). }
  split.
  { intros ev e He Hs Hr. now rewrite (outcome_rewrite_raises ev e He Hs Hr). }
  split; [exact outcome_rewritten|exact outcome_rewrite_logged].
Qed.

End Review.

End ReviewProps.

Module ReviewExamples.
Import Eff ScriptReviewer Fixtures.

Example score_nine_is_accepted :
  (run (review_and_improve (scoring 9) rewriting draft "tides" "students"
                           5 "English")).1
  = Ok (draft, 9).
Proof. reflexivity. Qed.

Example score_five_is_rewritten :
  (run (review_and_improve (scoring 5) rewriting draft "tides" "students"
                           5 "English")).1
  = Ok (polished, 5).
Proof. reflexivity. Qed.

Example failed_rewrite_keeps_draft :
  (run (review_and_improve (scoring 5) failing_rewrite draft "tides"
                           "students" 5 "English")).1
  = Ok (draft, 0).
Proof. reflexivity. Qed.

End ReviewExamples.

(** ** Lists *)

Module ListFacts.

Lemma lookup_map {A B} (f : A -> B) (l : list A) (i : nat) :
  map f l !! i = f <$> (l !! i).
Proof.
  revert i. induction l as [|x l IH]; intros [|i]; cbn; auto.
Qed.

End ListFacts.

(** ** Slide extraction *)

Module SlideProps.
Import Eff SlideGenerator Fixtures.

Lemma numbered_from_one_reset_notes (slides : list SlideContent) :
  numbered_from_one (map reset_notes slides) <-> numbered_from_one slides.
Proof.
  unfold numbered_from_one. split; intros H i s Hs.
  - apply (H i (reset_notes s)).
    rewrite ListFacts.lookup_map, Hs. reflexivity.
  - rewrite ListFacts.lookup_map in Hs.
    destruct (slides !! i) as [s0|] eqn:Hi; [|discriminate].
    injection Hs as <-. exact (H i s0 Hi).
Qed.

(** C6, as amended: [generate] passes the answer of the generation
    service on, slide by slide and in order, with the service's own
    [slide_number], title, bullets and image query and with the speaker
    notes emptied; an exception of the service is raised again.  The
    numbers it returns therefore run 1, 2, 3, ... exactly when the
    service's did. *)
Theorem generate_keeps_service_numbers
    (service : PresentationManuscript -> option Z -> option string -> bool ->
               result SlideListOutput)
    (manuscript : PresentationManuscript) (duration_minutes : option Z)
    (audience : option string) (strict : bool) :
  match service manuscript duration_minutes audience strict with
  | Raised e =>
      generate service manuscript duration_minutes audience strict = Raised e
  | Ok answer =>
      exists slides,
        generate service manuscript duration_minutes audience strict = Ok slides
        /\ length slides = length (slo_slides answer)
        /\ map sc_slide_number slides = map sc_slide_number (slo_slides answer)
        /\ (forall (i : nat) (s : SlideContent),
              slo_slides answer !! i = Some s ->
              slides !! i
              = Some (mkSlideContent (sc_slide_number s) (sc_title s)
                        (sc_bullet_points s) EmptyString (sc_image_query s)))
        /\ (numbered_from_one slides <-> numbered_from_one (slo_slides answer))
  end.
Proof.
  unfold generate.
  destruct (service manuscript duration_minutes audience strict)
    as [answer|e]; [|reflexivity].
  exists (map reset_notes (slo_slides answer)).
  split; [reflexivity|].
  split; [apply length_map|].
  split.
  { rewrite map_map. reflexivity. }
  split.
  { intros i s Hs. rewrite ListFacts.lookup_map, Hs. reflexivity. }
  apply numbered_from_one_reset_notes.
Qed.

(** C6, as stated, fails: the service may answer with slides numbered 1
    and 3, and [generate] returns them with these numbers. *)
Lemma generate_numbers_not_contiguous :
  exists slides,
    generate skipping_service tides (Some 5) (Some "general public") false
    = Ok slides
    /\ ~ numbered_from_one slides.
Proof.
  eexists. split; [reflexivity|].
  intros H. specialize (H 1%nat _ eq_refl). discriminate H.
Qed.

End SlideProps.

(** ** Image enrichment *)

Module EnrichProps.
Import Eff ImageService Fixtures.

Section Collect.

Variable fetch : nat -> string -> string -> string -> bool -> result (option string).

Lemma collect_ok (slides : list SlideContent) (values : list SlideWithImage) :
  forall (i : nat) (enriched : list SlideWithImage),
    collect slides i (map Ok values) enriched = Ok (enriched ++ values)%list.
Proof.
  induction values as [|v values IH]; intros i enriched; cbn.
  - now rewrite app_nil_r.
  - rewrite IH, <- app_assoc. reflexivity.
Qed.

Lemma gather_ok (slides : list SlideContent) :
  gather fetch slides = map Ok (imap (task_value fetch) slides).
Proof.
  unfold gather.
  assert (H : forall (f : nat -> nat),
    imap (fun i s => process_slide fetch (f i) s) slides
    = map Ok (imap (fun i s => task_value fetch (f i) s) slides)).
  { induction slides as [|s rest IH]; intros f; cbn; [reflexivity|].
    f_equal. apply (IH (f ∘ S)). }
  exact (H id).
Qed.

Lemma enrich_ok (slides : list SlideContent) :
  enrich_slides_with_images fetch slides = Ok (imap (task_value fetch) slides).
Proof.
  unfold enrich_slides_with_images. rewrite gather_ok, collect_ok. reflexivity.
Qed.

Lemma enrich_lookup (slides : list SlideContent) (i : nat) :
  exists enriched,
    enrich_slides_with_images fetch slides = Ok enriched
    /\ length enriched = length slides
    /\ enriched !! i = task_value fetch i <$> (slides !! i).
Proof.
  exists (imap (task_value fetch) slides).
  split; [apply enrich_ok|].
  split; [apply length_imap|apply list_lookup_imap].
Qed.


End Collect.





Example enrich_with_failure_at_one :
  enrich_slides_with_images fails_at_one three_slides
  = Ok [mkSlideWithImage 1 "Tides" ["Moon"; "Sea"] EmptyString
          (Some "https://images.example/sea shore") (Some "sea shore");
        mkSlideWithImage 2 "Spring tides" ["Full moon"] EmptyString
          None (Some "full moon over sea");
        mkSlideWithImage 3 "Harbours" ["Locks"; "Quays"; "Pilots"] EmptyString
          (Some "https://images.example/harbour lock")
          (Some " harbour lock ")].
Proof. reflexivity. Qed.

(** C10: the enrichment returns, for every input list, a list of the
    same length whose entry at each position repeats the input slide's
    [slide_number], [title], [bullet_points], [speaker_notes] and
    [image_query]; only [image_url] is new. *)
Theorem enrich_frame
    (fetch : nat -> string -> string -> string -> bool ->
             result (option string))
    (slides : list SlideContent) :
  exists enriched,
    enrich_slides_with_images fetch slides = Ok enriched
    /\ length enriched = length slides
    /\ map slide_number enriched = map sc_slide_number slides
    /\ (forall (i : nat) (s : SlideContent),
          slides !! i = Some s ->
          exists w,
            enriched !! i = Some w
            /\ slide_number w = sc_slide_number s
            /\ title w = sc_title s
            /\ bullet_points w = sc_bullet_points s
            /\ speaker_notes w = sc_speaker_notes s
            /\ image_query w = sc_image_query s)
    /\ (forall (i : nat) (w : SlideWithImage),
          enriched !! i = Some w -> exists s, slides !! i = Some s).
Proof.
  exists (imap (task_value fetch) slides).
  split; [apply enrich_ok|].
  split; [apply length_imap|].
  split.
  { apply list_eq. intros i.
    rewrite !ListFacts.lookup_map, list_lookup_imap.
    destruct (slides !! i); reflexivity. }
  split.
  - intros i s Hs. exists (task_value fetch i s).
    rewrite list_lookup_imap, Hs. cbn. repeat split.
  - intros i w Hw. rewrite list_lookup_imap in Hw.
    destruct (slides !! i) as [s|]; [eauto|discriminate].
Qed.

End EnrichProps.

(** ** Strings *)

Module PyStrFacts.
Import PyStr.

Local Open Scope string_scope.

Lemma app_nil_r (s : string) : s ++ EmptyString = s.
Proof. induction s as [|a s IH]; cbn; [reflexivity|now rewrite IH]. Qed.

Lemma app_assoc (s t u : string) : (s ++ t) ++ u = s ++ t ++ u.
Proof. induction s as [|a s IH]; cbn; [reflexivity|now rewrite IH]. Qed.

Lemma length_app (s t : string) :
  String.length (s ++ t) = (String.length s + String.length t)%nat.
Proof. induction s as [|a s IH]; cbn; [reflexivity|now rewrite IH]. Qed.

Lemma prefix_app (p t : string) : String.prefix p (p ++ t) = true.
Proof.
  induction p as [|a p IH]; cbn; [now destruct t|].
  destruct (ascii_dec a a); [exact IH|congruence].
Qed.

Lemma prefix_inv (p s : string) :
  String.prefix p s = true -> exists t, s = p ++ t.
Proof.
  revert s. induction p as [|a p IH]; intros s H.
  - now exists s.
  - destruct s as [|b s]; cbn in H; [discriminate|].
    destruct (ascii_dec a b) as [->|]; [|discriminate].
    destruct (IH s H) as [t ->]. now exists t.
Qed.

Lemma drop_app (p t : string) : drop (String.length p) (p ++ t) = t.
Proof. induction p as [|a p IH]; cbn; [now destruct t|exact IH]. Qed.

Lemma contains_prefix (o s : string) :
  String.prefix o s = true -> contains o s = true.
Proof. intros H. destruct s; cbn [contains]; now rewrite H. Qed.

Lemma contains_app (pre o post : string) : contains o (pre ++ o ++ post) = true.
Proof.
  induction pre as [|a pre IH]; cbn [append].
  - apply contains_prefix, prefix_app.
  - cbn [contains]. rewrite IH. apply orb_true_r.
Qed.

Lemma contains_inv (o c : string) :
  contains o c = true -> exists pre post, c = pre ++ o ++ post.
Proof.
  induction c as [|a c IH]; cbn [contains]; intros H.
  - rewrite orb_false_r in H. destruct (prefix_inv _ _ H) as [t Ht].
    now exists EmptyString, t.
  - apply orb_true_iff in H as [H|H].
    + destruct (prefix_inv _ _ H) as [t Ht]. now exists EmptyString, t.
    + destruct (IH H) as (pre & post & ->). now exists (String a pre), post.
Qed.

(** [replace_first] rewrites the leftmost occurrence. *)
Lemma replace_first_leftmost (o n c : string) :
  contains o c = true ->
  exists pre post,
    c = pre ++ o ++ post
    /\ replace_first o n c = pre ++ n ++ post
    /\ forall pre' post',
         c = pre' ++ o ++ post' ->
         (String.length pre <= String.length pre')%nat.
Proof.
  induction c as [|a c IH]; intros H.
  - cbn [contains] in H. rewrite orb_false_r in H.
    destruct (prefix_inv _ _ H) as [t Ht].
    exists EmptyString, t. cbn [append]. split; [exact Ht|].
    split; [|intros; cbn; lia].
    cbn [replace_first]. rewrite H. rewrite Ht at 1. now rewrite drop_app.
  - cbn [replace_first].
    destruct (String.prefix o (String a c)) eqn:Hp.
    + destruct (prefix_inv _ _ Hp) as [t Ht].
      exists EmptyString, t. cbn [append]. split; [exact Ht|].
      split; [|intros; cbn; lia].
      rewrite Ht at 1. now rewrite drop_app.
    + cbn [contains] in H. rewrite Hp in H. cbn in H.
      destruct (IH H) as (pre & post & Hc & Hr & Hmin).
      exists (String a pre), post. cbn [append].
      split; [now rewrite <- Hc|].
      split; [now rewrite Hr|].
      intros pre' post' Hc'.
      destruct pre' as [|b pre'].
      * cbn [append] in Hc'. rewrite Hc', prefix_app in Hp. discriminate.
      * cbn [append] in Hc'. injection Hc' as _ Hc'.
        specialize (Hmin pre' post' Hc'). cbn. lia.
Qed.

End PyStrFacts.

(** ** Fact-check patches *)

Module PatchProps.
Import FactChecker PatchSpec Fixtures.

Local Open Scope string_scope.

Example patch_first_cat_only :
  apply_patches two_cats cat_to_dog
  = mkPresentationManuscript "Pets"
      [mkManuscriptSection "Introduction" "The dog sat. The cat ran.";
       mkManuscriptSection "Conclusion" "Dogs bark."].
Proof. reflexivity. Qed.

Example patch_empty_quote_is_inert : apply_patches abc empty_quote = abc.
Proof. reflexivity. Qed.

Lemma truthy_nonempty (s : string) : PyStr.truthy s = true <-> s <> EmptyString.
Proof. destruct s; cbn; split; congruence. Qed.

Lemma contains_occurs (o c : string) :
  PyStr.contains o c = true <-> occurs_in o c.
Proof.
  split.
  - apply PyStrFacts.contains_inv.
  - intros (pre & post & ->). apply PyStrFacts.contains_app.
Qed.

(** The [continue] guard of the loop is the negation of
    [matched_nonempty]. *)
Lemma guard_matched (i : FactCheckIssue) (c : string) :
  negb (PyStr.truthy (original_text i))
  || negb (PyStr.contains (original_text i) c) = false
  <-> matched_nonempty i c.
Proof.
  unfold matched_nonempty.
  rewrite orb_false_iff, !negb_false_iff, truthy_nonempty, contains_occurs.
  reflexivity.
Qed.

Lemma patch_issue_unmatched (i : FactCheckIssue) (c : string) :
  ~ matched_nonempty i c -> patch_issue c i = c.
Proof.
  intros Hn. unfold patch_issue.
  destruct (_ || _) eqn:G; [reflexivity|].
  now apply guard_matched in G.
Qed.

Lemma patch_issue_applied (i : FactCheckIssue) (c : string) :
  issue_applied matched_nonempty i c (patch_issue c i).
Proof.
  split.
  - intros Hm. pose proof Hm as G. apply guard_matched in G.
    unfold patch_issue. rewrite G.
    apply PyStrFacts.replace_first_leftmost, contains_occurs, Hm.
  - apply patch_issue_unmatched.
Qed.

Lemma patch_content_applied (report_issues : list FactCheckIssue) :
  forall c, issues_applied matched_nonempty report_issues c
                           (patch_content report_issues c).
Proof.
  induction report_issues as [|i rest IH]; intros c; cbn.
  - constructor.
  - econstructor; [apply patch_issue_applied|apply IH].
Qed.

Lemma patch_content_unmatched (report_issues : list FactCheckIssue) (c : string) :
  (forall i, In i report_issues -> ~ matched_nonempty i c) ->
  patch_content report_issues c = c.
Proof.
  induction report_issues as [|i rest IH]; intros H; cbn; [reflexivity|].
  rewrite patch_issue_unmatched by (apply H; now left).
  apply IH. intros j Hj. apply H. now right.
Qed.

Lemma patch_section_unmatched (report_issues : list FactCheckIssue)
    (s : ManuscriptSection) :
  (forall i, In i report_issues -> ~ matched_nonempty i (ms_content s)) ->
  patch_section report_issues s = s.
Proof.
  intros H. unfold patch_section. rewrite patch_content_unmatched by exact H.
  now destruct s.
Qed.

Lemma map_patch_section_unmatched (report_issues : list FactCheckIssue)
    (sections : list ManuscriptSection) :
  (forall s i, In s sections -> In i report_issues ->
               ~ matched_nonempty i (ms_content s)) ->
  map (patch_section report_issues) sections = sections.
Proof.
  induction sections as [|s rest IH]; intros H; cbn; [reflexivity|].
  rewrite patch_section_unmatched, IH; [reflexivity| |].
  - intros s' i Hs Hi. apply H; [now right|exact Hi].
  - intros i Hi. apply H; [now left|exact Hi].
Qed.

(** [apply_patches] with or without issues is the section-wise patch. *)
Lemma apply_patches_sections (m : PresentationManuscript) (r : FactCheckReport) :
  apply_patches m r
  = mkPresentationManuscript (pm_title m)
      (map (patch_section (issues r)) (pm_sections m)).
Proof.
  unfold apply_patches. destruct (issues r) eqn:E; [|reflexivity].
  rewrite map_patch_section_unmatched; [now destruct m|].
  intros s i _ [].
Qed.

(** C1, as amended: [apply_patches] keeps the title and the sections'
    names and order; in each section it goes through the issues in report
    order, and an issue whose [original_text] is not empty and occurs in
    the content patched so far has exactly its first occurrence replaced
    by [corrected_text], while an issue whose [original_text] is empty or
    does not occur leaves the content as it is; a section in which no
    issue matches comes back identical, and with no issues the manuscript
    comes back identical. *)
Theorem apply_patches_first_occurrence
    (m : PresentationManuscript) (r : FactCheckReport) :
  patched matched_nonempty m r (apply_patches m r).
Proof.
  split; [now rewrite apply_patches_sections|].
  split.
  - rewrite apply_patches_sections. cbn.
    induction (pm_sections m) as [|s rest IH]; cbn; constructor; [|exact IH].
    split; [reflexivity|].
    split; [apply patch_content_applied|].
    apply patch_section_unmatched.
  - intros E. unfold apply_patches. now rewrite E.
Qed.

(** C1, as stated, fails on an issue whose [original_text] is empty: the
    empty text occurs in "abc", its first occurrence is at the front, yet
    the section comes back as "abc" and not as "Xabc". *)
Lemma apply_patches_skips_empty_quote :
  ~ patched matched_as_stated abc empty_quote (apply_patches abc empty_quote).
Proof.
  intros (_ & Hsec & _). cbn in Hsec.
  inversion Hsec as [|s s' l l' (_ & Hchain & _) _]; subst.
  cbn in Hchain.
  inversion Hchain as [|i rest c c1 c2 (Hrep & _) Hrest]; subst.
  inversion Hrest; subst.
  destruct Hrep as (pre & post & Hc & Hc' & _).
  { exists EmptyString, "abc". reflexivity. }
  cbn [original_text corrected_text] in Hc, Hc'.
  apply (f_equal String.length) in Hc, Hc'.
  rewrite !PyStrFacts.length_app in Hc, Hc'. cbn in Hc, Hc'. lia.
Qed.

(** C2, as amended: patching again with the same report changes nothing
    provided that, after the first patch, no section contains the
    non-empty [original_text] of an issue any more. *)
Theorem apply_patches_twice
    (m : PresentationManuscript) (r : FactCheckReport) :
  (forall s i,
      In s (pm_sections (apply_patches m r)) -> In i (issues r) ->
      ~ matched_nonempty i (ms_content s)) ->
  apply_patches (apply_patches m r) r = apply_patches m r.
Proof.
  intros Hgone.
  rewrite (apply_patches_sections (apply_patches m r) r).
  rewrite map_patch_section_unmatched by exact Hgone.
  now destruct (apply_patches m r).
Qed.

Lemma apply_patches_twice_witness :
  apply_patches (apply_patches one_cat cat_to_dog) cat_to_dog
  = apply_patches one_cat cat_to_dog.
Proof.
  apply (apply_patches_twice one_cat cat_to_dog).
  intros s i Hs Hi Hm. apply guard_matched in Hm.
  cbn in Hs, Hi.
  destruct Hi as [<-|[]].
  destruct Hs as [<-|[<-|[]]]; discriminate Hm.
Defined.

(** C2, as stated, fails: where the quoted text occurs twice, the first
    patch rewrites the first occurrence and the second patch the next
    one. *)
Lemma apply_patches_not_idempotent :
  issues cat_to_dog <> []
  /\ apply_patches (apply_patches two_cats cat_to_dog) cat_to_dog
     <> apply_patches two_cats cat_to_dog.
Proof.
  split; [discriminate|].
  intros H. vm_compute in H. congruence.
Qed.

Example patch_twice_reaches_second_cat :
  apply_patches (apply_patches two_cats cat_to_dog) cat_to_dog
  = mkPresentationManuscript "Pets"
      [mkManuscriptSection "Introduction" "The dog sat. The dog ran.";
       mkManuscriptSection "Conclusion" "Dogs bark."].
Proof. reflexivity. Qed.

(** A correction that contains the quoted text is matched again. *)
Example patch_twice_grows :
  let r := mkFactCheckReport
             [mkFactCheckIssue "in 1990" outdated "decade" "in 1990 or so"] in
  let m := mkPresentationManuscript "Web"
             [mkManuscriptSection "Main Part" "It began in 1990."] in
  apply_patches m r
  = mkPresentationManuscript "Web"
      [mkManuscriptSection "Main Part" "It began in 1990 or so."]
  /\ apply_patches (apply_patches m r) r
     = mkPresentationManuscript "Web"
         [mkManuscriptSection "Main Part" "It began in 1990 or so or so."].
Proof. split; reflexivity. Qed.

End PatchProps.

(** * Further properties *)

(** ** Whitespace, stripping and splitting *)

Module PyTextFacts.
Import PyStr PyText.

Local Open Scope string_scope.
Local Open Scope Z_scope.

Lemma truthy_lstrip (s : string) : truthy (lstrip s) = negb (all_space s).
Proof.
  induction s as [|c s IH]; cbn; [reflexivity|].
  destruct (is_space c); cbn; [exact IH|reflexivity].
Qed.

Lemma all_space_lstrip (s : string) : all_space (lstrip s) = all_space s.
Proof.
  induction s as [|c s IH]; cbn; [reflexivity|].
  destruct (is_space c) eqn:E; cbn; [exact IH|now rewrite E].
Qed.

Lemma all_space_rev_append (s acc : string) :
  all_space (rev_append s acc) = all_space s && all_space acc.
Proof.
  revert acc. induction s as [|c s IH]; intros acc; cbn; [reflexivity|].
  rewrite IH. cbn. destruct (is_space c), (all_space s); reflexivity.
Qed.

Lemma all_space_rev (s : string) : all_space (rev s) = all_space s.
Proof. unfold rev. rewrite all_space_rev_append. cbn. apply andb_true_r. Qed.

Lemma all_space_rstrip (s : string) : all_space (rstrip s) = all_space s.
Proof.
  unfold rstrip. now rewrite all_space_rev, all_space_lstrip, all_space_rev.
Qed.

(** [strip] leaves nothing exactly when the text is blank. *)
Lemma truthy_strip (s : string) : truthy (strip s) = negb (all_space s).
Proof. unfold strip. now rewrite truthy_lstrip, all_space_rstrip. Qed.

Lemma all_space_app (s t : string) :
  all_space (s ++ t) = all_space s && all_space t.
Proof.
  induction s as [|c s IH]; cbn; [reflexivity|].
  rewrite IH. apply andb_assoc.
Qed.

Lemma split_from_blank (s : string) :
  all_space s = true -> split_from EmptyString s = [].
Proof.
  induction s as [|c s IH]; cbn; [reflexivity|].
  intros H. apply andb_true_iff in H as [-> H]. now apply IH.
Qed.

Lemma split_from_skip (ws b : string) :
  all_space ws = true ->
  split_from EmptyString (ws ++ b) = split_from EmptyString b.
Proof.
  induction ws as [|c ws IH]; cbn; [reflexivity|].
  intros H. apply andb_true_iff in H as [-> H]. now apply IH.
Qed.

(** A whitespace character closes the word being read. *)
Lemma split_from_app_space (a rest word : string) (c : ascii) :
  is_space c = true ->
  split_from word (a ++ String c rest)
  = (split_from word a ++ split_from EmptyString rest)%list.
Proof.
  intros Hc. revert word.
  induction a as [|d a IH]; intros word; cbn.
  - rewrite Hc. now destruct (truthy word).
  - destruct (is_space d).
    + destruct (truthy word); cbn; now rewrite IH.
    + apply IH.
Qed.

Lemma split_app_sep (a sep b : string) :
  truthy sep = true -> all_space sep = true ->
  split (a ++ sep ++ b) = (split a ++ split b)%list.
Proof.
  unfold split. destruct sep as [|c sep]; [discriminate|].
  cbn. intros _ H. apply andb_true_iff in H as [Hc Hsep].
  rewrite split_from_app_space by exact Hc.
  now rewrite split_from_skip.
Qed.

(** A word that has begun is never lost. *)
Lemma split_from_word (word s : string) :
  truthy word = true -> split_from word s <> [].
Proof.
  revert word. induction s as [|c s IH]; intros word Hw; cbn.
  - now rewrite Hw.
  - destruct (is_space c).
    + now rewrite Hw.
    + apply IH. now destruct word.
Qed.

Lemma split_nil_blank (s : string) : split s = [] -> all_space s = true.
Proof.
  unfold split. induction s as [|c s IH]; cbn; [reflexivity|].
  destruct (is_space c); cbn; [exact IH|].
  intros H. now apply split_from_word in H.
Qed.

End PyTextFacts.

(** ** Word counts *)

Module WordCountProps.
Import WordCount.

Local Open Scope string_scope.
Local Open Scope Z_scope.

(** The guard of [word_count] only spares the work: the count is the
    number of words in every case. *)
Lemma word_count_split (text : string) :
  word_count text = Z.of_nat (length (PyText.split text)).
Proof.
  unfold word_count. destruct (_ || _) eqn:G; [|reflexivity].
  rewrite PyTextFacts.truthy_strip, negb_involutive in G.
  assert (Hb : PyText.all_space text = true).
  { destruct text; [reflexivity|]. exact G. }
  unfold PyText.split. now rewrite PyTextFacts.split_from_blank.
Qed.

Lemma word_count_app_sep (a sep b : string) :
  PyStr.truthy sep = true -> PyText.all_space sep = true ->
  word_count (a ++ sep ++ b) = word_count a + word_count b.
Proof.
  intros Hs Hw. rewrite !word_count_split, PyTextFacts.split_app_sep by assumption.
  rewrite length_app. lia.
Qed.

Lemma word_count_join (contents : list string) :
  word_count (PyStr.join PyText.blank_line contents)
  = foldr Z.add 0 (map word_count contents).
Proof.
  induction contents as [|x rest IH]; [reflexivity|].
  destruct rest as [|y rest].
  - cbn. lia.
  - change (PyStr.join PyText.blank_line (x :: y :: rest))
      with (x ++ PyText.blank_line ++ PyStr.join PyText.blank_line (y :: rest)).
    rewrite word_count_app_sep by reflexivity.
    rewrite IH. reflexivity.
Qed.

Lemma manuscript_word_count_sections_eq (m : PresentationManuscript) :
  manuscript_word_count m
  = foldr Z.add 0 (map (fun s => word_count (ms_content s)) (pm_sections m)).
Proof.
  unfold manuscript_word_count, full_text.
  rewrite word_count_join, map_map. reflexivity.
Qed.

(** X1: the word count of a manuscript is the sum of the word counts of
    its sections: joining the sections with a blank line neither merges
    nor adds words. *)
Theorem manuscript_word_count_sections (m : PresentationManuscript) :
  manuscript_word_count m
  = foldr Z.add 0 (map (fun s => word_count (ms_content s)) (pm_sections m)).
Proof.
  unfold manuscript_word_count, full_text.
  rewrite word_count_join, map_map. reflexivity.
Qed.

(** X2: [word_count] is never negative, and it is zero exactly for a
    text that is empty or consists of whitespace only. *)
Theorem word_count_zero_iff_blank (text : string) :
  0 <= word_count text
  /\ (word_count text = 0 <-> PyText.all_space text = true).
Proof.
  rewrite word_count_split. split; [lia|].
  split.
  - intros H. apply PyTextFacts.split_nil_blank.
    destruct (PyText.split text); [reflexivity|cbn in H; lia].
  - intros H. unfold PyText.split.
    now rewrite PyTextFacts.split_from_blank.
Qed.

Example word_count_sample :
  word_count "  Tides   follow the moon. " = 4.
Proof. reflexivity. Qed.

End WordCountProps.

(** ** Targets with a speaker profile *)

Module TargetProfileProps.
Import PresentationTargets.

Local Open Scope string_scope.
Local Open Scope Z_scope.

Lemma is_space_lower_char (c : ascii) :
  PyStr.is_space (PyStr.lower_char c) = PyStr.is_space c.
Proof. destruct c as [[] [] [] [] [] [] [] []]; reflexivity. Qed.

Lemma all_space_lower (s : string) :
  PyText.all_space (PyStr.lower s) = PyText.all_space s.
Proof.
  induction s as [|c s IH]; cbn; [reflexivity|].
  now rewrite is_space_lower_char, IH.
Qed.

Lemma truthy_lower (s : string) : PyStr.truthy (PyStr.lower s) = PyStr.truthy s.
Proof. now destruct s. Qed.

(** The rate is a function of the lower-cased audience. *)
Lemma get_wpm_for_audience_lower (audience : string) :
  get_wpm_for_audience audience
  = if negb (PyStr.truthy (PyStr.lower audience))
       || PyText.all_space (PyStr.lower audience)
    then DEFAULT_WPM
    else
      let lower := PyStr.strip (PyStr.lower audience) in
      if any_term_in slow_terms lower then 125
      else if any_term_in fast_terms lower then 145
      else DEFAULT_WPM.
Proof.
  unfold get_wpm_for_audience.
  rewrite PyTextFacts.truthy_strip, negb_involutive, truthy_lower, all_space_lower.
  reflexivity.
Qed.

(** X3: the audience is matched without regard to letter case: two
    audiences that agree after lower-casing get the same rate. *)
Theorem get_wpm_for_audience_case_insensitive (a b : string) :
  PyStr.lower a = PyStr.lower b ->
  get_wpm_for_audience a = get_wpm_for_audience b.
Proof.
  intros H. rewrite !get_wpm_for_audience_lower, H. reflexivity.
Qed.

Lemma get_wpm_for_audience_case_insensitive_witness :
  get_wpm_for_audience "High-School STUDENTS"
  = get_wpm_for_audience "high-school students".
Proof.
  apply (get_wpm_for_audience_case_insensitive
           "High-School STUDENTS" "high-school students").
  reflexivity.
Defined.

(** X4: a speaker profile moves the rate only: the rate stays between
    125 and 145, is at most 130 for a speaker under 18 and at least 140
    for an expert of 50 or more, and is the audience's rate for everyone
    else; the slide range is the one computed without profile, and the
    word target is still duration times rate. *)
Theorem compute_presentation_targets_profile
    (duration_minutes : Z) (audience : string) (p : SpeakerProfile) :
  let t := compute_presentation_targets duration_minutes audience (Some p) in
  let t0 := compute_presentation_targets duration_minutes audience None in
  125 <= wpm t <= 145
  /\ (age p < 18 -> wpm t <= 130)
  /\ (50 <= age p -> is_expert p = true -> 140 <= wpm t)
  /\ (18 <= age p -> (age p < 50 \/ is_expert p = false) -> wpm t = wpm t0)
  /\ min_slides t = min_slides t0
  /\ max_slides t = max_slides t0
  /\ target_word_count t = duration_minutes * wpm t.
Proof.
  cbn [compute_presentation_targets wpm min_slides max_slides
       target_word_count].
  unfold WPM_SLOW_MAX, WPM_FAST_MIN.
  pose proof (TargetProps.get_wpm_for_audience_cases audience) as Hw.
  destruct (Z.ltb_spec (age p) 18) as [Hy|Hy].
  - repeat split; lia.
  - destruct (Z.geb_spec (age p) 50) as [Ho|Ho]; cbn [andb].
    + destruct (is_expert p); repeat split; try lia; try discriminate.
    + repeat split; lia.
Qed.

End TargetProfileProps.

(** ** Check and patch *)

Module FactCheckFlowProps.
Import Eff FactChecker FactCheckFlow.

Lemma patch_content_app (i1 i2 : list FactCheckIssue) (c : string) :
  patch_content (i1 ++ i2) c = patch_content i2 (patch_content i1 c).
Proof. unfold patch_content. apply foldl_app. Qed.

Lemma patch_section_app (i1 i2 : list FactCheckIssue) (s : ManuscriptSection) :
  patch_section (i1 ++ i2) s = patch_section i2 (patch_section i1 s).
Proof. unfold patch_section. cbn. now rewrite patch_content_app. Qed.

Lemma apply_patches_names (m : PresentationManuscript) (r : FactCheckReport) :
  pm_title (apply_patches m r) = pm_title m
  /\ map ms_name (pm_sections (apply_patches m r))
     = map ms_name (pm_sections m).
Proof.
  rewrite PatchProps.apply_patches_sections. cbn.
  split; [reflexivity|]. rewrite map_map. reflexivity.
Qed.

(** X5: patching with a report that lists the issues of two reports one
    after the other is patching with the first report and then with the
    second. *)
Theorem apply_patches_app (m : PresentationManuscript)
    (i1 i2 : list FactCheckIssue) :
  apply_patches m (mkFactCheckReport (i1 ++ i2))
  = apply_patches (apply_patches m (mkFactCheckReport i1))
                  (mkFactCheckReport i2).
Proof.
  rewrite !PatchProps.apply_patches_sections. cbn.
  f_equal. rewrite map_map. apply map_ext. intros s. apply patch_section_app.
Qed.

(** X6: [fact_check_and_patch] never raises and keeps the frame of the
    manuscript (title, number, order and names of the sections) whatever
    the fact check answers; when the check raises or reports no issue the
    manuscript comes back as it was, otherwise it is the patched one. *)
Theorem fact_check_and_patch_soft
    (fact_check : PresentationManuscript -> string -> string ->
                  result FactCheckReport)
    (m : PresentationManuscript) (topic audience : string) :
  exists m',
    fact_check_and_patch fact_check m topic audience = Ok m'
    /\ pm_title m' = pm_title m
    /\ map ms_name (pm_sections m') = map ms_name (pm_sections m)
    /\ (forall e, fact_check m topic audience = Raised e -> m' = m)
    /\ (forall r, fact_check m topic audience = Ok r ->
          m' = apply_patches m r /\ (issues r = [] -> m' = m)).
Proof.
  unfold fact_check_and_patch, check_then_patch.
  destruct (fact_check m topic audience) as [r|e].
  - destruct (issues r) as [|i rest] eqn:E.
    + exists m.
      split; [reflexivity|]. split; [reflexivity|]. split; [reflexivity|].
      split; [discriminate|].
      intros r' [= <-]. split; [|reflexivity].
      unfold apply_patches. now rewrite E.
    + exists (apply_patches m r).
      destruct (apply_patches_names m r) as [Ht Hn].
      split; [reflexivity|]. split; [exact Ht|]. split; [exact Hn|].
      split; [discriminate|].
      intros r' [= <-]. split; [reflexivity|].
      rewrite E. discriminate.
  - exists m.
    split; [reflexivity|]. split; [reflexivity|]. split; [reflexivity|].
    split; [reflexivity|discriminate].
Qed.

End FactCheckFlowProps.

(** ** Reversal, prefixes and lengths *)

Module PyRevFacts.
Import PyStr PyText.

Local Open Scope string_scope.
Local Open Scope Z_scope.

Lemma rev_append_app (s acc : string) : rev_append s acc = rev s ++ acc.
Proof.
  unfold rev. revert acc.
  induction s as [|c s IH]; intros acc; cbn; [reflexivity|].
  rewrite IH, (IH (String c EmptyString)), PyStrFacts.app_assoc. reflexivity.
Qed.

Lemma rev_cons (c : ascii) (s : string) :
  rev (String c s) = rev s ++ String c EmptyString.
Proof. unfold rev at 1. cbn [rev_append]. apply rev_append_app. Qed.

Lemma rev_app (s t : string) : rev (s ++ t) = rev t ++ rev s.
Proof.
  induction s as [|c s IH]; cbn [append].
  - change (rev EmptyString) with EmptyString.
    now rewrite PyStrFacts.app_nil_r.
  - rewrite !rev_cons, IH, PyStrFacts.app_assoc. reflexivity.
Qed.

Lemma rev_involutive (s : string) : rev (rev s) = s.
Proof.
  induction s as [|c s IH]; [reflexivity|].
  rewrite rev_cons, rev_app, IH. reflexivity.
Qed.

Lemma length_rev (s : string) : String.length (rev s) = String.length s.
Proof.
  induction s as [|c s IH]; [reflexivity|].
  rewrite rev_cons, PyStrFacts.length_app, IH. cbn. lia.
Qed.

(** [lstrip] removes a blank prefix and nothing else. *)
Lemma lstrip_suffix (s : string) :
  exists ws, all_space ws = true /\ s = ws ++ lstrip s.
Proof.
  induction s as [|c s (ws & Hws & Hs)]; cbn.
  - now exists EmptyString.
  - destruct (is_space c) eqn:E.
    + exists (String c ws). cbn. rewrite E, Hws. split; [reflexivity|].
      now rewrite <- Hs.
    + now exists EmptyString.
Qed.

(** [rstrip] removes a blank suffix and nothing else. *)
Lemma rstrip_prefix (s : string) :
  exists ws, all_space ws = true /\ s = rstrip s ++ ws.
Proof.
  unfold rstrip. destruct (lstrip_suffix (rev s)) as (ws & Hws & Hs).
  exists (rev ws). split; [now rewrite PyTextFacts.all_space_rev|].
  rewrite <- rev_app, <- Hs, rev_involutive. reflexivity.
Qed.

Lemma length_rstrip (s : string) :
  (String.length (rstrip s) <= String.length s)%nat.
Proof.
  destruct (rstrip_prefix s) as (ws & _ & Hs).
  rewrite Hs at 2. rewrite PyStrFacts.length_app. lia.
Qed.

Lemma length_take (n : nat) (s : string) :
  String.length (take n s) = Nat.min n (String.length s).
Proof.
  revert s. induction n as [|n IH]; intros [|c s]; cbn; auto.
Qed.

Lemma take_prefix (n : nat) (s : string) : exists t, s = take n s ++ t.
Proof.
  revert s. induction n as [|n IH]; intros s; cbn.
  - now exists s.
  - destruct s as [|c s]; [now exists EmptyString|].
    destruct (IH s) as [t Ht]. exists t. cbn. now rewrite <- Ht.
Qed.

Lemma slice_to_prefix (k : Z) (s : string) : exists t, s = slice_to k s ++ t.
Proof. unfold slice_to. destruct (0 <=? k); apply take_prefix. Qed.

Lemma length_slice_to (k : Z) (s : string) :
  0 <= k -> Z.of_nat (String.length (slice_to k s)) <= k.
Proof.
  intros Hk. unfold slice_to.
  destruct (Z.leb_spec 0 k); [|lia]. rewrite length_take. lia.
Qed.

End PyRevFacts.

(** ** Titles *)

Module TitleProps.
Import TitlePrep.

Local Open Scope string_scope.
Local Open Scope Z_scope.

Example long_title_is_cut (e : ascii) :
  _prepare_title e "  The long way round  " 8 = "The lon" ++ String e EmptyString.
Proof. reflexivity. Qed.

Example cut_drops_trailing_blank (e : ascii) :
  _prepare_title e "Tides and the moon" 7 = "Tides" ++ String e EmptyString.
Proof. reflexivity. Qed.

(** With a budget below one the shortened title is longer than the
    budget. *)
Example zero_budget_overflows (e : ascii) :
  _prepare_title e "abc" 0 = "ab" ++ String e EmptyString.
Proof. reflexivity. Qed.

(** X7: for a budget of at least one character, the prepared title is
    never longer than the budget.  It is the stripped title when that
    fits, and otherwise a beginning of the stripped title followed by the
    ellipsis. *)
Theorem prepare_title_fits (ellipsis : ascii) (title : string) (max_chars : Z) :
  1 <= max_chars ->
  Z.of_nat (String.length (_prepare_title ellipsis title max_chars)) <= max_chars
  /\ (_prepare_title ellipsis title max_chars = PyStr.strip title
      \/ (max_chars < Z.of_nat (String.length (PyStr.strip title))
          /\ exists kept dropped,
               PyStr.strip title = kept ++ dropped
               /\ _prepare_title ellipsis title max_chars
                  = kept ++ String ellipsis EmptyString)).
Proof.
  intros Hmax. unfold _prepare_title.
  destruct title as [|c title]; cbn [PyStr.truthy negb].
  { split; [cbn; lia|now left]. }
  set (t := PyStr.strip (String c title)).
  destruct (Z.leb_spec (Z.of_nat (String.length t)) max_chars) as [Hfit|Hlong].
  { split; [exact Hfit|now left]. }
  split.
  - rewrite PyStrFacts.length_app. cbn [String.length].
    pose proof (PyRevFacts.length_rstrip (PyText.slice_to (max_chars - 1) t)).
    pose proof (PyRevFacts.length_slice_to (max_chars - 1) t). lia.
  - right. split; [exact Hlong|].
    destruct (PyRevFacts.slice_to_prefix (max_chars - 1) t) as [rest Hrest].
    destruct (PyRevFacts.rstrip_prefix (PyText.slice_to (max_chars - 1) t))
      as (ws & _ & Hws).
    exists (PyStr.rstrip (PyText.slice_to (max_chars - 1) t)), (ws ++ rest).
    split; [|reflexivity].
    rewrite <- PyStrFacts.app_assoc, <- Hws. exact Hrest.
Qed.

Lemma prepare_title_fits_witness :
  Z.of_nat (String.length
              (_prepare_title "."%char "  The long way round  " 8)) <= 8.
Proof.
  assert (H : 1 <= 8) by lia.
  exact (proj1 (prepare_title_fits "."%char "  The long way round  " 8 H)).
Defined.

End TitleProps.

(** ** Speaker notes *)

Module NotesProps.
Import Eff NotesGenerator.

Local Open Scope string_scope.

(** The entry for [k] after reading [answer], starting from [acc]. *)
Lemma notes_fold_lookup (answer : list SlideNotesOutput) (k : positive) :
  forall acc : Pmap string,
    foldl (fun by_slide n => <[sn_slide_number n := sn_speaker_notes n]> by_slide)
          acc answer !! k
    = foldl (fun found n =>
               if decide (sn_slide_number n = k)
               then Some (sn_speaker_notes n) else found)
            (acc !! k) answer.
Proof.
  induction answer as [|n answer IH]; intros acc; cbn; [reflexivity|].
  rewrite IH. f_equal.
  destruct (decide (sn_slide_number n = k)) as [->|Hne].
  - apply lookup_insert_eq.
  - now apply lookup_insert_ne.
Qed.

Lemma notes_by_slide_none (answer : list SlideNotesOutput) (k : positive) :
  (forall n, In n answer -> sn_slide_number n <> k) ->
  notes_by_slide answer !! k = None.
Proof.
  intros H. unfold notes_by_slide. rewrite notes_fold_lookup, lookup_empty.
  assert (Hkeep : forall o : option string,
    foldl (fun found n =>
             if decide (sn_slide_number n = k)
             then Some (sn_speaker_notes n) else found) o answer = o).
  { induction answer as [|n answer IH]; intros o; [reflexivity|]. cbn.
    destruct (decide (sn_slide_number n = k)) as [E|_].
    - exfalso. apply (H n); [now left|exact E].
    - apply IH. intros n' Hn'. apply H. now right. }
  apply Hkeep.
Qed.

Lemma notes_by_slide_last (before after : list SlideNotesOutput)
    (n : SlideNotesOutput) :
  (forall n', In n' after -> sn_slide_number n' <> sn_slide_number n) ->
  notes_by_slide (before ++ n :: after) !! sn_slide_number n
  = Some (sn_speaker_notes n).
Proof.
  intros Hafter. unfold notes_by_slide.
  rewrite notes_fold_lookup, foldl_app. cbn.
  destruct (decide (sn_slide_number n = sn_slide_number n)); [|congruence].
  generalize (Some (sn_speaker_notes n)) as o.
  induction after as [|n' after IH]; intros o; [reflexivity|]. cbn.
  destruct (decide (sn_slide_number n' = sn_slide_number n)) as [E|_].
  - exfalso. apply (Hafter n'); [now left|exact E].
  - apply IH. intros n'' H. apply Hafter. now right.
Qed.

(** X8: the notes stage keeps the deck: it returns as many slides as it
    was given, in the same order, each with its [slide_number], title,
    bullets and image query; when the generation service raises, the
    slides come back exactly as they were. *)
Theorem notes_generate_frame
    (service : PresentationManuscript -> list SlideContent ->
               result NotesListOutput)
    (manuscript : PresentationManuscript) (slides : list SlideContent) :
  length (generate service manuscript slides) = length slides
  /\ (forall (i : nat) (s : SlideContent),
        slides !! i = Some s ->
        exists s',
          generate service manuscript slides !! i = Some s'
          /\ sc_slide_number s' = sc_slide_number s
          /\ sc_title s' = sc_title s
          /\ sc_bullet_points s' = sc_bullet_points s
          /\ sc_image_query s' = sc_image_query s)
  /\ (forall e, service manuscript slides = Raised e ->
        generate service manuscript slides = slides).
Proof.
  unfold generate.
  destruct (service manuscript slides) as [answer|e].
  - split; [apply length_map|]. split; [|discriminate].
    intros i s Hs. eexists. rewrite ListFacts.lookup_map, Hs. cbn.
    repeat split.
  - split; [reflexivity|]. split; [|reflexivity].
    intros i s Hs. exists s. repeat split. exact Hs.
Qed.

(** X9: when the service answers, a slide gets the notes of the last
    entry of the answer that carries its number, and empty notes when no
    entry carries its number, whatever notes it had before. *)
Theorem notes_generate_lookup
    (service : PresentationManuscript -> list SlideContent ->
               result NotesListOutput)
    (manuscript : PresentationManuscript) (slides : list SlideContent)
    (answer : NotesListOutput) :
  service manuscript slides = Ok answer ->
  forall (i : nat) (s : SlideContent),
    slides !! i = Some s ->
    exists s',
      generate service manuscript slides !! i = Some s'
      /\ ((forall n, In n (notes answer) ->
             sn_slide_number n <> sc_slide_number s) ->
          sc_speaker_notes s' = EmptyString)
      /\ (forall before n after,
            notes answer = (before ++ n :: after)%list ->
            sn_slide_number n = sc_slide_number s ->
            (forall n', In n' after ->
               sn_slide_number n' <> sc_slide_number s) ->
            sc_speaker_notes s' = sn_speaker_notes n).
Proof.
  intros Hanswer i s Hs. unfold generate. rewrite Hanswer.
  exists (merge_notes (notes_by_slide (notes answer)) s).
  split; [now rewrite ListFacts.lookup_map, Hs|].
  cbn [merge_notes sc_speaker_notes]. split.
  - intros Hnone. now rewrite notes_by_slide_none.
  - intros before n after -> <- Hafter.
    now rewrite notes_by_slide_last.
Qed.

End NotesProps.

(** ** Image search and selection *)

Module ImageSearchProps.
Import Eff ImageSearch ImageSearchSpec.

Local Open Scope string_scope.
Local Open Scope Z_scope.

Lemma usable_url (r : SearchResult) :
  usable r = true <-> exists u, result_url r = Some u /\ PyStr.truthy u = true.
Proof.
  unfold usable. destruct (result_url r) as [u|].
  - split; [eauto|]. now intros (u' & [= <-] & H).
  - split; [discriminate|]. now intros (u' & [=] & _).
Qed.

Lemma urls_cases (r : SearchResult) : urls r = Null \/ urls r <> Null.
Proof. destruct (urls r); [right|left|right]; congruence. Qed.

Lemma url_of_ok (r : SearchResult) :
  urls r <> Null -> url_of (get_urls r) = Ok (result_url r).
Proof.
  intros H. unfold url_of, result_url, get_urls.
  destruct (urls r); [reflexivity|contradiction|reflexivity].
Qed.

Lemma url_of_null (r : SearchResult) :
  urls r = Null -> url_of (get_urls r) = Raised no_get.
Proof. intros H. unfold url_of, get_urls. now rewrite H. Qed.

Lemma null_unusable (r : SearchResult) : urls r = Null -> usable r = false.
Proof. intros H. unfold usable, result_url, get_urls. now rewrite H. Qed.

Lemma usable_not_null (r : SearchResult) : usable r = true -> urls r <> Null.
Proof. intros Hu Hn. rewrite (null_unusable r Hn) in Hu. discriminate Hu. Qed.

(** *** The second loop of the metadata selection *)

Lemma first_with_url_cons (r : SearchResult) (rest : list SearchResult) :
  urls r <> Null ->
  first_with_url (r :: rest)
  = if usable r then Ok (result_url r) else first_with_url rest.
Proof.
  intros H. cbn [first_with_url]. rewrite (url_of_ok r H). unfold usable.
  destruct (result_url r) as [u|]; [|reflexivity].
  destruct (PyStr.truthy u); reflexivity.
Qed.

Lemma first_with_url_null (r : SearchResult) (rest : list SearchResult) :
  urls r = Null -> first_with_url (r :: rest) = Raised no_get.
Proof. intros H. cbn [first_with_url]. now rewrite (url_of_null r H). Qed.

Lemma first_with_url_some (results : list SearchResult) (u : string) :
  first_with_url results = Ok (Some u) ->
  PyStr.truthy u = true /\ exists r, In r results /\ result_url r = Some u.
Proof.
  induction results as [|r rest IH]; [intros H; discriminate H|].
  destruct (urls_cases r) as [Hn|Hn].
  - rewrite (first_with_url_null r rest Hn). intros H; discriminate H.
  - rewrite (first_with_url_cons r rest Hn).
    destruct (usable r) eqn:Hu.
    + intros [= E]. apply usable_url in Hu as (v & Hv & Ht).
      rewrite Hv in E. injection E as <-.
      split; [exact Ht|]. exists r. split; [now left|exact Hv].
    + intros H. destruct (IH H) as (Ht & r' & Hr' & Hurl).
      split; [exact Ht|]. exists r'. split; [now right|exact Hurl].
Qed.

Lemma first_with_url_raised (results : list SearchResult) (e : PyException) :
  first_with_url results = Raised e ->
  e = no_get /\ exists r, In r results /\ urls r = Null.
Proof.
  induction results as [|r rest IH]; [intros H; discriminate H|].
  destruct (urls_cases r) as [Hn|Hn].
  - rewrite (first_with_url_null r rest Hn). intros [= <-].
    split; [reflexivity|]. exists r. split; [now left|exact Hn].
  - rewrite (first_with_url_cons r rest Hn).
    destruct (usable r); [intros H; discriminate H|].
    intros H. destruct (IH H) as (-> & r' & Hr' & Hnull).
    split; [reflexivity|]. exists r'. split; [now right|exact Hnull].
Qed.

Lemma first_with_url_none (results : list SearchResult) :
  first_with_url results = Ok None ->
  forall r, In r results -> usable r = false.
Proof.
  induction results as [|r rest IH]; [intros _ r []|].
  destruct (urls_cases r) as [Hn|Hn].
  - rewrite (first_with_url_null r rest Hn). intros H; discriminate H.
  - rewrite (first_with_url_cons r rest Hn). destruct (usable r) eqn:Hu.
    + intros [= E]. apply usable_url in Hu as (v & Hv & _). congruence.
    + intros H r' [<-|Hr']; [exact Hu|now apply IH].
Qed.

Lemma first_with_url_unusable (results : list SearchResult) :
  (forall r, In r results -> urls r <> Null) ->
  (forall r, In r results -> usable r = false) ->
  first_with_url results = Ok None.
Proof.
  induction results as [|r rest IH]; intros Hwf Hno; [reflexivity|].
  rewrite first_with_url_cons by (apply Hwf; now left).
  rewrite (Hno r) by now left.
  apply IH; intros r' Hr'; [apply Hwf|apply Hno]; now right.
Qed.

Lemma first_with_url_total (results : list SearchResult) :
  (forall r, In r results -> urls r <> Null) ->
  exists choice, first_with_url results = Ok choice.
Proof.
  induction results as [|r rest IH]; intros Hwf; [now exists None|].
  rewrite first_with_url_cons by (apply Hwf; now left).
  destruct (usable r); [eauto|].
  apply IH. intros r' Hr'. apply Hwf. now right.
Qed.

(** *** The first loop of the metadata selection *)


(** One turn of the first loop, for a result without [null]. *)
Lemma first_wide_landscape_cons (r : SearchResult) (rest : list SearchResult) :
  well_formed r ->
  first_wide_landscape (r :: rest)
  = if wide_landscape r then Ok (result_url r) else first_wide_landscape rest.
Proof.
  intros [Hu Hw]. cbn [first_wide_landscape]. unfold wide_landscape.
  rewrite (url_of_ok r Hu). unfold usable.
  destruct (get_int (width r)) as [w|] eqn:Ew.
  2: { destruct (width r); [discriminate Ew|contradiction|discriminate Ew]. }
  destruct (portrait (Some w) (get_int (height r))); cbn [negb andb];
    [reflexivity|].
  unfold _MIN_WIDTH.
  destruct (Z.ltb_spec w 800), (Z.leb_spec 800 w); try lia; cbn [andb];
    [reflexivity|].
  destruct (result_url r) as [u|]; [|reflexivity].
  destruct (PyStr.truthy u); reflexivity.
Qed.


Lemma first_wide_landscape_some (results : list SearchResult) (u : string) :
  first_wide_landscape results = Ok (Some u) ->
  PyStr.truthy u = true /\ exists r, In r results /\ result_url r = Some u.
Proof.
  induction results as [|r rest IH]; [intros H; discriminate H|].
  assert (Hrest : first_wide_landscape rest = Ok (Some u) ->
    PyStr.truthy u = true
    /\ exists r0, In r0 (r :: rest) /\ result_url r0 = Some u).
  { intros H. destruct (IH H) as (Ht & r' & Hr' & Hurl).
    split; [exact Ht|]. exists r'. split; [now right|exact Hurl]. }
  cbn [first_wide_landscape].
  destruct (portrait _ _); [exact Hrest|].
  destruct (get_int (width r)) as [w|]; [|intros H; discriminate H].
  destruct (w <? _MIN_WIDTH); [exact Hrest|].
  unfold url_of. destruct (get_urls r) as [us|] eqn:Eu;
    [|intros H; discriminate H].
  destruct (py_or (regular us) (small us)) as [v|] eqn:Ev; [|exact Hrest].
  destruct (PyStr.truthy v) eqn:T; [|exact Hrest].
  intros [= <-]. split; [exact T|]. exists r. split; [now left|].
  unfold result_url. now rewrite Eu.
Qed.

Lemma first_wide_landscape_raised (results : list SearchResult)
    (e : PyException) :
  first_wide_landscape results = Raised e ->
  exists r, In r results /\ (urls r = Null \/ width r = Null).
Proof.
  induction results as [|r rest IH]; [intros H; discriminate H|].
  assert (Hrest : first_wide_landscape rest = Raised e ->
    exists r0, In r0 (r :: rest) /\ (urls r0 = Null \/ width r0 = Null)).
  { intros H. destruct (IH H) as (r' & Hr' & Hn).
    exists r'. split; [now right|exact Hn]. }
  cbn [first_wide_landscape].
  destruct (portrait _ _); [exact Hrest|].
  destruct (get_int (width r)) as [w|] eqn:Ew.
  - destruct (w <? _MIN_WIDTH); [exact Hrest|].
    destruct (urls_cases r) as [Hn|Hn].
    + intros _. exists r. split; [now left|now left].
    + rewrite (url_of_ok r Hn).
      destruct (result_url r) as [v|]; [|exact Hrest].
      destruct (PyStr.truthy v); [intros H; discriminate H|exact Hrest].
  - intros _. exists r. split; [now left|right].
    destruct (width r); [discriminate Ew|reflexivity|discriminate Ew].
Qed.



Lemma first_wide_landscape_total (results : list SearchResult) :
  (forall r, In r results -> well_formed r) ->
  exists choice, first_wide_landscape results = Ok choice.
Proof.
  induction results as [|r rest IH]; intros Hwf; [now exists None|].
  rewrite first_wide_landscape_cons by (apply Hwf; now left).
  destruct (wide_landscape r); [eauto|].
  apply IH. intros r' Hr'. apply Hwf. now right.
Qed.

(** *** The metadata selection *)

Lemma metadata_select_some (results : list SearchResult) (u : string) :
  _metadata_select_best results = Ok (Some u) ->
  PyStr.truthy u = true /\ exists r, In r results /\ result_url r = Some u.
Proof.
  unfold _metadata_select_best.
  destruct (first_wide_landscape results) as [[v|]|e] eqn:E.
  - intros [= <-]. now apply first_wide_landscape_some.
  - apply first_with_url_some.
  - intros H; discriminate H.
Qed.

Lemma metadata_select_raised (results : list SearchResult) (e : PyException) :
  _metadata_select_best results = Raised e ->
  exists r, In r results /\ (urls r = Null \/ width r = Null).
Proof.
  unfold _metadata_select_best.
  destruct (first_wide_landscape results) as [[v|]|e'] eqn:E.
  - intros H; discriminate H.
  - intros H. destruct (first_with_url_raised _ _ H) as (_ & r & Hr & Hn).
    exists r. split; [exact Hr|now left].
  - intros _. apply (first_wide_landscape_raised _ _ E).
Qed.

Lemma metadata_select_total (results : list SearchResult) :
  (forall r, In r results -> well_formed r) ->
  exists choice,
    _metadata_select_best results = Ok choice
    /\ (choice = None <-> forall r, In r results -> usable r = false).
Proof.
  intros Hwf. unfold _metadata_select_best.
  destruct (first_wide_landscape_total results Hwf) as (c & Hc). rewrite Hc.
  destruct c as [v|].
  - exists (Some v). split; [reflexivity|]. split; [discriminate|].
    intros Hno.
    destruct (first_wide_landscape_some _ _ Hc) as (Ht & r & Hr & Hurl).
    specialize (Hno r Hr). unfold usable in Hno.
    rewrite Hurl, Ht in Hno. discriminate Hno.
  - assert (Hu : forall r, In r results -> urls r <> Null).
    { intros r Hr. apply Hwf, Hr. }
    destruct (first_with_url_total results Hu) as (c & Hc').
    exists c. split; [exact Hc'|]. split.
    + intros ->. now apply first_with_url_none.
    + intros Hno. rewrite (first_with_url_unusable results Hu Hno) in Hc'.
      congruence.
Qed.


(** *** Candidates *)

Lemma appended_ok (c0 : _Candidate) (rest : result (list _Candidate))
    (cs : list _Candidate) :
  appended c0 rest = Ok cs -> exists cs', rest = Ok cs' /\ cs = c0 :: cs'.
Proof.
  unfold appended. destruct rest as [cs'|e]; [|intros H; discriminate H].
  intros [= <-]. eauto.
Qed.

Lemma landscape_candidates_in (results : list SearchResult) :
  forall (cs : list _Candidate) (c : _Candidate),
    landscape_candidates results = Ok cs -> In c cs ->
    PyStr.truthy (url c) = true
    /\ In (raw c) results
    /\ result_url (raw c) = Some (url c)
    /\ c_width c = Some (width_or_0 (raw c))
    /\ c_height c = Some (height_or_0 (raw c))
    /\ height_or_0 (raw c) <= width_or_0 (raw c).
Proof.
  unfold width_or_0, height_or_0.
  induction results as [|r rest IH]; intros cs c; cbn [landscape_candidates].
  { intros [= <-] []. }
  assert (Hrest : forall cs', landscape_candidates rest = Ok cs' -> In c cs' ->
    PyStr.truthy (url c) = true
    /\ In (raw c) (r :: rest)
    /\ result_url (raw c) = Some (url c)
    /\ c_width c = Some (default 0 (get_int (width (raw c))))
    /\ c_height c = Some (default 0 (get_int (height (raw c))))
    /\ default 0 (get_int (height (raw c)))
       <= default 0 (get_int (width (raw c)))).
  { intros cs' H Hc. destruct (IH cs' c H Hc) as (? & ? & ? & ? & ? & ?).
    repeat split; try assumption. now right. }
  unfold url_of. destruct (get_urls r) as [us|] eqn:Eu;
    [|intros H; discriminate H].
  destruct (py_or (regular us) (small us)) as [u|] eqn:Ev; [|apply Hrest].
  destruct (PyStr.truthy u) eqn:T; [|apply Hrest].
  destruct (Z.ltb_spec (default 0 (get_int (width r)))
                       (default 0 (get_int (height r)))) as [Hlt|Hge];
    [apply Hrest|].
  intros H Hc. apply appended_ok in H as (cs' & Hcs' & ->).
  destruct Hc as [<-|Hc]; [|now apply (Hrest cs')].
  cbn [url raw c_width c_height].
  split; [exact T|]. split; [now left|].
  split; [unfold result_url; now rewrite Eu|].
  split; [reflexivity|]. split; [reflexivity|lia].
Qed.

Lemma any_candidates_in (results : list SearchResult) :
  forall (cs : list _Candidate) (c : _Candidate),
    any_candidates results = Ok cs -> In c cs ->
    PyStr.truthy (url c) = true
    /\ In (raw c) results
    /\ result_url (raw c) = Some (url c)
    /\ c_width c = get_int (width (raw c))
    /\ c_height c = get_int (height (raw c)).
Proof.
  induction results as [|r rest IH]; intros cs c; cbn [any_candidates].
  { intros [= <-] []. }
  assert (Hrest : forall cs', any_candidates rest = Ok cs' -> In c cs' ->
    PyStr.truthy (url c) = true
    /\ In (raw c) (r :: rest)
    /\ result_url (raw c) = Some (url c)
    /\ c_width c = get_int (width (raw c))
    /\ c_height c = get_int (height (raw c))).
  { intros cs' H Hc. destruct (IH cs' c H Hc) as (? & ? & ? & ? & ?).
    repeat split; try assumption. now right. }
  unfold url_of. destruct (get_urls r) as [us|] eqn:Eu;
    [|intros H; discriminate H].
  destruct (py_or (regular us) (small us)) as [u|] eqn:Ev; [|apply Hrest].
  destruct (PyStr.truthy u) eqn:T; [|apply Hrest].
  intros H Hc. apply appended_ok in H as (cs' & Hcs' & ->).
  destruct Hc as [<-|Hc]; [|now apply (Hrest cs')].
  cbn [url raw c_width c_height].
  split; [exact T|]. split; [now left|].
  split; [unfold result_url; now rewrite Eu|].
  split; reflexivity.
Qed.

Lemma landscape_candidates_raised (results : list SearchResult)
    (e : PyException) :
  landscape_candidates results = Raised e ->
  e = no_get /\ exists r, In r results /\ urls r = Null.
Proof.
  induction results as [|r rest IH]; [intros H; discriminate H|].
  assert (Hrest : landscape_candidates rest = Raised e ->
    e = no_get /\ exists r0, In r0 (r :: rest) /\ urls r0 = Null).
  { intros H. destruct (IH H) as (-> & r' & Hr' & Hn).
    split; [reflexivity|]. exists r'. split; [now right|exact Hn]. }
  cbn [landscape_candidates].
  destruct (urls_cases r) as [Hn|Hn].
  - rewrite (url_of_null r Hn). intros [= <-].
    split; [reflexivity|]. exists r. split; [now left|exact Hn].
  - rewrite (url_of_ok r Hn).
    destruct (result_url r) as [u|]; [|exact Hrest].
    destruct (PyStr.truthy u); [|exact Hrest].
    destruct (_ <? _); [exact Hrest|].
    unfold appended. destruct (landscape_candidates rest) as [cs|e'];
      [intros H; discriminate H|].
    intros [= ->]. now apply Hrest.
Qed.

Lemma landscape_candidates_null (results : list SearchResult)
    (r : SearchResult) :
  In r results -> urls r = Null ->
  landscape_candidates results = Raised no_get.
Proof.
  intros Hin Hnull.
  induction results as [|b rest IH]; [destruct Hin|].
  cbn [landscape_candidates].
  destruct Hin as [->|Hin]; [now rewrite (url_of_null r Hnull)|].
  specialize (IH Hin).
  destruct (urls_cases b) as [Hn|Hn]; [now rewrite (url_of_null b Hn)|].
  rewrite (url_of_ok b Hn).
  destruct (result_url b) as [u|]; [|exact IH].
  destruct (PyStr.truthy u); [|exact IH].
  destruct (_ <? _); [exact IH|]. now rewrite IH.
Qed.

Lemma any_candidates_raised (results : list SearchResult) (e : PyException) :
  any_candidates results = Raised e ->
  e = no_get /\ exists r, In r results /\ urls r = Null.
Proof.
  induction results as [|r rest IH]; [intros H; discriminate H|].
  assert (Hrest : any_candidates rest = Raised e ->
    e = no_get /\ exists r0, In r0 (r :: rest) /\ urls r0 = Null).
  { intros H. destruct (IH H) as (-> & r' & Hr' & Hn).
    split; [reflexivity|]. exists r'. split; [now right|exact Hn]. }
  cbn [any_candidates].
  destruct (urls_cases r) as [Hn|Hn].
  - rewrite (url_of_null r Hn). intros [= <-].
    split; [reflexivity|]. exists r. split; [now left|exact Hn].
  - rewrite (url_of_ok r Hn).
    destruct (result_url r) as [u|]; [|exact Hrest].
    destruct (PyStr.truthy u); [|exact Hrest].
    unfold appended. destruct (any_candidates rest) as [cs|e'];
      [intros H; discriminate H|].
    intros [= ->]. now apply Hrest.
Qed.

Lemma any_candidates_nil (results : list SearchResult) :
  forall cs : list _Candidate,
    any_candidates results = Ok cs ->
    (cs = [] <-> forall r, In r results -> usable r = false).
Proof.
  induction results as [|r rest IH]; intros cs; cbn [any_candidates].
  { intros [= <-]. split; [intros _ r []|reflexivity]. }
  destruct (urls_cases r) as [Hn|Hn];
    [rewrite (url_of_null r Hn); intros H; discriminate H|].
  rewrite (url_of_ok r Hn).
  assert (Hrest : usable r = false -> any_candidates rest = Ok cs ->
    (cs = [] <-> forall r0, In r0 (r :: rest) -> usable r0 = false)).
  { intros Hu H. rewrite (IH cs H). split.
    - intros Hall r' [<-|Hr']; [exact Hu|now apply Hall].
    - intros Hall r' Hr'. apply Hall. now right. }
  destruct (result_url r) as [u|] eqn:E.
  - destruct (PyStr.truthy u) eqn:T.
    + intros H. apply appended_ok in H as (cs' & _ & ->).
      split; [intros Hnil; discriminate Hnil|].
      intros Hall. specialize (Hall r (or_introl eq_refl)).
      unfold usable in Hall. rewrite E, T in Hall. discriminate Hall.
    + apply Hrest. unfold usable. now rewrite E.
  - apply Hrest. unfold usable. now rewrite E.
Qed.

Lemma landscape_candidates_some (results : list SearchResult)
    (r : SearchResult) :
  In r results -> usable r = true -> height_or_0 r <= width_or_0 r ->
  landscape_candidates results <> Ok [].
Proof.
  unfold width_or_0, height_or_0. intros Hin Hu Hl.
  induction results as [|b rest IH]; [destruct Hin|].
  cbn [landscape_candidates].
  destruct Hin as [->|Hin].
  - rewrite (url_of_ok r (usable_not_null r Hu)).
    unfold usable in Hu. destruct (result_url r) as [u|]; [|discriminate Hu].
    rewrite Hu.
    destruct (Z.ltb_spec (default 0 (get_int (width r)))
                         (default 0 (get_int (height r)))); [lia|].
    unfold appended. destruct (landscape_candidates rest); discriminate.
  - specialize (IH Hin).
    destruct (url_of (get_urls b)) as [[u|]|e]; [|exact IH|discriminate].
    destruct (PyStr.truthy u); [|exact IH].
    destruct (_ <? _); [exact IH|].
    unfold appended. destruct (landscape_candidates rest); discriminate.
Qed.

Lemma parse_candidates_raised (results : list SearchResult) (e : PyException) :
  _parse_candidates results = Raised e ->
  e = no_get /\ exists r, In r results /\ urls r = Null.
Proof.
  unfold _parse_candidates.
  destruct (landscape_candidates results) as [[|c cs]|e'] eqn:E.
  - apply any_candidates_raised.
  - intros H; discriminate H.
  - intros [= ->]. now apply landscape_candidates_raised.
Qed.

Lemma parse_candidates_null (results : list SearchResult) (r : SearchResult) :
  In r results -> urls r = Null -> _parse_candidates results = Raised no_get.
Proof.
  intros Hin Hnull. unfold _parse_candidates.
  now rewrite (landscape_candidates_null results r Hin Hnull).
Qed.

Lemma parse_candidates_total (results : list SearchResult) :
  (forall r, In r results -> urls r <> Null) ->
  exists cs, _parse_candidates results = Ok cs.
Proof.
  intros Hwf. destruct (_parse_candidates results) as [cs|e] eqn:E; [eauto|].
  destruct (parse_candidates_raised _ _ E) as (_ & r & Hr & Hn).
  now destruct (Hwf r Hr).
Qed.

Lemma parse_candidates_in (results : list SearchResult)
    (cs : list _Candidate) (c : _Candidate) :
  _parse_candidates results = Ok cs -> In c cs ->
  PyStr.truthy (url c) = true
  /\ In (raw c) results
  /\ result_url (raw c) = Some (url c)
  /\ (c_width c = get_int (width (raw c))
      \/ width (raw c) = Null /\ c_width c = Some 0)
  /\ (c_height c = get_int (height (raw c))
      \/ height (raw c) = Null /\ c_height c = Some 0).
Proof.
  unfold _parse_candidates.
  destruct (landscape_candidates results) as [[|c0 cs0]|e] eqn:E.
  - intros H Hc. destruct (any_candidates_in _ _ _ H Hc) as (? & ? & ? & ? & ?).
    auto 6.
  - intros [= <-] Hc.
    destruct (landscape_candidates_in _ _ _ E Hc) as (? & ? & ? & Hw & Hh & _).
    split; [assumption|]. split; [assumption|]. split; [assumption|].
    rewrite Hw, Hh. unfold width_or_0, height_or_0.
    split; [destruct (width (raw c))|destruct (height (raw c))]; cbn; auto.
  - intros H; discriminate H.
Qed.

Lemma parse_candidates_nil (results : list SearchResult)
    (cs : list _Candidate) :
  _parse_candidates results = Ok cs ->
  (cs = [] <-> forall r, In r results -> usable r = false).
Proof.
  unfold _parse_candidates.
  destruct (landscape_candidates results) as [[|c0 cs0]|e] eqn:E.
  - apply any_candidates_nil.
  - intros [= <-]. split; [intros Hnil; discriminate Hnil|]. intros H.
    destruct (landscape_candidates_in _ _ c0 E (or_introl eq_refl))
      as (Ht & Hin & Hurl & _).
    specialize (H _ Hin). unfold usable in H. rewrite Hurl, Ht in H.
    discriminate H.
  - intros H; discriminate H.
Qed.

(** X11: [_parse_candidates] raises exactly when a result holds [null]
    for [urls], and then an AttributeError.  Every candidate it returns
    carries the non-empty URL of the search result it keeps as [raw],
    with the size of that result, 0 for an absent size, and 0 or [None]
    for a [null] one; there is no candidate exactly when no result has a
    usable URL; and as soon as one usable result is not portrait, every
    candidate has integer sizes and none is portrait. *)
Theorem parse_candidates_sound (results : list SearchResult) :
  ((exists r, In r results /\ urls r = Null)
   <-> _parse_candidates results = Raised no_get)
  /\ (forall e, _parse_candidates results = Raised e -> e = no_get)
  /\ (forall candidates,
        _parse_candidates results = Ok candidates ->
        (forall c, In c candidates ->
           PyStr.truthy (url c) = true
           /\ In (raw c) results
           /\ result_url (raw c) = Some (url c)
           /\ (c_width c = get_int (width (raw c))
               \/ width (raw c) = Null /\ c_width c = Some 0)
           /\ (c_height c = get_int (height (raw c))
               \/ height (raw c) = Null /\ c_height c = Some 0))
        /\ (candidates = []
            <-> forall r, In r results -> usable r = false)
        /\ ((exists r, In r results /\ usable r = true
                       /\ height_or_0 r <= width_or_0 r) ->
            forall c, In c candidates ->
              c_width c = Some (width_or_0 (raw c))
              /\ c_height c = Some (height_or_0 (raw c))
              /\ height_or_0 (raw c) <= width_or_0 (raw c))).
Proof.
  split.
  { split.
    - intros (r & Hr & Hn). now apply (parse_candidates_null results r).
    - intros H. now destruct (parse_candidates_raised _ _ H) as (_ & Hex). }
  split.
  { intros e H. now destruct (parse_candidates_raised _ _ H). }
  intros candidates Hc.
  split; [intros c; now apply parse_candidates_in|].
  split; [now apply parse_candidates_nil|].
  intros (r & Hin & Hu & Hl) c Hcin. unfold _parse_candidates in Hc.
  pose proof (landscape_candidates_some results r Hin Hu Hl) as Hne.
  destruct (landscape_candidates results) as [[|c0 cs0]|e] eqn:E;
    [congruence| |discriminate Hc].
  injection Hc as <-.
  destruct (landscape_candidates_in _ _ _ E Hcin) as (_ & _ & _ & ? & ? & ?).
  auto.
Qed.

(** *** Selection by evaluation *)

Lemma pair_gt_le (a b : Z * Z) : pair_gt a b = false <-> pair_le a b.
Proof.
  unfold pair_gt, pair_le. destruct a as [a1 a2], b as [b1 b2]; cbn.
  rewrite orb_false_iff, andb_false_iff, Z.ltb_ge, Z.eqb_neq, Z.ltb_ge. lia.
Qed.

Lemma pair_le_refl (a : Z * Z) : pair_le a a.
Proof. unfold pair_le. lia. Qed.

Lemma pair_le_trans (a b c : Z * Z) : pair_le a b -> pair_le b c -> pair_le a c.
Proof. unfold pair_le. lia. Qed.

Lemma pair_gt_lt (a b : Z * Z) : pair_gt a b = true -> pair_le b a.
Proof.
  unfold pair_gt, pair_le. destruct a as [a1 a2], b as [b1 b2]; cbn.
  rewrite orb_true_iff, andb_true_iff, !Z.ltb_lt, Z.eqb_eq. lia.
Qed.

Lemma max_from_spec {A : Type} (k : A -> Z * Z) (items : list A) :
  forall best : A,
    (max_from k best items = best \/ In (max_from k best items) items)
    /\ pair_le (k best) (k (max_from k best items))
    /\ forall x, In x items -> pair_le (k x) (k (max_from k best items)).
Proof.
  induction items as [|y rest IH]; intros best; cbn [max_from].
  - split; [now left|]. split; [apply pair_le_refl|intros x []].
  - destruct (pair_gt (k y) (k best)) eqn:G.
    + destruct (IH y) as (Hin & Hy & Hrest).
      split; [right; destruct Hin as [->|Hin]; [now left|now right]|].
      split; [eapply pair_le_trans; [apply pair_gt_lt, G|exact Hy]|].
      intros x [<-|Hx]; [exact Hy|now apply Hrest].
    + destruct (IH best) as (Hin & Hb & Hrest).
      split; [destruct Hin as [->|Hin]; [now left|right; now right]|].
      split; [exact Hb|].
      intros x [<-|Hx]; [|now apply Hrest].
      eapply pair_le_trans; [apply pair_gt_le, G|exact Hb].
Qed.

Lemma select_best_lemma (candidates : list _Candidate)
    (evaluations : list (_Candidate * ImageEvaluation))
    (prefer_background : bool) :
  evaluations <> [] ->
  exists best,
    In best evaluations
    /\ _select_best_by_vision candidates evaluations prefer_background
       = Some (url best.1).
Proof.
  destruct evaluations as [|first rest]; [congruence|]. intros _.
  cbn [_select_best_by_vision].
  destruct (max_from_spec (key prefer_background) rest first) as (Hin & _).
  eexists. split; [|reflexivity].
  destruct Hin as [->|Hin]; [now left|now right].
Qed.

(** X12: without evaluations [_select_best_by_vision] returns nothing;
    otherwise it returns the URL of an evaluated candidate whose score,
    raised by 2 when a background is preferred and the image suits as
    one, is not exceeded by any other evaluated candidate; among
    candidates with the same raised score, none has a higher plain
    score. *)
Theorem select_best_by_vision_max (candidates : list _Candidate)
    (evaluations : list (_Candidate * ImageEvaluation))
    (prefer_background : bool) :
  (evaluations = [] ->
   _select_best_by_vision candidates evaluations prefer_background = None)
  /\ (evaluations <> [] ->
      exists best,
        In best evaluations
        /\ _select_best_by_vision candidates evaluations prefer_background
           = Some (url best.1)
        /\ forall item, In item evaluations ->
             weight prefer_background item <= weight prefer_background best
             /\ (weight prefer_background item = weight prefer_background best ->
                 score item.2 <= score best.2)
             /\ (prefer_background = false -> score item.2 <= score best.2)).
Proof.
  split; [now intros ->|].
  destruct evaluations as [|first rest]; [congruence|]. intros _.
  cbn [_select_best_by_vision].
  destruct (max_from_spec (key prefer_background) rest first)
    as (Hin & Hfirst & Hrest).
  set (best := max_from (key prefer_background) first rest) in *.
  exists best. split; [destruct Hin as [->|Hin]; [now left|now right]|].
  split; [reflexivity|].
  intros item Hitem.
  assert (Hle : pair_le (key prefer_background item) (key prefer_background best)).
  { destruct Hitem as [<-|Hitem]; [exact Hfirst|now apply Hrest]. }
  unfold pair_le, key, weight in *. cbn [fst snd] in Hle.
  destruct prefer_background; cbn [andb] in *;
    destruct (suitable_as_background item.2),
             (suitable_as_background best.2); cbn in *; lia.
Qed.

(** *** The whole request *)

Lemma evaluated_in
    (llm : option (string -> string -> string -> result ImageEvaluation))
    (candidates : list _Candidate) (topic context : string)
    (item : _Candidate * ImageEvaluation) :
  In item (evaluated llm candidates topic context) -> In item.1 candidates.
Proof.
  unfold evaluated. rewrite <- !list_elem_of_In, list_elem_of_omap.
  intros (c & Hc & Hitem).
  destruct (_evaluate_candidate llm c topic context); [|discriminate].
  injection Hitem as <-. exact Hc.
Qed.

Lemma evaluated_no_llm (candidates : list _Candidate) (topic context : string) :
  evaluated None candidates topic context = [].
Proof. induction candidates as [|c cs IH]; [reflexivity|exact IH]. Qed.

Lemma evaluated_none
    (llm : option (string -> string -> string -> result ImageEvaluation))
    (candidates : list _Candidate) (topic context : string) :
  (forall c, _evaluate_candidate llm c topic context = None) ->
  evaluated llm candidates topic context = [].
Proof.
  intros H. unfold evaluated.
  induction candidates as [|c cs IH]; [reflexivity|].
  cbn. now rewrite H.
Qed.

(** The ways an answered search can go. *)
Lemma fetch_cases
    (search : string -> SearchOutcome)
    (llm : option (string -> string -> string -> result ImageEvaluation))
    (query slide_topic slide_context : string) (prefer_background : bool)
    (results : list SearchResult) :
  search query = Answer results ->
  let fetched := fetch_image_for_query search llm query slide_topic
                                       slide_context prefer_background in
  let topic := if PyStr.truthy slide_topic then slide_topic else query in
  let context := if PyStr.truthy slide_context then slide_context
                 else "Search: " ++ query in
  (exists e, _parse_candidates (take 3 results) = Raised e
             /\ fetched = Raised e)
  \/ (_parse_candidates (take 3 results) = Ok [] /\ fetched = Ok None)
  \/ (exists cands best,
        _parse_candidates (take 3 results) = Ok cands
        /\ In best (evaluated llm cands topic context)
        /\ fetched = Ok (Some (url best.1)))
  \/ (exists cands,
        _parse_candidates (take 3 results) = Ok cands
        /\ evaluated llm cands topic context = []
        /\ fetched = _metadata_select_best (take 3 results)).
Proof.
  intros Hs fetched topic context. subst fetched.
  unfold fetch_image_for_query. rewrite Hs.
  destruct (take 3 results) as [|r0 rs] eqn:E3.
  { right. left. split; reflexivity. }
  destruct (_parse_candidates (r0 :: rs)) as [[|c0 cs]|e] eqn:Ep.
  - right. left. split; reflexivity.
  - right. right. fold topic context.
    destruct llm as [vision|].
    + destruct (evaluated (Some vision) (c0 :: cs) topic context)
        as [|ev evs] eqn:Ev.
      * right. exists (c0 :: cs). auto.
      * left.
        destruct (select_best_lemma (c0 :: cs) (ev :: evs) prefer_background)
          as (best & Hbest & ->); [discriminate|].
        exists (c0 :: cs), best. rewrite Ev. auto.
    + right. exists (c0 :: cs). split; [reflexivity|].
      split; [apply evaluated_no_llm|reflexivity].
  - left. exists e. split; reflexivity.
Qed.

(** A URL that the request returns is not empty. *)
Lemma fetch_some
    (search : string -> SearchOutcome)
    (llm : option (string -> string -> string -> result ImageEvaluation))
    (query slide_topic slide_context : string) (prefer_background : bool)
    (results : list SearchResult) (u : string) :
  search query = Answer results ->
  fetch_image_for_query search llm query slide_topic slide_context
                        prefer_background = Ok (Some u) ->
  PyStr.truthy u = true
  /\ exists r, In r (take 3 results) /\ result_url r = Some u.
Proof.
  intros Hs.
  destruct (fetch_cases search llm query slide_topic slide_context
                        prefer_background results Hs)
    as [(e & _ & ->)|[(_ & ->)|[(cands & best & Hp & Hb & ->)
                               |(cands & _ & _ & ->)]]].
  - intros H; discriminate H.
  - intros H; discriminate H.
  - intros [= <-]. apply evaluated_in in Hb.
    destruct (parse_candidates_in _ _ _ Hp Hb) as (Ht & Hin & Hurl & _).
    split; [exact Ht|]. exists (raw best.1). split; assumption.
  - apply metadata_select_some.
Qed.

Lemma fetch_some_nonempty
    (search : string -> SearchOutcome)
    (llm : option (string -> string -> string -> result ImageEvaluation))
    (query slide_topic slide_context : string) (prefer_background : bool)
    (u : string) :
  fetch_image_for_query search llm query slide_topic slide_context
                        prefer_background = Ok (Some u) ->
  PyStr.truthy u = true.
Proof.
  destruct (search query) as [msg|e|results] eqn:Hs.
  - unfold fetch_image_for_query. rewrite Hs. intros H; discriminate H.
  - unfold fetch_image_for_query. rewrite Hs. intros H; discriminate H.
  - intros H. now destruct (fetch_some _ _ _ _ _ _ results u Hs H).
Qed.

(** X13: [fetch_image_for_query] raises when the search request fails, an
    HTTP error as [ImageServiceError] and any other failure unchanged,
    and otherwise only for an answer that holds [null] for the [urls] or
    the [width] of one of its first three results: always when [urls]
    is [null], never when neither is; a failed image evaluation never
    raises.  A URL it returns is the non-empty URL of one of the first
    three results, so it returns none when none of these has a usable
    URL; and without evaluator, or when no candidate could be evaluated,
    it is the metadata selection among the first three results, provided
    one of them has a usable URL and none holds [null] for [urls]. *)
Theorem fetch_image_for_query_outcomes
    (search : string -> SearchOutcome)
    (llm : option (string -> string -> string -> result ImageEvaluation))
    (query slide_topic slide_context : string) (prefer_background : bool) :
  let fetched := fetch_image_for_query search llm query slide_topic
                                       slide_context prefer_background in
  (forall msg, search query = HTTPError msg ->
     fetched = Raised (ImageServiceError ("Unsplash API error: " ++ msg)))
  /\ (forall e, search query = OtherFailure e -> fetched = Raised e)
  /\ (forall results, search query = Answer results ->
      let first3 := take 3 results in
      (forall e, fetched = Raised e ->
         exists r, In r first3 /\ (urls r = Null \/ width r = Null))
      /\ ((exists r, In r first3 /\ urls r = Null) ->
          fetched = Raised no_get)
      /\ ((forall r, In r first3 -> well_formed r) ->
          exists choice, fetched = Ok choice)
      /\ (forall u, fetched = Ok (Some u) ->
            PyStr.truthy u = true
            /\ exists r, In r first3 /\ result_url r = Some u)
      /\ ((forall r, In r first3 -> usable r = false) ->
          forall u, fetched <> Ok (Some u))
      /\ ((llm = None
           \/ forall c topic context,
                _evaluate_candidate llm c topic context = None) ->
          (exists r, In r first3 /\ usable r = true) ->
          (forall r, In r first3 -> urls r <> Null) ->
          fetched = _metadata_select_best first3)).
Proof.
  intros fetched. subst fetched.
  split; [unfold fetch_image_for_query; now intros msg ->|].
  split; [unfold fetch_image_for_query; now intros e ->|].
  intros results Hs first3.
  pose proof (fetch_cases search llm query slide_topic slide_context
                          prefer_background results Hs) as Hcases.
  pose proof (fetch_some search llm query slide_topic slide_context
                         prefer_background results) as Hsome.
  cbv zeta in Hcases. fold first3 in Hcases, Hsome.
  set (fetched := fetch_image_for_query search llm query slide_topic
                    slide_context prefer_background) in *.
  split.
  { intros e He.
    destruct Hcases as [(e' & Hp & He')|[(_ & He')|[(cands & best & _ & _ & He')
                                                   |(cands & _ & _ & He')]]].
    - destruct (parse_candidates_raised _ _ Hp) as (_ & r & Hr & Hn).
      exists r. split; [exact Hr|now left].
    - congruence.
    - congruence.
    - rewrite He' in He. now apply metadata_select_raised in He. }
  split.
  { intros (r & Hr & Hn).
    pose proof (parse_candidates_null first3 r Hr Hn) as Hp.
    destruct Hcases as [(e' & Hp' & He')|[(Hp' & _)|[(cands & best & Hp' & _)
                                                    |(cands & Hp' & _)]]];
      congruence. }
  split.
  { intros Hwf.
    destruct Hcases as [(e' & Hp & He')|[(_ & He')|[(cands & best & _ & _ & He')
                                                   |(cands & _ & _ & He')]]].
    - destruct (parse_candidates_raised _ _ Hp) as (_ & r & Hr & Hn).
      now destruct (Hwf r Hr) as [Hu _].
    - eauto.
    - eauto.
    - rewrite He'. destruct (metadata_select_total first3 Hwf) as (c & Hc & _).
      eauto. }
  split; [intros u; now apply Hsome|].
  split.
  { intros Hno u Hu. destruct (Hsome u Hs Hu) as (Ht & r & Hr & Hurl).
    specialize (Hno r Hr). unfold usable in Hno.
    rewrite Hurl, Ht in Hno. discriminate Hno. }
  intros Hl (r & Hr & Hu) Hurls.
  destruct Hcases as [(e' & Hp & _)|[(Hp & _)|[(cands & best & _ & Hb & _)
                                              |(cands & _ & _ & He')]]].
  - destruct (parse_candidates_raised _ _ Hp) as (_ & r' & Hr' & Hn).
    now destruct (Hurls r' Hr').
  - apply (parse_candidates_nil first3 []) in Hp.
    rewrite (proj1 Hp eq_refl r Hr) in Hu. discriminate Hu.
  - destruct Hl as [->|Hl].
    + now rewrite evaluated_no_llm in Hb.
    + rewrite evaluated_none in Hb by (intros c; apply Hl). destruct Hb.
  - exact He'.
Qed.

End ImageSearchProps.

(** ** Enrichment with the search behind it *)

Module EnrichSearchProps.
Import Eff ImageService ImageSearch ImageSearchSpec.

Local Open Scope string_scope.

Lemma resolve_image_url
    (search : nat -> string -> SearchOutcome)
    (llm : nat -> option (string -> string -> string -> result ImageEvaluation))
    (i : nat) (s : SlideContent) (u : string) :
  resolve_image (fun i => fetch_image_for_query (search i) (llm i)) i s = Some u ->
  PyStr.truthy u = true.
Proof.
  unfold resolve_image. destruct (sc_image_query s) as [q|]; [|discriminate].
  destruct (_ && _); [|discriminate].
  destruct (fetch_image_for_query (search i) (llm i) (PyStr.strip q)
              (sc_title s) (slide_context s) (Nat.eqb i 0))
    as [[v|]|e] eqn:E; [|discriminate|discriminate].
  intros [= <-].
  exact (ImageSearchProps.fetch_some_nonempty _ _ _ _ _ _ _ E).
Qed.

(** X14: with [fetch_image_for_query] as the search of every slide, the
    enrichment gives each slide either no image or a non-empty image
    URL, so that a slide counts as having an image exactly when its
    [image_url] is set; a slide whose image query is missing, empty or
    blank gets no image. *)
Theorem enrich_urls_not_empty
    (search : nat -> string -> SearchOutcome)
    (llm : nat -> option (string -> string -> string -> result ImageEvaluation))
    (slides : list SlideContent) :
  exists enriched,
    enrich_slides_with_images
      (fun i => fetch_image_for_query (search i) (llm i)) slides = Ok enriched
    /\ forall (i : nat) (s : SlideContent) (w : SlideWithImage),
         slides !! i = Some s -> enriched !! i = Some w ->
         (image_url w = None
          \/ exists u, image_url w = Some u /\ PyStr.truthy u = true)
         /\ (DesignLibrary.has_image_of w = true <-> image_url w <> None)
         /\ (match sc_image_query s with
             | None => True
             | Some q => PyText.all_space q = true
             end -> image_url w = None).
Proof.
  eexists. split; [apply EnrichProps.enrich_ok|].
  intros i s w Hs Hw. rewrite list_lookup_imap, Hs in Hw.
  injection Hw as <-.
  unfold DesignLibrary.has_image_of. cbn [image_url task_value].
  pose proof (resolve_image_url search llm i s) as Hurl.
  split; [|split].
  - destruct (resolve_image _ i s) as [u|]; [right|now left].
    exists u. split; [reflexivity|now apply Hurl].
  - destruct (resolve_image _ i s) as [u|].
    + rewrite (Hurl u eq_refl). split; [intros _ H; discriminate H|reflexivity].
    + split; [intros H; discriminate H|intros H; now contradiction H].
  - unfold resolve_image. destruct (sc_image_query s) as [q|]; [|reflexivity].
    intros Hblank.
    now rewrite PyTextFacts.truthy_strip, Hblank, andb_false_r.
Qed.

End EnrichSearchProps.

(** ** Templates and themes *)

Module TemplateProps.
Import DesignLibrary Templates.

(** X15: the template table has one entry per layout, filed under the
    layout it names, so that [get_template] never falls back to the
    default and never fails; no template sets more than one of the four
    decoration flags. *)
Theorem get_template_complete (layout : LayoutType) :
  List.NoDup (map fst TEMPLATES)
  /\ exists t,
       get_template layout = Some t
       /\ dict_get TEMPLATES layout = Some t
       /\ name t = layout
       /\ (decorations t <= 1)%nat.
Proof.
  split.
  - cbn. repeat (constructor; [cbn; intuition discriminate|]). constructor.
  - destruct layout; eexists; (split; [reflexivity|]);
      (split; [reflexivity|]); (split; [reflexivity|]);
      vm_compute; lia.
Qed.

(** X16: whatever the slide and its position, the layout that
    [select_layout] picks has a template with a title area and a body
    area and without subtitle or caption area; the template has an image
    area or is a full-image layout only when the slide has an image. *)
Theorem selected_template_areas (slide : SlideWithImage) (i total : Z) :
  exists t,
    get_template (select_layout slide i total) = Some t
    /\ name t = select_layout slide i total
    /\ is_Some (title_area t)
    /\ is_Some (body_area t)
    /\ subtitle_area t = None
    /\ caption_area t = None
    /\ ((is_Some (image_area t) \/ hero_full_image t = true) ->
        has_image_of slide = true).
Proof.
  unfold select_layout.
  destruct (i =? 0)%Z.
  { destruct (has_image_of slide); eexists; (split; [reflexivity|]); cbn;
      repeat split; eauto; intros [[? [=]]|[=]]. }
  destruct (i =? total - 1)%Z.
  { eexists; (split; [reflexivity|]); cbn;
      repeat split; eauto; intros [[? [=]]|[=]]. }
  destruct (has_image_of slide); cbn [andb].
  - destruct (Z.leb_spec (bullet_count_of slide) 2).
    { eexists; (split; [reflexivity|]); cbn; repeat split; eauto. }
    destruct (Z.leb_spec (bullet_count_of slide) 1); [lia|].
    eexists; (split; [reflexivity|]); cbn; repeat split; eauto.
  - destruct (bullet_count_of slide >=? 4)%Z;
      [|destruct (bullet_count_of slide <=? 2)%Z];
      eexists; (split; [reflexivity|]); cbn;
      repeat split; eauto; intros [[? [=]]|[=]].
Qed.

End TemplateProps.

Module ThemeProps.
Import PPTExporter ThemeLibrary.

Local Open Scope string_scope.
Local Open Scope Z_scope.

Lemma BulletProps_font (t : ThemeStyle) (bullets : list string) :
  (4 <= length bullets)%nat ->
  (_prepare_bullets (Some t) bullets).2 = Some (Z.max 10 (body_size t - 2)).
Proof.
  intros Hlen. unfold _prepare_bullets.
  destruct bullets as [|b rest]; [cbn in Hlen; lia|].
  cbn [snd]. unfold DesignLibrary.BODY_FONT_REDUCE_IF_BULLETS_ABOVE.
  destruct (Z.geb_spec (Z.of_nat (length (b :: rest))) 4); [reflexivity|lia].
Qed.

Lemma themes_get_in (k : string) (t : ThemeStyle) :
  themes_get THEMES k = Some t -> In t (map snd THEMES).
Proof.
  unfold THEMES. cbn [themes_get map snd].
  repeat match goal with
         | |- context [String.eqb ?a k] =>
             destruct (String.eqb a k);
             [intros [= <-]; cbn [In];
              repeat (first [left; reflexivity | right])|]
         end.
  intros H; discriminate H.
Qed.

Lemma themes_typography (t : ThemeStyle) :
  In t (map snd THEMES) ->
  font_family t = "Calibri" /\ title_size t = 48 /\ body_size t = 22
  /\ caption_size t = 18
  /\ (use_gradient t = true ->
      is_Some (gradient_start t) /\ is_Some (gradient_end t)).
Proof.
  cbn. intros [<-|[<-|[<-|[<-|[<-|[]]]]]]; cbn;
    repeat split; eauto; discriminate.
Qed.

(** X17: for every theme name, and however the name is upper-cased,
    [get_theme] answers with one of the five themes of the table: the
    entry of the upper-cased, stripped name if there is one, and
    LIGHT_PROFESSIONAL for a missing, empty or unknown name.  Every theme
    sets Calibri at 48, 22 and 18 points, so a slide with four bullets or
    more is always rendered at 20 points: the 10-point floor of
    [_prepare_bullets] is never reached. *)
Theorem get_theme_total (upper : string -> string)
    (theme_name : option string) :
  exists t,
    get_theme upper theme_name = Some t
    /\ In t (map snd THEMES)
    /\ (match theme_name with
        | None => themes_get THEMES DEFAULT_THEME = Some t
        | Some n =>
            if PyStr.truthy n then
              match themes_get THEMES (PyStr.strip (upper n)) with
              | Some known => t = known
              | None => themes_get THEMES DEFAULT_THEME = Some t
              end
            else themes_get THEMES DEFAULT_THEME = Some t
        end)
    /\ font_family t = "Calibri" /\ title_size t = 48 /\ body_size t = 22
    /\ caption_size t = 18
    /\ forall bullets : list string,
         (4 <= length bullets)%nat ->
         (_prepare_bullets (Some t) bullets).2 = Some 20.
Proof.
  assert (Hfont : forall t, In t (map snd THEMES) ->
    font_family t = "Calibri" /\ title_size t = 48 /\ body_size t = 22
    /\ caption_size t = 18
    /\ forall bullets : list string,
         (4 <= length bullets)%nat ->
         (_prepare_bullets (Some t) bullets).2 = Some 20).
  { intros t Ht. destruct (themes_typography t Ht) as (Hf & Ht1 & Hb & Hc & _).
    repeat split; try assumption.
    intros bullets Hlen.
    pose proof (BulletProps_font t bullets Hlen) as H. now rewrite Hb in H. }
  unfold get_theme.
  destruct (themes_get THEMES DEFAULT_THEME) as [light|] eqn:El;
    [|discriminate El].
  pose proof (themes_get_in _ _ El) as Hlight.
  destruct theme_name as [n|].
  - destruct (PyStr.truthy n).
    + destruct (themes_get THEMES (PyStr.strip (upper n))) as [known|] eqn:E.
      * exists known. cbn. pose proof (themes_get_in _ _ E) as Hk.
        split; [reflexivity|]. split; [exact Hk|]. split; [reflexivity|].
        now apply Hfont.
      * exists light. cbn.
        split; [reflexivity|]. split; [exact Hlight|]. split; [reflexivity|].
        now apply Hfont.
    + exists light.
      split; [reflexivity|]. split; [exact Hlight|]. split; [reflexivity|].
      now apply Hfont.
  - exists light.
    split; [reflexivity|]. split; [exact Hlight|]. split; [reflexivity|].
    now apply Hfont.
Qed.

End ThemeProps.

(** ** Outline generation *)

Module OutlineProps.
Import Eff Models PyExc OutlineGenerator.

(** X18: [OutlineGenerator.generate] asks the generation service once
    and, only when that attempt raises a ValueError, once more with the
    strict prompt.  A first answer is returned as it is; any other
    exception of the first attempt is raised without a second attempt;
    whatever the second attempt gives, answer or exception of any class,
    is the outcome. *)
Theorem outline_generate_retries_once
    (service : UserInput -> bool -> result PresentationOutline)
    (user_input : UserInput) :
  let outcome := run (generate service user_input) in
  (forall outline, service user_input false = Ok outline ->
     outcome = (Ok outline, [EvGenerate false]))
  /\ (forall e, service user_input false = Raised e ->
        is_value_error e = false ->
        outcome = (Raised e, [EvGenerate false]))
  /\ (forall e, service user_input false = Raised e ->
        is_value_error e = true ->
        outcome = (service user_input true,
                   [EvGenerate false; EvGenerate true]))
  /\ (outcome.2 = [EvGenerate false]
      \/ outcome.2 = [EvGenerate false; EvGenerate true]).
Proof.
  unfold run, generate, try_except_value_error, _generate_with_retry,
    bind, emit, lift; cbn.
  destruct (service user_input false) as [outline|e] eqn:E1.
  - split; [now intros o [= <-]|].
    split; [discriminate|]. split; [discriminate|now left].
  - destruct (is_value_error e) eqn:Ev.
    + split; [discriminate|].
      split; [intros e' [= <-]; congruence|].
      split; [|now right].
      intros e' _ _. now destruct (service user_input true).
    + split; [discriminate|].
      split; [now intros e' [= <-] _|].
      split; [intros e' [= <-]; congruence|now left].
Qed.

End OutlineProps.

(** ** What the export reports *)

Module DeckExportProps.
Import Eff Models DesignLibrary Templates DeckExport DeckExportSpec.

Local Open Scope Z_scope.

(** The value of [_add_content_slide], layout by layout. *)
Lemma add_content_slide_shown (picture_added : nat -> bool)
    (s : SlideWithImage) (i total : nat) :
  _add_content_slide picture_added s i total
  = Ok (if shown picture_added total i s then 1 else 0).
Proof.
  unfold _add_content_slide, shown, select_layout, image_in_area.
  replace (Z.of_nat i =? 0) with (Nat.eqb i 0)
    by (destruct (Nat.eqb_spec i 0), (Z.eqb_spec (Z.of_nat i) 0);
        (reflexivity || (exfalso; lia))).
  replace (Z.of_nat i =? Z.of_nat total - 1) with (Nat.eqb (S i) total)
    by (destruct (Nat.eqb_spec (S i) total),
          (Z.eqb_spec (Z.of_nat i) (Z.of_nat total - 1));
        (reflexivity || (exfalso; lia))).
  destruct (Nat.eqb i 0); cbn [orb negb andb].
  { destruct (has_image_of s); cbn; [|reflexivity].
    now destruct (picture_added i). }
  destruct (Nat.eqb (S i) total); cbn [negb andb].
  { cbn. now rewrite andb_false_r. }
  destruct (has_image_of s); cbn [andb].
  - destruct (Z.leb_spec (bullet_count_of s) 2).
    { cbn. now destruct (picture_added i). }
    destruct (Z.leb_spec (bullet_count_of s) 1); [lia|].
    cbn. now destruct (picture_added i).
  - destruct (bullet_count_of s >=? 4);
      [|destruct (bullet_count_of s <=? 2)]; reflexivity.
Qed.

Lemma count_images_sum (picture_added : nat -> bool) (total : nat)
    (slides : list SlideWithImage) :
  forall (i : nat) (acc : Z),
    count_images picture_added total i slides acc
    = Ok (acc + Z.of_nat
                  (sum_list (imap (fun j s =>
                     if shown picture_added total (i + j) s
                     then 1%nat else 0%nat) slides))).
Proof.
  induction slides as [|s rest IH]; intros i acc; cbn [count_images].
  - cbn. f_equal. lia.
  - rewrite add_content_slide_shown, IH. f_equal. cbn [imap sum_list].
    rewrite Nat.add_0_r.
    assert (Hshift :
      imap ((fun j s0 => if shown picture_added total (i + j) s0
                         then 1%nat else 0%nat) ∘ S) rest
      = imap (fun j s0 => if shown picture_added total (S i + j) s0
                          then 1%nat else 0%nat) rest).
    { apply imap_ext. intros j s0 _. cbn. now rewrite Nat.add_succ_r. }
    rewrite Hshift. unfold id.
    destruct (shown picture_added total i s); lia.
Qed.

Lemma sum_list_imap_le {A : Type} (f : nat -> A -> nat) (l : list A) :
  (forall j x, f j x <= 1)%nat -> (sum_list (imap f l) <= length l)%nat.
Proof.
  revert f. induction l as [|x l IH]; intros f Hf; cbn; [lia|].
  specialize (IH (f ∘ S) (fun j y => Hf (S j) y)). specialize (Hf 0%nat x). lia.
Qed.

Lemma export_ok (picture_added : nat -> bool)
    (write_file : list SlideWithImage -> string -> option string ->
                  string -> result string)
    (slides : list SlideWithImage) (title : string)
    (output_path : option string) (theme : string) (r : ExportResult) :
  export picture_added write_file slides title output_path theme = Ok r ->
  script_path r = None
  /\ slide_count r = Z.of_nat (length slides) + 1
  /\ 0 <= images_included r <= Z.of_nat (length slides).
Proof.
  unfold export. rewrite count_images_sum. cbn [Nat.add].
  destruct (write_file slides title output_path theme) as [path|e];
    [|discriminate].
  intros [= <-]. cbn. repeat split; try lia.
  apply inj_le, sum_list_imap_le. intros j x.
  destruct (shown picture_added (length slides) j x); lia.
Qed.

(** X19: [export] fails only when drawing or saving fails.  When it
    succeeds it reports one slide more than it was given (the title
    slide), no script path, and as images exactly the slides that have
    an image whose picture could be added and that are the first slide
    or not the last one: the picture of a last slide that is not also
    the first is never part of the deck.  In particular the image count
    is at most the number of content slides. *)
Theorem export_counts (picture_added : nat -> bool)
    (write_file : list SlideWithImage -> string -> option string ->
                  string -> result string)
    (slides : list SlideWithImage) (title : string)
    (output_path : option string) (theme : string) :
  match write_file slides title output_path theme with
  | Raised e =>
      export picture_added write_file slides title output_path theme
      = Raised e
  | Ok path =>
      exists r,
        export picture_added write_file slides title output_path theme = Ok r
        /\ Models.output_path r = path
        /\ script_path r = None
        /\ slide_count r = Z.of_nat (length slides) + 1
        /\ images_included r
           = Z.of_nat (sum_list (imap (fun i s =>
               if shown picture_added (length slides) i s
               then 1%nat else 0%nat) slides))
        /\ 0 <= images_included r <= Z.of_nat (length slides)
  end.
Proof.
  unfold export. rewrite count_images_sum. cbn [Nat.add].
  destruct (write_file slides title output_path theme) as [path|e];
    [|reflexivity].
  eexists. split; [reflexivity|]. cbn.
  repeat split; try lia.
  apply inj_le, sum_list_imap_le. intros j x.
  destruct (shown picture_added (length slides) j x); lia.
Qed.

End DeckExportProps.

(** ** The pipeline *)

Module AgentProps.
Import Eff Models PyExc ScriptGenerator Agent AgentSpec.

Local Open Scope string_scope.
Local Open Scope Z_scope.

Lemma review_total
    (evaluate_call : PresentationManuscript -> string -> string -> Z ->
                     string -> result ScriptReviewer.ScriptReviewEvaluation)
    (rewrite_call : PresentationManuscript ->
                    ScriptReviewer.ScriptReviewEvaluation ->
                    string -> string -> Z -> string ->
                    result PresentationManuscript)
    (m : PresentationManuscript) (t a : string) (d : Z) (l : string) :
  exists reviewed,
    (Eff.run (ScriptReviewer.review_and_improve evaluate_call rewrite_call
                m t a d l)).1 = Ok reviewed.
Proof.
  unfold Eff.run, ScriptReviewer.review_and_improve, Eff.try_except, Eff.bind,
    ScriptReviewer._evaluate, ScriptReviewer._rewrite, Eff.emit, Eff.lift,
    Eff.ret; cbn.
  destruct (evaluate_call m t a d l) as [ev|e]; cbn; [|eauto].
  destruct (ScriptReviewer.score ev >=? 8); cbn; [eauto|].
  destruct (rewrite_call m ev t a d l); cbn; eauto.
Qed.

Lemma fact_check_and_patch_total
    (fact_check : PresentationManuscript -> string -> string ->
                  result FactChecker.FactCheckReport)
    (m : PresentationManuscript) (t a : string) :
  exists m', FactCheckFlow.fact_check_and_patch fact_check m t a = Ok m'.
Proof.
  unfold FactCheckFlow.fact_check_and_patch, FactCheckFlow.check_then_patch.
  destruct (fact_check m t a) as [r|e]; [|eauto].
  destruct (FactChecker.issues r); eauto.
Qed.

Section Run.

Variable outline_service : UserInput -> bool -> result PresentationOutline.
Variable script_service :
  PresentationOutline -> UserInput -> result PresentationManuscript.
Variable evaluate_call :
  PresentationManuscript -> string -> string -> Z -> string ->
  result ScriptReviewer.ScriptReviewEvaluation.
Variable rewrite_call :
  PresentationManuscript -> ScriptReviewer.ScriptReviewEvaluation ->
  string -> string -> Z -> string -> result PresentationManuscript.
Variable fact_check_service :
  PresentationManuscript -> string -> string ->
  result FactChecker.FactCheckReport.
Variable slides_service :
  PresentationManuscript -> option Z -> option string -> bool ->
  result SlideListOutput.
Variable notes_service :
  PresentationManuscript -> list SlideContent ->
  result NotesGenerator.NotesListOutput.
Variable fetch : nat -> string -> string -> string -> bool ->
                 result (option string).
Variable picture_added : nat -> bool.
Variable write_file : list SlideWithImage -> string -> option string ->
                      string -> result string.
Variable script_path_of : string -> string.
Variable export_script :
  PresentationManuscript -> string -> string -> Z -> string -> result string.
Variable user_input : UserInput.
Variable output_path : option string.
Variable progress_callback : option Callback.

Local Abbreviation the_run :=
  (run (_run_async outline_service script_service evaluate_call rewrite_call
          fact_check_service slides_service notes_service fetch picture_added
          write_file script_path_of export_script user_input output_path
          progress_callback)).

(** Compute with the steps of the pipeline, not with its stages. *)
Ltac simpl_run :=
  cbn -[String.append str_int Eff.run OutlineGenerator.generate
        ScriptGenerator.generate ScriptReviewer.review_and_improve
        FactCheckFlow.fact_check_and_patch SlideGenerator.generate
        WordCount.is_slide_count_acceptable NotesGenerator.generate
        ImageService.enrich_slides_with_images DeckExport.export
        is_value_error with_script
        PresentationTargets.compute_presentation_targets].

(** Open the pipeline up to its stages, keeping one copy of the run. *)
Ltac open_run :=
  repeat match goal with
  | |- context [run ?pipeline] =>
      let r := fresh "r" in
      let Hr := fresh "Hr" in
      remember (run pipeline) as r eqn:Hr
  end;
  repeat match goal with
  | Hr : _ = run _ |- _ => revert Hr
  end;
  unfold run, _run_async, create_slides, try_except, bind, _report, bind, emit,
    of_result, of_outcome, ret, raise, on_script_generator_error,
    on_ppt_exporter_error, on_value_error;
  destruct progress_callback as [callback|];
  simpl_run.

(** The events of a slide request. *)
Ltac in_cases :=
  repeat match goal with
  | H : False |- _ => destruct H
  | H : _ \/ _ |- _ => destruct H
  | H : (_, _) = (_, _) |- _ => inversion H; clear H; subst
  | H : _ :: _ = _ :: _ |- _ => inversion H; clear H; subst
  end.

(** Decide one stage after the other. *)
Ltac stage :=
  match goal with
  | |- context [match ?called with Some _ => _ | None => _ end] =>
      lazymatch type of called with
      | option PyException => destruct called as [?e|] eqn:?
      end
  | |- context [(Eff.run (OutlineGenerator.generate ?s ?u)).1] =>
      destruct (Eff.run (OutlineGenerator.generate s u)).1 as [?outline|?e]
  | |- context [ScriptGenerator.generate ?s ?o ?u] =>
      unfold ScriptGenerator.generate;
      destruct (s o u) as [?manuscript|?e]
  | |- context [(Eff.run (ScriptReviewer.review_and_improve ?e ?r ?m ?t ?a ?d ?l)).1] =>
      destruct (review_total e r m t a d l) as [[?m ?score] ->]
  | |- context [FactCheckFlow.fact_check_and_patch ?f ?m ?t ?a] =>
      destruct (fact_check_and_patch_total f m t a) as [?m ->]
  | |- context [SlideGenerator.generate ?s ?m ?d ?a false] =>
      destruct (SlideGenerator.generate s m d a false) as [?slides|?e] eqn:?
  | |- context [WordCount.is_slide_count_acceptable ?s ?lo ?hi] =>
      destruct (WordCount.is_slide_count_acceptable s lo hi) eqn:?
  | |- context [SlideGenerator.generate ?s ?m ?d ?a true] =>
      destruct (SlideGenerator.generate s m d a true) as [?slides|?e]
  | |- context [ImageService.enrich_slides_with_images ?f ?s] =>
      rewrite (EnrichProps.enrich_ok f s)
  | |- context [DeckExport.export ?p ?w ?s ?t ?o ?th] =>
      let H := fresh "Hexport" in
      destruct (DeckExport.export p w s t o th) as [?result|?e] eqn:H;
      [apply DeckExportProps.export_ok in H|]
  | |- context [is_value_error ?e] =>
      destruct (is_value_error e) eqn:?
  end; simpl_run.

(** X20: in every run, successful or not, the progress reports start at
    5 percent, stay between 5 and 100, and each report shows a higher
    percentage than the one before; the run succeeds exactly when its
    last event is the report of "Done" at 100 percent and the callback,
    if there is one, returns from that report. *)
Theorem run_progress :
  increasing (percents the_run.2) = true
  /\ head (percents the_run.2) = Some 5
  /\ Forall (fun p => 5 <= p <= 100) (percents the_run.2)
  /\ (is_done the_run.1 = true
      <-> last the_run.2 = Some (Report "Done" 100)
          /\ forall callback, progress_callback = Some callback ->
                              callback "Done" 100 = None).
Proof.
  open_run. all: repeat stage. all: intros ->; simpl_run.
  all: split; [reflexivity|]; split; [reflexivity|].
  all: split; [repeat constructor; lia|].
  all: split; [intros H;
               first [discriminate H
                     | split; [reflexivity|intros cb Hcb; congruence]]|].
  all: intros [H Hcb];
    first [reflexivity | discriminate H
          | specialize (Hcb _ eq_refl); congruence].
Qed.

(** X21: a run asks for slides at most twice, both times for the same
    manuscript.  It asks a second time, with the strict instruction,
    only after a first answer whose number of slides is outside the
    target range; after a first answer inside the range, or after a
    failed first request, it does not ask again; after a first answer
    outside the range it fails to ask again only when the callback
    raises at the report of the retry.  The second answer is not
    checked. *)
Theorem run_slide_requests :
  let targets :=
    PresentationTargets.compute_presentation_targets
      (duration_minutes user_input) (audience user_input) None in
  let first_answer m :=
    SlideGenerator.generate slides_service m
      (Some (duration_minutes user_input)) (Some (audience user_input))
      false in
  let in_range slides :=
    WordCount.is_slide_count_acceptable slides
      (PresentationTargets.min_slides targets)
      (PresentationTargets.max_slides targets) in
  let requests := slide_requests the_run.2 in
  (requests = []
   \/ exists m, requests = [(m, false)]
                \/ requests = [(m, false); (m, true)])
  /\ (forall m, requests = [(m, false); (m, true)] ->
      exists slides, first_answer m = Ok slides /\ in_range slides = false)
  /\ (forall m slides,
        In (m, false) requests ->
        first_answer m = Ok slides -> in_range slides = true ->
        requests = [(m, false)])
  /\ (forall m e,
        In (m, false) requests ->
        first_answer m = Raised e -> requests = [(m, false)])
  /\ (forall m slides,
        requests = [(m, false)] ->
        first_answer m = Ok slides -> in_range slides = false ->
        exists callback e,
          progress_callback = Some callback
          /\ callback "Adjusting slide count, retrying" 60 = Some e).
Proof.
  open_run. all: repeat stage. all: intros ->; simpl_run.
  all: split;
    [first [left; reflexivity
           | right; eexists; left; reflexivity
           | right; eexists; right; reflexivity]|].
  all: split; [intros m' H; first [discriminate H | in_cases; eauto]|].
  all: split; [intros m' sl H H1 H2; in_cases;
               first [reflexivity | congruence]|].
  all: split; [intros m' e' H H1; in_cases;
               first [reflexivity | congruence]|].
  all: intros m' sl H H1 H2;
    first [discriminate H | in_cases; first [congruence | eauto]].
Qed.


Variable export_script' :
  PresentationManuscript -> string -> string -> Z -> string -> result string.

(** X23: the export of the manuscript document cannot fail a run: two
    runs that differ only in how that export ends show the same events,
    fail alike or succeed alike, and on success report the same deck
    path and the same counts; the script path is the only difference,
    and it is absent when that export fails.  A successful run reports
    at least the title slide, and fewer images than slides. *)
Theorem run_script_export_soft :
  let other_run :=
    run (_run_async outline_service script_service evaluate_call rewrite_call
           fact_check_service slides_service notes_service fetch
           picture_added write_file script_path_of export_script'
           user_input output_path progress_callback) in
  the_run.2 = other_run.2
  /\ match the_run.1, other_run.1 with
     | Failed f, Failed f' => f = f'
     | Done r, Done r' =>
         Models.output_path r = Models.output_path r'
         /\ slide_count r = slide_count r'
         /\ images_included r = images_included r'
         /\ 1 <= slide_count r
         /\ 0 <= images_included r < slide_count r
         /\ ((forall m p t d a,
                 exists e, export_script' m p t d a = Raised e) ->
             script_path r' = None)
     | _, _ => False
     end.
Proof.
  intros other_run; subst other_run.
  open_run. all: repeat stage. all: intros -> ->; simpl_run.
  all: split; [reflexivity|]; try reflexivity.
  all: unfold with_script; destruct Hexport as (Hs & Hc & Hi).
  all: match goal with
       | |- context [export_script' ?m ?p ?t ?d ?a] =>
           destruct (export_script' m p t d a) eqn:E'
       end.
  all: match goal with
       | |- context [export_script ?m ?p ?t ?d ?a] =>
           destruct (export_script m p t d a)
       end.
  all: cbn; repeat split; try lia; try assumption.
  all: intros Hfail; edestruct Hfail as [efail Hefail]; rewrite Hefail in E';
    (discriminate E' || exact Hs).
Qed.

End Run.

End AgentProps.

(** ** The manuscript document *)

Module ScriptExporterProps.
Import Eff ScriptExporter.

Local Open Scope string_scope.
Local Open Scope Z_scope.

Example split_three_line_feeds :
  split_blank_lines EmptyString
    ("a" ++ PyText.blank_line ++ String (ascii_of_nat 10) "b")
  = ["a"; String (ascii_of_nat 10) "b"].
Proof. reflexivity. Qed.

Lemma is_line_feed_eq (c : ascii) :
  is_line_feed c = true -> c = ascii_of_nat 10.
Proof. unfold is_line_feed. apply Ascii.eqb_eq. Qed.

Lemma join_cons (sep x y : string) (rest : list string) :
  PyStr.join sep (x :: y :: rest) = x ++ sep ++ PyStr.join sep (y :: rest).
Proof. reflexivity. Qed.

Lemma split_blank_lines_step (c1 c2 : ascii) (s cur : string) :
  split_blank_lines cur (String c1 (String c2 s))
  = if is_line_feed c1 && is_line_feed c2
    then cur :: split_blank_lines EmptyString s
    else split_blank_lines (cur ++ String c1 EmptyString) (String c2 s).
Proof. reflexivity. Qed.

Lemma split_blank_lines_cons (cur s : string) :
  exists x rest, split_blank_lines cur s = x :: rest.
Proof.
  assert (H : forall s,
    (forall cur, exists x rest, split_blank_lines cur s = x :: rest)
    /\ (forall c cur, exists x rest,
          split_blank_lines cur (String c s) = x :: rest)).
  { clear. induction s as [|c2 s [IH1 IH2]].
    - split; intros; cbn; eauto.
    - split; [intros cur; apply IH2|].
      intros c cur. rewrite split_blank_lines_step.
      destruct (is_line_feed c && is_line_feed c2); [eauto|apply IH2]. }
  apply H.
Qed.

(** Joining the pieces with blank lines gives the text back. *)
Lemma join_split_blank_lines (s : string) :
  forall cur,
    PyStr.join PyText.blank_line (split_blank_lines cur s) = cur ++ s.
Proof.
  assert (H : forall s,
    (forall cur,
       PyStr.join PyText.blank_line (split_blank_lines cur s) = cur ++ s)
    /\ (forall c cur,
          PyStr.join PyText.blank_line (split_blank_lines cur (String c s))
          = cur ++ String c s)).
  { clear. induction s as [|c2 s [IH1 IH2]].
    - split; intros; cbn; [now rewrite PyStrFacts.app_nil_r|reflexivity].
    - split; [intros cur; apply IH2|].
      intros c cur. rewrite split_blank_lines_step.
      destruct (is_line_feed c) eqn:E1; cbn [andb].
      + destruct (is_line_feed c2) eqn:E2.
        * destruct (split_blank_lines_cons EmptyString s) as (x & rest & Hx).
          pose proof (IH1 EmptyString) as Hj. rewrite Hx in *.
          rewrite join_cons, Hj.
          apply is_line_feed_eq in E1, E2. subst. reflexivity.
        * rewrite IH2, PyStrFacts.app_assoc. reflexivity.
      + rewrite IH2, PyStrFacts.app_assoc. reflexivity. }
  intros cur. apply H.
Qed.

Lemma split_from_app_blank (a ws word : string) :
  PyText.all_space ws = true ->
  PyText.split_from word (a ++ ws) = PyText.split_from word a.
Proof.
  intros Hws. destruct ws as [|c ws].
  - now rewrite PyStrFacts.app_nil_r.
  - cbn in Hws. apply andb_true_iff in Hws as [Hc Hws].
    rewrite PyTextFacts.split_from_app_space by exact Hc.
    rewrite PyTextFacts.split_from_blank by exact Hws.
    apply app_nil_r.
Qed.

(** Stripping does not change the words. *)
Lemma word_count_strip (s : string) :
  WordCount.word_count (PyStr.strip s) = WordCount.word_count s.
Proof.
  rewrite !WordCountProps.word_count_split. f_equal. f_equal.
  unfold PyText.split, PyStr.strip.
  destruct (PyRevFacts.rstrip_prefix s) as (ws2 & H2 & Hs).
  destruct (PyRevFacts.lstrip_suffix (PyStr.rstrip s)) as (ws1 & H1 & Hr).
  rewrite Hs at 2. rewrite split_from_app_blank by exact H2.
  rewrite Hr at 2. now rewrite PyTextFacts.split_from_skip.
Qed.

Lemma word_count_blank (s : string) :
  PyStr.truthy (PyStr.strip s) = false -> WordCount.word_count s = 0.
Proof.
  intros H. unfold WordCount.word_count. rewrite H. cbn.
  now rewrite orb_true_r.
Qed.

Lemma paragraphs_words (content : string) :
  foldr Z.add 0 (map WordCount.word_count (paragraphs content))
  = WordCount.word_count content.
Proof.
  unfold paragraphs.
  rewrite <- (join_split_blank_lines content EmptyString) at 2.
  cbn [append]. rewrite WordCountProps.word_count_join.
  induction (split_blank_lines EmptyString content) as [|p ps IH];
    [reflexivity|].
  cbn [omap list_omap map foldr]. rewrite <- IH. cbn.
  destruct (PyStr.truthy (PyStr.strip p)) eqn:E; cbn.
  - now rewrite word_count_strip.
  - now rewrite word_count_blank.
Qed.

Lemma paragraph_words_app (a b : list Block) :
  paragraph_words (a ++ b) = paragraph_words a + paragraph_words b.
Proof.
  unfold paragraph_words. induction a as [|x a IH]; cbn; [reflexivity|].
  cbn in IH. rewrite IH. lia.
Qed.

Lemma section_words (section : ManuscriptSection) :
  paragraph_words (section_blocks section)
  = WordCount.word_count (ms_content section).
Proof.
  unfold section_blocks. rewrite !paragraph_words_app.
  replace (paragraph_words
             (if PyStr.truthy (ms_name section)
              then [Heading 1 (ms_name section)] else [])) with 0
    by (now destruct (PyStr.truthy (ms_name section))).
  change (paragraph_words [Paragraph EmptyString]) with 0.
  rewrite <- paragraphs_words. unfold paragraph_words.
  rewrite map_map.
  rewrite (map_ext _ WordCount.word_count) by reflexivity. lia.
Qed.

Lemma paragraphs_stripped (content p : string) :
  In p (paragraphs content) ->
  PyStr.truthy p = true /\ exists piece, p = PyStr.strip piece.
Proof.
  unfold paragraphs. rewrite <- list_elem_of_In, list_elem_of_omap.
  intros (piece & _ & H).
  destruct (PyStr.truthy (PyStr.strip piece)) eqn:E; [|discriminate].
  injection H as <-. eauto.
Qed.

(** X24: the manuscript document loses and adds no words: the paragraphs
    written for the sections carry exactly the words that
    [manuscript_word_count] counts, each section giving its own count;
    and none of these paragraphs is empty except the one spacer that
    closes each section. *)
Theorem document_keeps_words (m : PresentationManuscript) :
  paragraph_words (concat (map section_blocks (pm_sections m)))
  = WordCount.manuscript_word_count m
  /\ (forall s, In s (pm_sections m) ->
        paragraph_words (section_blocks s)
        = WordCount.word_count (ms_content s))
  /\ (forall s text, In s (pm_sections m) ->
        In (Paragraph text) (section_blocks s) ->
        text = EmptyString
        \/ (PyStr.truthy text = true /\ exists piece, text = PyStr.strip piece)).
Proof.
  split; [|split].
  - rewrite WordCountProps.manuscript_word_count_sections_eq.
    induction (pm_sections m) as [|s rest IH]; [reflexivity|].
    cbn [map concat foldr]. rewrite paragraph_words_app, section_words, IH.
    reflexivity.
  - intros s _. apply section_words.
  - intros s text _ Hin. unfold section_blocks in Hin.
    apply in_app_or in Hin as [Hin|Hin].
    { destruct (PyStr.truthy (ms_name s)); [|destruct Hin].
      destruct Hin as [[=]|[]]. }
    apply in_app_or in Hin as [Hin|Hin].
    + right. apply in_map_iff in Hin as (p & [= <-] & Hp).
      now apply paragraphs_stripped in Hp.
    + left. destruct Hin as [[= <-]|[]]. reflexivity.
Qed.

End ScriptExporterProps.

(** ** Layouts across a deck *)

Module DeckLayoutProps.
Import DesignLibrary.

Local Open Scope Z_scope.

(** X25: the opening layouts HERO_BACKGROUND and BOLD_SECTION_DIVIDER are
    chosen for the slide at index 0 and for no other slide; CONCLUSION is
    chosen exactly for a last slide that is not the first, so a deck of
    one slide has no conclusion layout; TITLE_SLIDE, TITLE_AND_BULLETS
    and IMAGE_FOCUS are never chosen. *)
Theorem select_layout_positions (slide : SlideWithImage) (i total : Z) :
  let layout := select_layout slide i total in
  ((layout = HERO_BACKGROUND \/ layout = BOLD_SECTION_DIVIDER) <-> i = 0)
  /\ (layout = CONCLUSION <-> (i <> 0 /\ i = total - 1))
  /\ layout <> TITLE_SLIDE
  /\ layout <> TITLE_AND_BULLETS
  /\ layout <> IMAGE_FOCUS.
Proof.
  unfold select_layout.
  destruct (Z.eqb_spec i 0) as [Hi|Hi].
  { destruct (has_image_of slide); repeat split; auto; try discriminate;
      intros; intuition (discriminate || lia). }
  destruct (Z.eqb_spec i (total - 1)) as [Hl|Hl].
  { repeat split; auto; try discriminate; intros; intuition (discriminate || lia). }
  destruct (has_image_of slide); cbn [andb].
  - destruct (Z.leb_spec (bullet_count_of slide) 2).
    { repeat split; try discriminate; intros; intuition (discriminate || lia). }
    destruct (Z.leb_spec (bullet_count_of slide) 1); [lia|].
    repeat split; try discriminate; intros; intuition (discriminate || lia).
  - destruct (bullet_count_of slide >=? 4);
      [|destruct (bullet_count_of slide <=? 2)];
      repeat split; try discriminate; intros;
      intuition (discriminate || lia).
Qed.

End DeckLayoutProps.

(** ** Witnesses on sample data *)

Module MoreWitnesses.
Import Eff NotesGenerator Fixtures FixturesMore.

Local Open Scope string_scope.

Example notes_on_three_slides :
  map sc_speaker_notes (generate notes_twice_for_one tides three_slides)
  = ["Open with the question"; "Full moon, highest tides"; EmptyString].
Proof. reflexivity. Qed.

Lemma notes_generate_lookup_witness :
  exists s',
    generate notes_twice_for_one tides three_slides !! 0%nat = Some s'
    /\ sc_speaker_notes s' = "Open with the question".
Proof.
  destruct (NotesProps.notes_generate_lookup notes_twice_for_one tides
              three_slides _ eq_refl 0%nat _ eq_refl) as (s' & Hs' & _ & Hlast).
  exists s'. split; [exact Hs'|].
  apply (Hlast [mkSlideNotesOutput 1 "Open with the harbour story";
                mkSlideNotesOutput 2 "Full moon, highest tides"]
               (mkSlideNotesOutput 1 "Open with the question") []);
    [reflexivity|reflexivity|intros n' []].
Defined.

End MoreWitnesses.
